(** * stream_spi_rpi5.py: the MI48 thermal-camera acquisition loop

    A shallow embedding of [src/stream_spi_rpi5.py] and the properties of
    its frame normalisation, frame serialisation, command line and
    acquisition loop.

    Layout: Part I holds the model (every definition follows the Python
    source, line numbers are given); Part II holds the lemmas and theorems.

    Numbers.  NumPy computes the display normalisation in IEEE-754
    binary32.  The model uses the Standard Library's executable
    specification of IEEE arithmetic ([SpecFloat], round to nearest even)
    at precision 24 and exponent bound 128, so every rounding of the
    source is present in the model. *)

From Stdlib Require Import ZArith NArith List Bool String Ascii Lia.
From Stdlib Require Import Floats.SpecFloat.
From Stdlib Require Import DecimalString DecimalN DecimalPos.
From stdpp Require Import base option list gmap strings.

Local Open Scope Z_scope.

(* ===================================================================== *)
(** * Part I: the model *)
(* ===================================================================== *)

(** ** binary32 arithmetic (NumPy's [float32]) *)

Module F32.

Definition prec : Z := 24.
Definition emax : Z := 128.

(** Conversion of an integer: exact below [2^24], rounded above. *)
Definition of_Z (z : Z) : spec_float := binary_normalize prec emax z 0 false.

(** Conversion of a float of any binary format ([astype(np.float32)]). *)
Definition round (x : spec_float) : spec_float :=
  match x with
  | S754_finite s m e => binary_round prec emax s m e
  | _ => x
  end.

Definition sub : spec_float -> spec_float -> spec_float := SFsub prec emax.
Definition mul : spec_float -> spec_float -> spec_float := SFmul prec emax.
Definition div : spec_float -> spec_float -> spec_float := SFdiv prec emax.

Definition ltb : spec_float -> spec_float -> bool := SFltb.
Definition leb : spec_float -> spec_float -> bool := SFleb.
Definition eqb : spec_float -> spec_float -> bool := SFeqb.

Definition is_nan (x : spec_float) : bool :=
  match x with S754_nan => true | _ => false end.

Definition is_finite (x : spec_float) : bool :=
  match x with S754_zero _ | S754_finite _ _ _ => true | _ => false end.

(** [np.minimum] and [np.maximum] on two scalars: the first operand wins
    when it compares below (above or equal) or is a NaN. *)
Definition minimum (a b : spec_float) : spec_float :=
  if ltb a b || is_nan a then a else b.
Definition maximum (a b : spec_float) : spec_float :=
  if leb b a || is_nan a then a else b.

(** The Python literal [255.0] as a binary32 value. *)
Definition c255 : spec_float := S754_finite false 16711680 (-16).

(** Integer part, rounded towards zero, of a finite float. *)
Definition trunc (x : spec_float) : Z :=
  match x with
  | S754_finite s m e => cond_Zopp s (Z.shiftl (Z.pos m) e)
  | _ => 0
  end.

(** [astype(np.uint8)]: the C conversion truncates towards zero.  For
    values outside [0, 256) the C standard leaves the result open; the
    model keeps the low byte of the truncated value and sends NaN and the
    infinities to 0.  Whatever happens there the result is a byte. *)
Definition to_uint8 (x : spec_float) : Z :=
  match x with
  | S754_finite _ _ _ => trunc x mod 256
  | _ => 0
  end.

End F32.

(** A mantissa in the rounding procedure with nothing shifted out yet. *)
Definition exact_rec (m : Z) : shr_record :=
  {| shr_m := m; shr_r := false; shr_s := false |}.

(** ** Python values and exceptions used by the script *)

Module Py.

Inductive exn :=
| AttributeError (name : string)
| ValueError (msg : string)
| DriverError (msg : string)
| SystemExit (code : Z).

Inductive value :=
| VBool (b : bool)
| VInt (z : Z)
| VFloat (x : spec_float).

(** Truth value of an object in an [if]. *)
Definition truthy (v : value) : bool :=
  match v with
  | VBool b => b
  | VInt z => negb (z =? 0)
  | VFloat (S754_zero _) => false
  | VFloat _ => true
  end.

(** [ord('q')] *)
Definition ord_q : Z := 113.

End Py.

(** ** NumPy arrays as the script uses them *)

(** An array is a shape and its samples in C (row-major) order.  The
    script only asks whether the dtype is [np.uint16] (line 77); every
    other frame it receives holds floating-point samples. *)
Inductive samples :=
| U16 (l : list N)
| Floats (l : list spec_float).

Record ndarray := { shape : list nat; buffer : samples }.

(** A [uint8] image: shape and pixels in C order. *)
Record image8 := { im_shape : list nat; im_pixels : list Z }.

Definition size (arr : ndarray) : nat :=
  match buffer arr with
  | U16 l => length l
  | Floats l => length l
  end.

(** [arr.astype(np.float32)] on the flat buffer. *)
Definition astype_float32 (s : samples) : list spec_float :=
  match s with
  | U16 l => map (fun n => F32.of_Z (Z.of_N n)) l
  | Floats l => map F32.round l
  end.

(** [a.min()] and [a.max()]: reductions with [np.minimum] / [np.maximum];
    NumPy raises [ValueError] on an empty array ([None] here). *)
Definition amin (a : list spec_float) : option spec_float :=
  match a with
  | [] => None
  | x :: t => Some (fold_left F32.minimum t x)
  end.

Definition amax (a : list spec_float) : option spec_float :=
  match a with
  | [] => None
  | x :: t => Some (fold_left F32.maximum t x)
  end.

(** One pixel of line 211:
    [((v - img_min) * 255.0 / (img_max - img_min)).astype(np.uint8)],
    every operation rounded to binary32. *)
Definition scale (img_min img_max v : spec_float) : Z :=
  F32.to_uint8
    (F32.div (F32.mul (F32.sub v img_min) F32.c255) (F32.sub img_max img_min)).

(** Lines 207-213: normalisation of the frame for display. *)
Definition normalize (img : ndarray) : string + image8 :=
  let img_float := astype_float32 (buffer img) in
  match amin img_float, amax img_float with
  | Some img_min, Some img_max =>
      if F32.ltb img_min img_max
      then inr {| im_shape := shape img;
                  im_pixels := map (scale img_min img_max) img_float |}
      else inr {| im_shape := shape img;
                  im_pixels := repeat 0 (length img_float) |}
  | _, _ => inl "zero-size array to reduction operation"%string
  end.

(** ** Text formats of [write_frame] *)

Definition newline : string := String "010"%char EmptyString.
Definition space : string := String " "%char EmptyString.

(** ['{:n}'] on a [np.uint16]: the decimal digits of the integer (the
    script never sets a locale, so no grouping is inserted). *)
Definition format_n (n : N) : string := NilZero.string_of_uint (N.to_uint n).

(** Division rounded to the nearest integer, ties to even
    ([0 <= num], [0 < den]). *)
Definition div_half_even (num den : Z) : Z :=
  let q := num / den in
  match 2 * (num mod den) ?= den with
  | Lt => q
  | Gt => q + 1
  | Eq => if Z.even q then q else q + 1
  end.

(** [|m * 2^e| * 100] rounded to an integer: the digits that ['.2f']
    prints (Python rounds the exact binary value correctly). *)
Definition hundredths (m : positive) (e : Z) : Z :=
  if 0 <=? e then Z.pos m * 2 ^ e * 100
  else div_half_even (Z.pos m * 100) (2 ^ (- e)).

Definition digit (d : Z) : ascii := ascii_of_nat (48 + Z.to_nat d).

Definition fixed2 (neg : bool) (h : Z) : string :=
  (if neg then "-" else "")
  +:+ NilZero.string_of_uint (N.to_uint (Z.to_N (h / 100)))
  +:+ String "."%char
        (String (digit (h mod 100 / 10)) (String (digit (h mod 10)) EmptyString)).

(** ['{:.2f}'] on a floating-point scalar. *)
Definition format_2f (x : spec_float) : string :=
  match x with
  | S754_nan => "nan"
  | S754_infinity s => if s then "-inf" else "inf"
  | S754_zero s => fixed2 s 0
  | S754_finite s m e => fixed2 s (hundredths m e)
  end.

(** Lines 77-80: the text [outstr] of one frame. *)
Definition outstr (arr : ndarray) : string :=
  match buffer arr with
  | U16 l => String.concat "" (map (fun v => format_n v +:+ space) l) +:+ newline
  | Floats l => String.concat "" (map (fun v => format_2f v +:+ space) l) +:+ newline
  end.

(** Reading a recorded line back: the maximal runs of characters other
    than blank and newline (what [str.split()] returns). *)
Definition is_ws (c : ascii) : bool :=
  (Ascii.eqb c " " || Ascii.eqb c "010")%char.

Fixpoint split_ws (cur : string) (s : string) : list string :=
  match s with
  | EmptyString => match cur with EmptyString => [] | _ => [cur] end
  | String c s' =>
      if is_ws c
      then match cur with
           | EmptyString => split_ws EmptyString s'
           | _ => cur :: split_ws EmptyString s'
           end
      else split_ws (cur +:+ String c EmptyString) s'
  end.

Definition tokens (line : string) : list string := split_ws EmptyString line.

(** No blank and no newline inside. *)
Fixpoint no_ws (s : string) : bool :=
  match s with
  | EmptyString => true
  | String c s' => negb (is_ws c) && no_ws s'
  end.

Fixpoint count_char (c : ascii) (s : string) : nat :=
  match s with
  | EmptyString => 0
  | String c' s' => (if Ascii.eqb c c' then 1 else 0) + count_char c s'
  end.

Definition is_digit (c : ascii) : bool :=
  let n := nat_of_ascii c in (48 <=? n)%nat && (n <=? 57)%nat.

Fixpoint all_digits (s : string) : bool :=
  match s with
  | EmptyString => true
  | String c s' => is_digit c && all_digits s'
  end.

(** A nonempty run of decimal digits: an integer without decimal point. *)
Definition is_integer_text (s : string) : bool :=
  match s with
  | EmptyString => false
  | _ => all_digits s
  end.

(** Digits, a point and exactly two digits, after an optional sign. *)
Fixpoint is_fixed2_unsigned (seen_digit : bool) (s : string) : bool :=
  match s with
  | String "."%char (String d1 (String d2 EmptyString)) =>
      seen_digit && is_digit d1 && is_digit d2
  | String c s' => is_digit c && is_fixed2_unsigned true s'
  | EmptyString => false
  end.

Definition is_fixed2_text (s : string) : bool :=
  match s with
  | String "-"%char s' => is_fixed2_unsigned false s'
  | _ => is_fixed2_unsigned false s
  end.

(** ** The libraries the script calls *)

Inductive colormap := COLORMAP_JET.
Inductive interpolation := INTER_CUBIC.

(** Functions of [senxor], OpenCV and the Python runtime.  Their code is
    not part of the script; the model is stated over any implementation. *)
Class Externals := {
  header : Type;                       (* frame header of [mi48.read] *)
  picture : Type;                      (* colour image of OpenCV *)
  DATA_READY : Z;                      (* status bit of [senxor.mi48] *)
  float_of_string : string -> option spec_float;     (* [float(s)] *)
  str_of_float : spec_float -> string;               (* [str(x)] *)
  data_to_frame : ndarray -> nat * nat -> string + ndarray;
  format_header : header -> string;
  format_framestats : ndarray -> string;
  cv_filter : image8 -> Z -> bool -> bool -> bool -> image8;
  applyColorMap : image8 -> colormap -> picture;
  resize : picture -> nat * nat -> interpolation -> picture
}.

(** What the sensor and the process environment answer at start-up. *)
Record sensor := {
  camera_id_hex : string;
  fw_version : string;                 (* as printed at line 154 *)
  fw_major : Z;                        (* [int(mi48.fw_version[0])] *)
  fpa_shape : nat * nat;
  has_data_ready : bool;               (* [hasattr(mi48, 'data_ready')] *)
  clock : string;                      (* [time.strftime('%Y%m%d-%H%M%S')] *)
  debug_enabled : bool                 (* [LOGLEVEL] selects DEBUG *)
}.

(** Configuration constants, lines 50-58. *)
Definition I2C_CHANNEL : Z := 1.
Definition I2C_ADDRESS : Z := 64.
Definition SPI_BUS : Z := 0.
Definition SPI_DEVICE : Z := 1.
Definition SPI_MODE : Z := 0.
Definition SPI_MAX_SPEED_HZ : Z := 31200000.
Definition DEFAULT_FPS : Z := 7.

Definition SIGINT : Z := 2.
Definition SIGTERM : Z := 15.

(** ** Command line (lines 62-68) *)

Inductive action := store | store_true.

Record argument := {
  option_strings : list string;
  arg_action : action;
  arg_default : Py.value
}.

(** [s.lstrip('-')] *)
Fixpoint lstrip_dash (s : string) : string :=
  match s with
  | String "-"%char r => lstrip_dash r
  | _ => s
  end.

Definition is_long_option (s : string) : bool := String.prefix "--" s.

Fixpoint dash_to_underscore (s : string) : string :=
  match s with
  | EmptyString => EmptyString
  | String c r =>
      String (if Ascii.eqb c "-" then "_"%char else c) (dash_to_underscore r)
  end.

(** [argparse]: the attribute name is taken from the first long option
    string, or from the first option string when there is no long one. *)
Definition dest (a : argument) : string :=
  let chosen :=
    match filter (fun s => is_long_option s = true) (option_strings a) with
    | s :: _ => s
    | [] => match option_strings a with s :: _ => s | [] => EmptyString end
    end in
  dash_to_underscore (lstrip_dash chosen).

(** The two [add_argument] calls of [parse_args]. *)
Definition arguments : list argument :=
  [ {| option_strings := ["-r"; "--record"]%string;
       arg_action := store_true;
       arg_default := Py.VBool false |};
    {| option_strings := ["-fps"; "--framerate"]%string;
       arg_action := store;
       arg_default := Py.VInt DEFAULT_FPS |} ].

Definition defaults : gmap string Py.value :=
  foldr (fun a ns => <[dest a := arg_default a]> ns) ∅ arguments.

Definition find_argument (tok : string) : option argument :=
  List.find (fun a => existsb (String.eqb tok) (option_strings a)) arguments.

Section CommandLine.
Context `{Externals}.

(** Options are matched by their exact spelling; [argparse] exits with
    status 2 on anything it cannot parse. *)
Fixpoint parse_known (argv : list string) (ns : gmap string Py.value)
  : Py.exn + gmap string Py.value :=
  match argv with
  | [] => inr ns
  | tok :: rest =>
      match find_argument tok with
      | None => inl (Py.SystemExit 2)
      | Some a =>
          match arg_action a with
          | store_true => parse_known rest (<[dest a := Py.VBool true]> ns)
          | store =>
              match rest with
              | [] => inl (Py.SystemExit 2)
              | text :: rest' =>
                  match float_of_string text with
                  | None => inl (Py.SystemExit 2)
                  | Some x => parse_known rest' (<[dest a := Py.VFloat x]> ns)
                  end
              end
          end
      end
  end.

Definition parse_args (argv : list string) : Py.exn + gmap string Py.value :=
  parse_known argv defaults.

End CommandLine.

(** Attribute access [args.name] on the namespace. *)
Definition getattr (ns : gmap string Py.value) (name : string) : Py.exn + Py.value :=
  match ns !! name with
  | Some v => inr v
  | None => inl (Py.AttributeError name)
  end.

(** Line 70-73. *)
Definition get_filename (ts tag : string) : string :=
  tag +:+ "--" +:+ ts +:+ ".dat".

(** ** The process: events, files, signals *)

(** How a computation ends. *)
Inductive outcome (A : Type) :=
| Ok (a : A)
| Raise (e : Py.exn)
| Pending.                             (* still blocked when the observation ends *)
Arguments Ok {A} a.
Arguments Raise {A} e.
Arguments Pending {A}.

Section Process.
Context `{Externals}.

(** Calls that leave the process, in the order they are made. *)
Inductive event :=
| EvPrint (s : string)
| EvLogInfo (s : string)
| EvLogDebug (s : string)
| EvSignal (signum : Z)
| EvGpioFactory (chip : Z)
| EvI2C (channel address : Z)
| EvSpi (bus device xfer_size : Z)
| EvSpiConfig (mode max_speed_hz bits_per_word : Z) (lsbfirst : bool)
| EvGpioInput (pin : string)
| EvGpioOutput (pin : string)
| EvSensorInit
| EvGetCameraInfo
| EvSetFps (fps : Py.value)
| EvEnableFilter (f1 f2 f3 : bool)
| EvSetOffsetCorr (offset : spec_float)
| EvStart (stream with_header : bool)
| EvStop (poll_timeout_ms : option Z) (stop_timeout_ms : Z)
| EvWaitActive
| EvGetStatus (status : Z)
| EvSleep (ms : Z)
| EvRead
| EvOpen (name : string) (fd : nat)
| EvWrite (fd : nat) (text : string)
| EvFlush (fd : nat)
| EvClose (fd : nat)
| EvShow (title : string) (pic : picture)
| EvWaitKey (delay_ms : Z) (key : Z)
| EvDestroyAllWindows.

(** A text file opened for writing: what has reached the file and what
    still sits in the stream buffer. *)
Record file := {
  f_name : string;
  f_closed : bool;
  f_written : string;
  f_pending : string
}.

Record world := {
  w_events : list event;             (* most recent first *)
  w_streaming : bool;                (* the sensor is streaming *)
  w_files : list file;               (* files opened so far, by descriptor *)
  w_window : option picture;         (* what the window shows, if any *)
  w_signal : option nat              (* statements left before SIGINT/SIGTERM *)
}.

Definition M (A : Type) : Type := world -> outcome A * world.

#[export] Instance M_ret : MRet M := fun A a w => (Ok a, w).
#[export] Instance M_bind : MBind M := fun A B f m w =>
  match m w with
  | (Ok a, w') => f a w'
  | (Raise e, w') => (Raise e, w')
  | (Pending, w') => (Pending, w')
  end.

Definition raise {A} (e : Py.exn) : M A := fun w => (Raise e, w).
Definition pending {A} : M A := fun w => (Pending, w).

(** A library call that either raises [ValueError] or returns. *)
Definition value_or_raise {A} (r : string + A) : M A :=
  match r with
  | inl msg => raise (Py.ValueError msg)
  | inr a => mret a
  end.

Definition lift {A} (r : Py.exn + A) : M A :=
  match r with
  | inl e => raise e
  | inr a => mret a
  end.

(** [try: body finally: handler] *)
Definition try_finally {A} (body : M A) (handler : M unit) : M A := fun w =>
  match body w with
  | (Pending, w') => (Pending, w')
  | (r, w') =>
      match handler w' with
      | (Ok _, w'') => (r, w'')
      | (Raise e, w'') => (Raise e, w'')
      | (Pending, w'') => (Pending, w'')
      end
  end.

Definition emit (ev : event) : M unit := fun w =>
  (Ok (), {| w_events := ev :: w_events w;
             w_streaming := w_streaming w;
             w_files := w_files w;
             w_window := w_window w;
             w_signal := w_signal w |}).

Definition set_streaming (b : bool) : M unit := fun w =>
  (Ok (), {| w_events := w_events w;
             w_streaming := b;
             w_files := w_files w;
             w_window := w_window w;
             w_signal := w_signal w |}).

Definition set_files (fs : list file) : M unit := fun w =>
  (Ok (), {| w_events := w_events w;
             w_streaming := w_streaming w;
             w_files := fs;
             w_window := w_window w;
             w_signal := w_signal w |}).

Definition set_window (p : option picture) : M unit := fun w =>
  (Ok (), {| w_events := w_events w;
             w_streaming := w_streaming w;
             w_files := w_files w;
             w_window := p;
             w_signal := w_signal w |}).

Definition set_signal (s : option nat) : M unit := fun w =>
  (Ok (), {| w_events := w_events w;
             w_streaming := w_streaming w;
             w_files := w_files w;
             w_window := w_window w;
             w_signal := s |}).

Definition get_files : M (list file) := fun w => (Ok (w_files w), w).

(** *** The driver and the display *)

Definition mi48_stop (poll_timeout_ms : option Z) (stop_timeout_ms : Z) : M unit :=
  emit (EvStop poll_timeout_ms stop_timeout_ms);; set_streaming false.

Definition mi48_start (stream with_header : bool) : M unit :=
  emit (EvStart stream with_header);; set_streaming true.

Definition destroyAllWindows : M unit :=
  emit EvDestroyAllWindows;; set_window None.

Definition imshow (title : string) (pic : picture) : M unit :=
  emit (EvShow title pic);; set_window (Some pic).

(** *** Files *)

Definition file_open (name : string) : M nat :=
  fs ← get_files;
  let fd := length fs in
  emit (EvOpen name fd);;
  set_files (fs ++ [ {| f_name := name; f_closed := false;
                        f_written := ""; f_pending := "" |} ]);;
  mret fd.

Definition closed_file_error : Py.exn :=
  Py.ValueError "I/O operation on closed file.".

Definition with_open_file (fd : nat) (k : file -> M unit) : M unit :=
  fs ← get_files;
  match fs !! fd with
  | Some f => if f_closed f then raise closed_file_error else k f
  | None => raise closed_file_error
  end.

Definition file_write (fd : nat) (text : string) : M unit :=
  with_open_file fd (fun f =>
    emit (EvWrite fd text);;
    fs ← get_files;
    set_files (<[fd := {| f_name := f_name f; f_closed := false;
                          f_written := f_written f;
                          f_pending := f_pending f +:+ text |}]> fs)).

Definition file_flush (fd : nat) : M unit :=
  with_open_file fd (fun f =>
    emit (EvFlush fd);;
    fs ← get_files;
    set_files (<[fd := {| f_name := f_name f; f_closed := false;
                          f_written := f_written f +:+ f_pending f;
                          f_pending := "" |}]> fs)).

(** Closing flushes; closing a closed file does nothing. *)
Definition file_close (fd : nat) : M unit :=
  emit (EvClose fd);;
  fs ← get_files;
  match fs !! fd with
  | Some f =>
      set_files (<[fd := {| f_name := f_name f; f_closed := true;
                            f_written := f_written f +:+ f_pending f;
                            f_pending := "" |}]> fs)
  | None => mret ()
  end.

(** *** Signals *)

(** Lines 90-95.  [sys.exit(0)] raises [SystemExit] in the interrupted
    code. *)
Definition signal_handler : M unit :=
  emit (EvLogInfo "Shutting down...");;
  mi48_stop (Some 250) 1200;;
  destroyAllWindows;;
  raise (Py.SystemExit 0).

(** Python runs a signal handler between two statements of the main
    thread.  [w_signal = Some n] schedules one signal after [n] more
    statements. *)
Definition tick : M unit := fun w =>
  match w_signal w with
  | None => (Ok (), w)
  | Some (S n) => set_signal (Some n) w
  | Some O => (set_signal None;; signal_handler) w
  end.

(** One statement of the main thread. *)
Definition stmt {A} (m : M A) : M A := tick;; m.

End Process.

(** ** The script *)

(** What the loop asks of [while True] after one pass. *)
Inductive flow := Continue | Break.

Section Script.
Context `{Externals}.
Variable cam : sensor.

(** What the sensor and the keyboard answer during one pass of the
    loop. *)
Record cycle := {
  c_status : list Z;                 (* successive [mi48.get_status()] *)
  c_read : string + (option ndarray * option header);
                                     (* [mi48.read()]: driver error or
                                        [(data, header)] *)
  c_key : Z                          (* [cv.waitKey(1)] *)
}.

(** Lines 75-82. *)
Definition write_frame (outfile : nat) (arr : ndarray) : M unit :=
  let text := outstr arr in
  stmt (file_write outfile text);;
  stmt (file_flush outfile).

Definition default_title : string := "MI48 Thermal Camera".

(** Lines 84-88. *)
Definition display_thermal_image (img : image8) (title : string) : M unit :=
  let img_colored := applyColorMap img COLORMAP_JET in
  let img_resized := resize img_colored (640, 496)%nat INTER_CUBIC in
  stmt (imshow title img_resized).

(** Lines 185-186: [while not (mi48.get_status() & DATA_READY):
    time.sleep(0.01)]. *)
Fixpoint poll (statuses : list Z) : M unit :=
  match statuses with
  | [] => pending
  | s :: rest =>
      stmt (emit (EvGetStatus s));;
      if Z.land s DATA_READY =? 0
      then stmt (emit (EvSleep 10));; poll rest
      else mret ()
  end.

(** Lines 182-186. *)
Definition wait_for_data (c : cycle) : M unit :=
  if has_data_ready cam
  then stmt (emit EvWaitActive)
  else poll (c_status c).

(** Line 189. *)
Definition mi48_read (c : cycle) : M (option ndarray * option header) :=
  emit EvRead;;
  match c_read c with
  | inl msg => raise (Py.DriverError msg)
  | inr r => mret r
  end.

Definition logger_debug (s : string) : M unit :=
  if debug_enabled cam then emit (EvLogDebug s) else mret ().

Definition waitKey (delay_ms : Z) (c : cycle) : M Z :=
  emit (EvWaitKey delay_ms (c_key c));; mret (c_key c).

(** Lines 181-225: one pass of the loop body. *)
Definition iteration (fd_data : option nat) (c : cycle) : M flow :=
  wait_for_data c;;
  '(data, hdr) ← stmt (mi48_read c);
  match data with
  | None => mret Continue
  | Some data =>
      match fd_data with
      | Some fd => write_frame fd data
      | None => mret ()
      end;;
      img ← stmt (value_or_raise (data_to_frame data (fpa_shape cam)));
      match hdr with
      | Some h =>
          stmt (logger_debug
                  (format_header h +:+ "  " +:+ format_framestats data))
      | None => mret ()
      end;;
      img8u ← stmt (value_or_raise (normalize img));
      let img8u := cv_filter img8u 3 false true false in
      display_thermal_image img8u default_title;;
      key ← stmt (waitKey 1 c);
      if key =? Py.ord_q then mret Break else mret Continue
  end.

(** Line 180: [while True].  When the answers run out the loop is still
    waiting for the sensor. *)
Fixpoint main_loop (fd_data : option nat) (script : list cycle) : M unit :=
  match script with
  | [] => pending
  | c :: rest =>
      f ← iteration fd_data c;
      match f with
      | Break => mret ()
      | Continue => main_loop fd_data rest
      end
  end.

(** Lines 227-235: the [finally] block. *)
Definition cleanup (fd_data : option nat) : M unit :=
  stmt (emit (EvPrint (newline +:+ "Cleaning up...")));;
  stmt (mi48_stop None 500);;
  match fd_data with
  | Some fd => stmt (file_close fd);; stmt (emit (EvPrint "Recording saved"))
  | None => mret ()
  end;;
  stmt destroyAllWindows;;
  stmt (emit (EvPrint "Done!")).

(** Lines 179-235. *)
Definition acquire (fd_data : option nat) (script : list cycle) : M unit :=
  try_finally (main_loop fd_data script) (cleanup fd_data).

(** Lines 160-235: everything after the frame rate is set. *)
Definition stream (args : gmap string Py.value) (script : list cycle) : M unit :=
  (if 2 <=? fw_major cam
   then stmt (emit (EvEnableFilter true true false));;
        stmt (emit (EvSetOffsetCorr (S754_zero false)));;
        stmt (emit (EvPrint "Filtering enabled"))
   else mret ());;
  record ← stmt (lift (getattr args "record"));
  fd_data ← (if Py.truthy record
             then let filename := get_filename (clock cam) (camera_id_hex cam) in
                  fd ← stmt (file_open filename);
                  stmt (emit (EvPrint ("Recording to: " +:+ filename)));;
                  mret (Some fd)
             else mret None);
  stmt (emit (EvPrint (newline +:+ "Starting thermal camera stream...")));;
  stmt (emit (EvPrint ("Press 'q' to quit" +:+ newline)));;
  stmt (mi48_start true true);;
  acquire fd_data script.

Definition str_of_value (v : Py.value) : string :=
  match v with
  | Py.VBool b => if b then "True" else "False"
  | Py.VInt z => NilZero.string_of_int (Z.to_int z)
  | Py.VFloat x => str_of_float x
  end.

Definition banner : string :=
  "============================================================".

(** Lines 104-235: the program once the command line is parsed. *)
Definition main_body (args : gmap string Py.value) (script : list cycle) : M unit :=
  emit (EvPrint banner);;
  emit (EvPrint "MI48 Thermal Camera for Raspberry Pi 5");;
  emit (EvPrint banner);;
  emit (EvSignal SIGINT);;
  emit (EvSignal SIGTERM);;
  stmt (emit (EvGpioFactory 4));;
  stmt (emit (EvPrint "Initializing I2C (address: 0x40)..."));;
  stmt (emit (EvI2C I2C_CHANNEL I2C_ADDRESS));;
  stmt (emit (EvPrint "Initializing SPI (bus: 0, device: 1)..."));;
  stmt (emit (EvSpi SPI_BUS SPI_DEVICE 160));;
  stmt (emit (EvSpiConfig SPI_MODE SPI_MAX_SPEED_HZ 8 false));;
  stmt (emit (EvPrint "Configuring GPIO pins..."));;
  stmt (emit (EvGpioInput "BCM24"));;
  stmt (emit (EvGpioOutput "BCM23"));;
  stmt (emit (EvPrint "Initializing MI48 sensor..."));;
  stmt (emit EvSensorInit);;
  stmt (emit EvGetCameraInfo);;
  stmt (emit (EvPrint ("Camera ID: " +:+ camera_id_hex cam)));;
  stmt (emit (EvPrint ("Firmware: " +:+ fw_version cam)));;
  fps ← stmt (lift (getattr args "fps"));
  emit (EvSetFps fps);;
  fps' ← stmt (lift (getattr args "fps"));
  emit (EvPrint ("Framerate: " +:+ str_of_value fps' +:+ " FPS"));;
  stream args script.

(** Lines 101-235: the program. *)
Definition main (argv : list string) (script : list cycle) : M unit :=
  args ← lift (parse_args argv);
  main_body args script.

End Script.

(** ** Observations on a run *)

Section Observations.
Context `{Externals}.

Definition is_open (ev : event) : bool :=
  match ev with EvOpen _ _ => true | _ => false end.

Definition is_set_fps (ev : event) : bool :=
  match ev with EvSetFps _ => true | _ => false end.

Definition is_debug (ev : event) : bool :=
  match ev with EvLogDebug _ => true | _ => false end.

(** Number of [open] calls made so far. *)
Definition opens (w : world) : nat := length (List.filter is_open (w_events w)).

(** Number of files that are open now. *)
Definition open_now (w : world) : nat :=
  length (List.filter (fun f => negb (f_closed f)) (w_files w)).

(** The lines of the debug log, oldest first. *)
Definition debug_lines (w : world) : list string :=
rev (omap (fun ev => match ev with EvLogDebug s => Some s | _ => None end)
          (w_events w)).

(** The events in the order they happened. *)
Definition history (w : world) : list event := rev (w_events w).

(** What is left of a run when the debug log is ignored. *)
Definition without_debug (w : world) : world :=
  {| w_events := List.filter (fun ev => negb (is_debug ev)) (w_events w);
     w_streaming := w_streaming w;
     w_files := w_files w;
     w_window := w_window w;
     w_signal := w_signal w |}.

(** The state at the start of the process. *)
Definition boot (signal : option nat) : world :=
  {| w_events := []; w_streaming := false; w_files := [];
     w_window := None; w_signal := signal |}.

(** The sensor stopped, every file closed and flushed, no window. *)
Definition released (w : world) : Prop :=
  w_streaming w = false
  /\ w_window w = None
  /\ Forall (fun f => f_closed f = true /\ f_pending f = EmptyString) (w_files w).

(** Number of events of one kind so far. *)
Definition count (P : event -> bool) (w : world) : nat :=
length (List.filter P (w_events w)).

(** What every statement of the loop and of the clean-up keeps, for a kind
    [P] of event that it never emits: the number of [P] events, the number
    of files, the absence of a scheduled signal; and [SystemExit] is only
    raised by the signal handler, after which no signal is scheduled. *)
Definition orderly (P : event -> bool) {A} (w : world) (r : outcome A) (w' : world) : Prop :=
count P w' = count P w
/\ length (w_files w') = length (w_files w)
/\ (w_signal w = None -> w_signal w' = None)
/\ match r with
   | Raise (Py.SystemExit _) => w_signal w' = None
   | _ => True
   end.

Definition well_behaved (P : event -> bool) {A} (m : M A) : Prop :=
forall w, orderly P w (m w).1 (m w).2.

(** Two runs that differ in the debug log only. *)
Definition same_but_debug {A} (x y : outcome A * world) : Prop :=
x.1 = y.1 /\ without_debug x.2 = without_debug y.2.

Definition debug_blind {A} (m1 m2 : M A) : Prop :=
forall w1 w2, without_debug w1 = without_debug w2 ->
              same_but_debug (m1 w1) (m2 w2).

(** The sensor, the files and the window. *)
Definition resources (w : world) : bool * list file * option picture :=
(w_streaming w, w_files w, w_window w).

(** kinds of event that only the start-up code emits *)
Definition startup_only (P : event -> bool) : Prop :=
  forall ev, P ev = true -> is_open ev = true \/ is_set_fps ev = true.

(** events of the signal handler *)
Definition spares_handler (P : event -> bool) : Prop :=
  P (EvLogInfo "Shutting down...") = false
  /\ P (EvStop (Some 250) 1200) = false
  /\ P EvDestroyAllWindows = false.

Definition is_sensing (ev : event) : bool :=
  match ev with
  | EvWaitActive | EvGetStatus _ | EvSleep _ | EvRead => true
  | _ => false
  end.

(** Only the sensor was consulted between two states. *)
Definition senses_only (w w' : world) : Prop :=
  resources w' = resources w
  /\ w_signal w' = w_signal w
  /\ exists new, w_events w' = new ++ w_events w /\ forallb is_sensing new = true.

Definition is_ready (s : Z) : bool := negb (Z.land s DATA_READY =? 0).

(** The wait of lines 182-186 ends. *)
Definition wait_ends (cam : sensor) (c : cycle) : bool :=
  has_data_ready cam || existsb is_ready (c_status c).

(** The file after [write_frame] wrote and flushed [text]. *)
Definition flushed (f : file) (text : string) : file :=
  {| f_name := f_name f; f_closed := false;
     f_written := f_written f +:+ (f_pending f +:+ text);
     f_pending := "" |}.

(** The file after [close]. *)
Definition closed (f : file) : file :=
  {| f_name := f_name f; f_closed := true;
     f_written := f_written f +:+ f_pending f;
     f_pending := "" |}.

(** Line 216-220: what the window shows for a normalised image. *)
Definition shown (img8u : image8) : picture :=
  resize (applyColorMap (cv_filter img8u 3 false true false) COLORMAP_JET)
         (640, 496)%nat INTER_CUBIC.

(** A pass in which the sensor has a data-ready signal but [read] returns
    no frame. *)
Definition empty_read (cam : sensor) (c : cycle) : Prop :=
  wait_ends cam c = true /\ exists hdr, c_read c = inr (None, hdr).

(** The recording file, when there is one, is open. *)
Definition sink_ready (fd_data : option nat) (w : world) : Prop :=
  match fd_data with
  | Some fd => exists f, w_files w !! fd = Some f /\ f_closed f = false
  | None => True
  end.

(** The files after a frame was recorded. *)
Definition recorded (fd_data : option nat) (data : ndarray) (fs : list file) : list file :=
  match fd_data with
  | Some fd =>
      match fs !! fd with
      | Some f => <[fd := flushed f (outstr data)]> fs
      | None => fs
      end
  | None => fs
  end.

(** Events of one complete pass, most recent first, after the wait. *)
Definition pass_events (cam : sensor) (fd_data : option nat) (c : cycle)
    (data : ndarray) (hdr : option header) (img8u : image8) : list event :=
  [EvWaitKey 1 (c_key c); EvShow default_title (shown img8u)]
  ++ match hdr with
     | Some h =>
         if debug_enabled cam
         then [EvLogDebug (format_header h +:+ "  " +:+ format_framestats data)]
         else []
     | None => []
     end
  ++ match fd_data with
     | Some fd => [EvFlush fd; EvWrite fd (outstr data)]
     | None => []
     end
  ++ [EvRead].

(** Events of the [finally] block, most recent first. *)
Definition cleanup_events (fd_data : option nat) : list event :=
  [EvPrint "Done!"; EvDestroyAllWindows]
  ++ match fd_data with
     | Some fd => [EvPrint "Recording saved"; EvClose fd]
     | None => []
     end
  ++ [EvStop None 500; EvPrint (newline +:+ "Cleaning up...")].

Definition closed_files (fd_data : option nat) (fs : list file) : list file :=
  match fd_data with
  | Some fd =>
      match fs !! fd with
      | Some f => <[fd := closed f]> fs
      | None => fs
      end
  | None => fs
  end.

(** The state the [finally] block leaves when it runs to its end. *)
Definition cleaned (fd_data : option nat) (w : world) : world :=
  {| w_events := cleanup_events fd_data ++ w_events w;
     w_streaming := false;
     w_files := closed_files fd_data (w_files w);
     w_window := None;
     w_signal := None |}.

(** A computation makes at most [k] calls of [open], and adds at most [k]
    files. *)
Definition adds_at_most (k : nat) {A} (m : M A) : Prop :=
  forall w, (opens (m w).2 <= opens w + k)%nat
            /\ (length (w_files (m w).2) <= length (w_files w) + k)%nat.

(** Events of lines 160-176 when recording is requested, most recent
    first. *)
Definition setup_events (cam : sensor) (fd : nat) : list event :=
  [EvStart true true;
   EvPrint ("Press 'q' to quit" +:+ newline);
   EvPrint (newline +:+ "Starting thermal camera stream...");
   EvPrint ("Recording to: " +:+ get_filename (clock cam) (camera_id_hex cam));
   EvOpen (get_filename (clock cam) (camera_id_hex cam)) fd]
  ++ if 2 <=? fw_major cam
     then [EvPrint "Filtering enabled"; EvSetOffsetCorr (S754_zero false);
           EvEnableFilter true true false]
     else [].

(** The state at line 179 when recording is requested and no signal
    arrives during the set-up. *)
Definition recording_started (cam : sensor) (w : world) : world :=
  {| w_events := setup_events cam (length (w_files w)) ++ w_events w;
     w_streaming := true;
     w_files := w_files w
                ++ [ {| f_name := get_filename (clock cam) (camera_id_hex cam);
                        f_closed := false; f_written := ""; f_pending := "" |} ];
     w_window := w_window w;
     w_signal := None |}.

(** A pass that reads the frame [data], processes it without error and
    does not see the quit key. *)
Definition frame_pass (cam : sensor) (c : cycle) (data : ndarray) : Prop :=
  wait_ends cam c = true
  /\ (exists hdr, c_read c = inr (Some data, hdr))
  /\ (exists img img8u, data_to_frame data (fpa_shape cam) = inr img
                        /\ normalize img = inr img8u)
  /\ c_key c <> Py.ord_q.

(** The samples of a frame as text, in C order. *)
Definition sample_words (arr : ndarray) : list string :=
  match buffer arr with
  | U16 l => map format_n l
  | Floats l => map format_2f l
  end.

(** The same state with no signal scheduled. *)
Definition unsignalled (w : world) : world :=
  {| w_events := w_events w; w_streaming := w_streaming w;
     w_files := w_files w; w_window := w_window w; w_signal := None |}.

(** A run that returns normally was not interrupted: it is the run that
    takes place when no signal is scheduled. *)
Definition uninterrupted {A} (m : M A) : Prop :=
  forall w a w', m w = (Ok a, w') -> m (unsignalled w) = (Ok a, unsignalled w').

(** *** Further observations: the command line, signals and records *)

(** [int(s)] on a word of a recorded line. *)
Definition int_of_word (s : string) : option N :=
  option_map N.of_uint (NilZero.uint_of_string s).




(** A computation that leaves the files alone. *)
Definition keeps_files {A} (m : M A) : Prop :=
  forall w, w_files (m w).2 = w_files w.

(** Everything a file holds, written or still buffered. *)
Definition content (f : file) : string := f_written f +:+ f_pending f.

(** Every file is still there under its name, and its text was only
    appended to. *)
Definition keeps_records (w w' : world) : Prop :=
  forall fd f, w_files w !! fd = Some f ->
    exists f' more, w_files w' !! fd = Some f'
                    /\ f_name f' = f_name f
                    /\ content f' = content f +:+ more.






Definition is_start (ev : event) : bool :=
  match ev with EvStart _ _ => true | _ => false end.

Definition is_read (ev : event) : bool :=
  match ev with EvRead => true | _ => false end.

(** A computation that ends, and never normally. *)
Definition always_raises {A} (m : M A) : Prop :=
  forall w, exists e, (m w).1 = Raise e.

End Observations.

(** ** A small implementation of the libraries, to run the model on
    examples *)

Definition reshape (arr : ndarray) (fpa : nat * nat) : string + ndarray :=
  if Nat.eqb (size arr) (fst fpa * snd fpa)
  then inr {| shape := [snd fpa; fst fpa]; buffer := buffer arr |}
  else inl "cannot reshape array"%string.

#[export] Instance plain_libraries : Externals := {|
  header := Z;
  picture := image8;
  DATA_READY := 16;
  float_of_string := fun s => if String.eqb s "10" then Some (F32.of_Z 10) else None;
  str_of_float := format_2f;
  data_to_frame := reshape;
  format_header := fun h => NilZero.string_of_int (Z.to_int h);
  format_framestats := fun arr => NilZero.string_of_uint (Nat.to_uint (size arr));
  cv_filter := fun img _ _ _ _ => img;
  applyColorMap := fun img _ => img;
  resize := fun pic _ _ => pic
|}.

Definition bench_camera : sensor :=
  {| camera_id_hex := "A1B2"; fw_version := "2.1.0"; fw_major := 2;
     fpa_shape := (2, 2)%nat; has_data_ready := true;
     clock := "20260101-120000"; debug_enabled := true |}.

(** A 2 x 2 frame of raw samples and two passes that read it. *)
Definition bench_frame : ndarray :=
  {| shape := [4]%nat; buffer := U16 [2931; 2950; 3012; 3100]%N |}.

Definition bench_pass (hdr : option Z) (key : Z) : cycle :=
  {| c_status := []; c_read := inr (Some bench_frame, hdr); c_key := key |}.

Definition bench_empty : cycle :=
  {| c_status := []; c_read := inr (None, None); c_key := -1 |}.

(** The state at line 179 with a fresh recording file. *)
Definition bench_recording : world := recording_started bench_camera (boot None).

(** The same state with a signal due after four more statements. *)
Definition bench_interrupted : world :=
  {| w_events := w_events bench_recording;
     w_streaming := w_streaming bench_recording;
     w_files := w_files bench_recording;
     w_window := w_window bench_recording;
     w_signal := Some 4%nat |}.

(** A camera without a data-ready line: the loop polls the status. *)
Definition bench_polling_camera : sensor :=
  {| camera_id_hex := "A1B2"; fw_version := "1.4.2"; fw_major := 1;
     fpa_shape := (2, 2)%nat; has_data_ready := false;
     clock := "20260101-120000"; debug_enabled := false |}.

(** Two statuses without the data-ready bit, then one with it. *)
Definition bench_polled : cycle :=
  {| c_status := [0; 0; 16]; c_read := inr (None, None); c_key := -1 |}.

(** A pass in which the driver fails. *)
Definition bench_failing : cycle :=
  {| c_status := []; c_read := inl "SPI transfer failed"%string; c_key := -1 |}.

(** A pass that reads three samples where the sensor array has four. *)
Definition bench_short_frame : ndarray :=
  {| shape := [3]%nat; buffer := U16 [2931; 2950; 3012]%N |}.

Definition bench_short : cycle :=
  {| c_status := []; c_read := inr (Some bench_short_frame, None); c_key := -1 |}.

(** The fresh recording file of [bench_recording]. *)
Definition bench_file : file :=
  {| f_name := "A1B2--20260101-120000.dat"; f_closed := false;
     f_written := ""; f_pending := "" |}.

(** The state at line 179 with a signal due right after one complete
    pass of the loop. *)
Definition bench_late_signal : world :=
  {| w_events := w_events bench_recording;
     w_streaming := w_streaming bench_recording;
     w_files := w_files bench_recording;
     w_window := w_window bench_recording;
     w_signal := Some 8%nat |}.

(* ===================================================================== *)
(** * Part II: properties *)
(* ===================================================================== *)

(** ** binary32 arithmetic on integers is exact *)

Section Binary32.

Lemma digits2_pos_size p : digits2_pos p = Pos.size p.
Proof. induction p; simpl; congruence. Qed.

Lemma Zdigits2_log2 z : 0 < z -> Zdigits2 z = Z.log2 z + 1.
Proof.
  destruct z as [|p|p]; try lia. intros _. simpl.
  rewrite digits2_pos_size. destruct p; simpl; lia.
Qed.

Lemma Zdigits2_mul_pow2 c k :
  0 < c -> 0 <= k -> Zdigits2 (c * 2 ^ k) = Zdigits2 c + k.
Proof.
  intros Hc Hk. rewrite !Zdigits2_log2 by nia.
  rewrite Z.log2_mul_pow2 by lia. lia.
Qed.

Lemma Zdigits2_bounds z : 0 < z -> 2 ^ (Zdigits2 z - 1) <= z < 2 ^ Zdigits2 z.
Proof.
  intros Hz. rewrite Zdigits2_log2 by lia.
  replace (Z.log2 z + 1 - 1) with (Z.log2 z) by lia.
  apply Z.log2_spec. lia.
Qed.

Lemma Zdigits2_pos z : 0 < z -> 0 < Zdigits2 z.
Proof.
  intros. rewrite Zdigits2_log2 by lia.
  pose proof (Z.log2_nonneg z). lia.
Qed.

Lemma Zdigits2_le_24 z : 0 < z < 2 ^ 24 -> Zdigits2 z <= 24.
Proof.
  intros [H0 H]. pose proof (Zdigits2_bounds z H0) as [Hl _].
  destruct (Z_le_gt_dec (Zdigits2 z) 24); [lia|].
  assert (2 ^ 24 <= 2 ^ (Zdigits2 z - 1)) by (apply Z.pow_le_mono_r; lia).
  lia.
Qed.

Lemma Zdigits2_mul_ge a b :
  0 < a -> 0 < b -> Zdigits2 a + Zdigits2 b - 1 <= Zdigits2 (a * b).
Proof.
  intros. rewrite !Zdigits2_log2 by nia.
  pose proof (Z.log2_mul_below a b). lia.
Qed.

Lemma Zdigits2_mul_le a b :
  0 < a -> 0 < b -> Zdigits2 (a * b) <= Zdigits2 a + Zdigits2 b.
Proof.
  intros. rewrite !Zdigits2_log2 by nia.
  pose proof (Z.log2_mul_above a b). lia.
Qed.

Lemma scaled_pos c d : 0 < c -> 0 <= d -> 0 < c * 2 ^ d.
Proof. intros. apply Z.mul_pos_pos; [lia | apply Z.pow_pos_nonneg; lia]. Qed.

Lemma Z_pos_to_pos z : 0 < z -> Z.pos (Z.to_pos z) = z.
Proof. intros. apply Z2Pos.id. lia. Qed.

(** The shift loop of the rounding procedure, as an iteration over [nat]. *)
Lemma iter_pos_nat {A} (f : A -> A) p x :
  SpecFloat.iter_pos f p x = Nat.iter (Pos.to_nat p) f x.
Proof.
  revert x. induction p as [p IH|p IH|]; intros x; cbn [SpecFloat.iter_pos].
  - rewrite !IH. rewrite Pos2Nat.inj_xI.
    replace (S (2 * Pos.to_nat p)) with (Pos.to_nat p + S (Pos.to_nat p))%nat by lia.
    rewrite Nat.iter_add. f_equal. now rewrite Nat.iter_succ_r.
  - rewrite !IH. rewrite Pos2Nat.inj_xO.
    replace (2 * Pos.to_nat p)%nat with (Pos.to_nat p + Pos.to_nat p)%nat by lia.
    now rewrite Nat.iter_add.
  - reflexivity.
Qed.

Lemma shr_1_exact c : 0 < c -> shr_1 (exact_rec (2 * c)) = exact_rec c.
Proof. destruct c as [|p|p]; try lia. reflexivity. Qed.

Lemma iter_shr_1_exact n c :
  0 < c -> Nat.iter n shr_1 (exact_rec (c * 2 ^ Z.of_nat n)) = exact_rec c.
Proof.
  intros Hc. induction n as [|n IH].
  - simpl. f_equal. lia.
  - rewrite Nat.iter_succ_r.
    replace (c * 2 ^ Z.of_nat (S n)) with (2 * (c * 2 ^ Z.of_nat n)).
    + rewrite shr_1_exact by nia. exact IH.
    + rewrite Nat2Z.inj_succ, Z.pow_succ_r by lia. ring.
Qed.

Lemma shr_exact c k n :
  0 < c -> 0 <= n <= k ->
  shr (exact_rec (c * 2 ^ k)) (- k) n = (exact_rec (c * 2 ^ (k - n)), n - k).
Proof.
  intros Hc Hn. unfold shr. destruct n as [|p|p]; try lia.
  - rewrite Z.sub_0_r. reflexivity.
  - rewrite iter_pos_nat. f_equal; [|lia].
    replace (c * 2 ^ k) with ((c * 2 ^ (k - Z.pos p)) * 2 ^ Z.of_nat (Pos.to_nat p)).
    + apply iter_shr_1_exact. nia.
    + rewrite positive_nat_Z. rewrite <- Z.mul_assoc, <- Z.pow_add_r by lia.
      f_equal. f_equal. lia.
Qed.

Lemma fexp_small d : -125 <= d -> fexp F32.prec F32.emax d = d - 24.
Proof. intros. unfold fexp, emin, F32.prec, F32.emax. lia. Qed.

Lemma shr_fexp_exact c k :
  0 < c < 2 ^ 24 -> 0 <= k -> 24 <= Zdigits2 c + k ->
  shr_fexp F32.prec F32.emax (c * 2 ^ k) (- k) loc_Exact
  = (exact_rec (c * 2 ^ (24 - Zdigits2 c)), Zdigits2 c - 24).
Proof.
  intros Hc Hk Hd. unfold shr_fexp.
  rewrite Zdigits2_mul_pow2 by lia.
  pose proof (Zdigits2_pos c ltac:(lia)).
  pose proof (Zdigits2_le_24 c Hc).
  replace (Zdigits2 c + k + - k) with (Zdigits2 c) by lia.
  rewrite fexp_small by lia.
  change (shr_record_of_loc (c * 2 ^ k) loc_Exact) with (exact_rec (c * 2 ^ k)).
  rewrite shr_exact; [| lia | lia].
  replace (k - (Zdigits2 c - 24 - - k)) with (24 - Zdigits2 c) by lia.
  f_equal. lia.
Qed.

(** Rounding an integer [c < 2^24] that is given with [k] trailing zero
    bits changes nothing but the representation. *)
Lemma binary_round_aux_exact c k :
  0 < c < 2 ^ 24 -> 0 <= k -> 24 <= Zdigits2 c + k ->
  binary_round_aux F32.prec F32.emax false (c * 2 ^ k) (- k) loc_Exact
  = S754_finite false (Z.to_pos (c * 2 ^ (24 - Zdigits2 c))) (Zdigits2 c - 24).
Proof.
  intros Hc Hk Hd. unfold binary_round_aux.
  rewrite shr_fexp_exact by assumption.
  cbn [shr_m exact_rec loc_of_shr_record round_nearest_even].
  pose proof (Zdigits2_pos c ltac:(lia)).
  pose proof (Zdigits2_le_24 c Hc).
  replace (Zdigits2 c - 24) with (- (24 - Zdigits2 c)) by lia.
  rewrite shr_fexp_exact by lia.
  cbn [shr_m exact_rec].
  assert (0 < c * 2 ^ (24 - Zdigits2 c)) by (apply scaled_pos; lia).
  destruct (c * 2 ^ (24 - Zdigits2 c)) as [|q|q] eqn:E; try lia.
  cbn [Z.to_pos].
  destruct (Z.leb_spec (Zdigits2 c - 24) (F32.emax - F32.prec)) as [_|Hgt].
  - f_equal. lia.
  - unfold F32.emax, F32.prec in Hgt. lia.
Qed.

Lemma shl_align_Z m e e' :
  e' <= e -> Z.pos (fst (shl_align m e e')) = Z.pos m * 2 ^ (e - e').
Proof.
  intros He. unfold shl_align.
  destruct (e' - e) as [|d|d] eqn:E; try lia; cbn [fst].
  - replace (e - e') with 0 by lia. lia.
  - change (Pos.iter xO m d) with (shift_pos d m).
    rewrite shift_pos_correct, Zpower.Zpower_pos_nat, Zpower.Zpower_nat_Z.
    rewrite positive_nat_Z. replace (e - e') with (Z.pos d) by lia. ring.
Qed.

Lemma shl_align_snd m e e' : e' <= e -> snd (shl_align m e e') = e'.
Proof.
  intros He. unfold shl_align.
  destruct (e' - e) as [|d|d] eqn:E; try lia; cbn [snd]; lia.
Qed.

(** integers scaled by a power of two normalise to the integer's float *)
Lemma binary_round_scaled c k :
  0 < c < 2 ^ 24 -> 0 <= k ->
  binary_round F32.prec F32.emax false (Z.to_pos (c * 2 ^ k)) (- k)
  = S754_finite false (Z.to_pos (c * 2 ^ (24 - Zdigits2 c))) (Zdigits2 c - 24).
Proof.
  intros Hc Hk. unfold binary_round.
  assert (Hpos : 0 < c * 2 ^ k) by (apply Z.mul_pos_pos; [lia | apply Z.pow_pos_nonneg; lia]).
  pose proof (Zdigits2_pos c ltac:(lia)) as Hd0.
  pose proof (Zdigits2_le_24 c Hc) as Hd24.
  destruct (c * 2 ^ k) as [|q|q] eqn:E; try lia. cbn [Z.to_pos].
  change (Z.pos (digits2_pos q)) with (Zdigits2 (Z.pos q)).
  rewrite <- E, Zdigits2_mul_pow2 by lia.
  replace (Zdigits2 c + k + - k) with (Zdigits2 c) by lia.
  rewrite fexp_small by lia.
  destruct (shl_align q (- k) (Zdigits2 c - 24)) as [mz ez] eqn:S.
  destruct (Z_le_gt_dec (Zdigits2 c - 24) (- k)) as [Hle|Hgt].
  - pose proof (shl_align_Z q (- k) _ Hle) as Hm.
    pose proof (shl_align_snd q (- k) _ Hle) as He.
    rewrite S in Hm, He. cbn [fst snd] in Hm, He. subst ez.
    rewrite Hm, <- E.
    replace (c * 2 ^ k * 2 ^ (- k - (Zdigits2 c - 24))) with (c * 2 ^ (24 - Zdigits2 c)).
    + replace (Zdigits2 c - 24) with (- (24 - Zdigits2 c)) at 1 by lia.
      apply binary_round_aux_exact; lia.
    + rewrite <- Z.mul_assoc, <- Z.pow_add_r by lia. f_equal. f_equal. lia.
  - unfold shl_align in S.
    destruct (Zdigits2 c - 24 - - k) as [|d|d] eqn:E'; try lia.
    inversion S; subst mz ez. rewrite <- E.
    apply binary_round_aux_exact; lia.
Qed.

Lemma of_Z_pos c :
  0 < c < 2 ^ 24 ->
  F32.of_Z c = S754_finite false (Z.to_pos (c * 2 ^ (24 - Zdigits2 c))) (Zdigits2 c - 24).
Proof.
  intros Hc. unfold F32.of_Z, binary_normalize.
  destruct c as [|p|p] eqn:E; try lia.
  pose proof (binary_round_scaled (Z.pos p) 0 Hc ltac:(lia)) as H.
  rewrite Z.pow_0_r, Z.mul_1_r in H. exact H.
Qed.

Lemma binary_normalize_scaled c k :
  0 <= c < 2 ^ 24 -> 0 <= k ->
  binary_normalize F32.prec F32.emax (c * 2 ^ k) (- k) false = F32.of_Z c.
Proof.
  intros Hc Hk. destruct (Z.eq_dec c 0) as [->|Hnz]; [reflexivity|].
  rewrite of_Z_pos by lia.
  assert (Hpos : 0 < c * 2 ^ k) by (apply Z.mul_pos_pos; [lia | apply Z.pow_pos_nonneg; lia]).
  rewrite <- (binary_round_scaled c k) by lia.
  unfold binary_normalize. destruct (c * 2 ^ k) as [|q|q]; try lia. reflexivity.
Qed.

(** subtraction of integer floats is exact *)
Lemma sub_of_Z a b :
  0 <= b <= a -> a < 2 ^ 24 ->
  F32.sub (F32.of_Z a) (F32.of_Z b) = F32.of_Z (a - b).
Proof.
  intros Hab Ha.
  destruct (Z.eq_dec b 0) as [->|Hb].
  { rewrite Z.sub_0_r. change (F32.of_Z 0) with (S754_zero false).
    destruct (Z.eq_dec a 0) as [->|Hnz]; [reflexivity|].
    rewrite of_Z_pos by lia. reflexivity. }
  rewrite (of_Z_pos a), (of_Z_pos b) by lia.
  pose proof (Zdigits2_pos a ltac:(lia)) as Hda0.
  pose proof (Zdigits2_pos b ltac:(lia)) as Hdb0.
  pose proof (Zdigits2_le_24 a ltac:(lia)) as Hda.
  pose proof (Zdigits2_le_24 b ltac:(lia)) as Hdb.
  assert (Hmono : Zdigits2 b <= Zdigits2 a).
  { rewrite !Zdigits2_log2 by lia. pose proof (Z.log2_le_mono b a). lia. }
  unfold F32.sub, SFsub.
  rewrite Z.min_r by lia.
  rewrite !shl_align_Z by lia.
  rewrite !Z_pos_to_pos by (apply scaled_pos; lia).
  cbn [cond_Zopp].
  replace (Zdigits2 b - 24 - (Zdigits2 b - 24)) with 0 by lia.
  rewrite Z.pow_0_r, Z.mul_1_r.
  rewrite <- Z.mul_assoc, <- Z.pow_add_r by lia.
  replace (24 - Zdigits2 a + (Zdigits2 a - 24 - (Zdigits2 b - 24))) with (24 - Zdigits2 b) by lia.
  rewrite <- Z.mul_sub_distr_r.
  replace (Zdigits2 b - 24) with (- (24 - Zdigits2 b)) by lia.
  apply binary_normalize_scaled; lia.
Qed.

(** multiplication of integer floats is exact while the product fits *)
Lemma mul_of_Z a b :
  0 < a -> 0 < b -> a * b < 2 ^ 24 ->
  F32.mul (F32.of_Z a) (F32.of_Z b) = F32.of_Z (a * b).
Proof.
  intros Ha Hb Hab.
  assert (a < 2 ^ 24 /\ b < 2 ^ 24) as [Ha' Hb'] by nia.
  rewrite (of_Z_pos a), (of_Z_pos b), (of_Z_pos (a * b)) by nia.
  pose proof (Zdigits2_pos a Ha). pose proof (Zdigits2_pos b Hb).
  pose proof (Zdigits2_le_24 a ltac:(lia)). pose proof (Zdigits2_le_24 b ltac:(lia)).
  pose proof (Zdigits2_mul_ge a b Ha Hb).
  unfold F32.mul, SFmul. cbn [xorb].
  rewrite Pos2Z.inj_mul, !Z_pos_to_pos by (apply scaled_pos; lia).
  replace (a * 2 ^ (24 - Zdigits2 a) * (b * 2 ^ (24 - Zdigits2 b)))
    with (a * b * 2 ^ (48 - Zdigits2 a - Zdigits2 b)).
  - replace (Zdigits2 a - 24 + (Zdigits2 b - 24)) with (- (48 - Zdigits2 a - Zdigits2 b)) by lia.
    apply binary_round_aux_exact; nia.
  - replace (48 - Zdigits2 a - Zdigits2 b) with ((24 - Zdigits2 a) + (24 - Zdigits2 b)) by lia.
    rewrite Z.pow_add_r by lia. ring.
Qed.

(** a division whose quotient is an integer is exact *)
Lemma div_of_Z q d :
  0 < q -> 0 < d -> q * d < 2 ^ 24 ->
  F32.div (F32.of_Z (q * d)) (F32.of_Z d) = F32.of_Z q.
Proof.
  intros Hq Hd Hqd.
  assert (q < 2 ^ 24 /\ d < 2 ^ 24) as [Hq' Hd'] by nia.
  rewrite (of_Z_pos (q * d)), (of_Z_pos d), (of_Z_pos q) by nia.
  pose proof (Zdigits2_pos q Hq). pose proof (Zdigits2_pos d Hd).
  pose proof (Zdigits2_pos (q * d) ltac:(nia)).
  pose proof (Zdigits2_le_24 q ltac:(lia)). pose proof (Zdigits2_le_24 d ltac:(lia)).
  pose proof (Zdigits2_le_24 (q * d) ltac:(nia)).
  pose proof (Zdigits2_mul_ge q d Hq Hd). pose proof (Zdigits2_mul_le q d Hq Hd).
  set (n := q * d) in *. set (dn := Zdigits2 n) in *.
  set (dd := Zdigits2 d) in *. set (dq := Zdigits2 q) in *.
  unfold F32.div, SFdiv, SFdiv_core_binary. cbn [xorb].
  rewrite !Z_pos_to_pos by (apply scaled_pos; lia).
  rewrite !Zdigits2_mul_pow2 by lia. fold dn dd.
  replace (dn + (24 - dn) + (dn - 24) - (dd + (24 - dd) + (dd - 24))) with (dn - dd) by lia.
  rewrite fexp_small by lia.
  rewrite Z.min_l by lia.
  replace (dn - 24 - (dd - 24) - (dn - dd - 24)) with 24 by lia.
  cbv iota beta.
  rewrite Z.shiftl_mul_pow2 by lia.
  assert (Hdiv : Z.div_eucl (n * 2 ^ (24 - dn) * 2 ^ 24) (d * 2 ^ (24 - dd))
                 = (q * 2 ^ (24 - dn + dd), 0)).
  { pose proof (scaled_pos d (24 - dd) Hd ltac:(lia)) as Hpos.
    pose proof (Z_div_mod (n * 2 ^ (24 - dn) * 2 ^ 24) (d * 2 ^ (24 - dd)) ltac:(lia)) as Hdm.
    destruct (Z.div_eucl _ _) as [q' r'] eqn:E. destruct Hdm as [Heq Hr].
    assert (Hval : n * 2 ^ (24 - dn) * 2 ^ 24
                   = d * 2 ^ (24 - dd) * (q * 2 ^ (24 - dn + dd)) + 0).
    { subst n. replace (2 ^ 24) with (2 ^ (24 - dd) * 2 ^ dd)
        by (rewrite <- Z.pow_add_r by lia; f_equal; lia).
      replace (2 ^ (24 - dn + dd)) with (2 ^ (24 - dn) * 2 ^ dd)
        by (rewrite <- Z.pow_add_r by lia; f_equal; lia).
      ring. }
    destruct (Z.div_mod_unique (d * 2 ^ (24 - dd)) q' (q * 2 ^ (24 - dn + dd)) r' 0) as [-> ->];
      [left; lia | left; lia | lia | reflexivity]. }
  rewrite Hdiv.
  assert (Hloc : forall m, new_location m 0 = loc_Exact).
  { intros m. unfold new_location, new_location_even, new_location_odd.
    destruct (Z.even m); reflexivity. }
  rewrite Hloc.
  replace (dn - dd - 24) with (- (24 - dn + dd)) by lia.
  apply binary_round_aux_exact; lia.
Qed.

(** the float order agrees with the integer order *)
Lemma ltb_of_Z a b :
  0 <= a < 2 ^ 24 -> 0 <= b < 2 ^ 24 ->
  F32.ltb (F32.of_Z a) (F32.of_Z b) = true -> a < b.
Proof.
  intros Ha Hb.
  destruct (Z.eq_dec a 0) as [->|Hna]; destruct (Z.eq_dec b 0) as [->|Hnb].
  - discriminate.
  - lia.
  - rewrite of_Z_pos by lia. discriminate.
  - rewrite (of_Z_pos a), (of_Z_pos b) by lia.
    pose proof (Zdigits2_bounds a ltac:(lia)) as [Hal Hah].
    pose proof (Zdigits2_bounds b ltac:(lia)) as [Hbl Hbh].
    pose proof (Zdigits2_le_24 a ltac:(lia)). pose proof (Zdigits2_le_24 b ltac:(lia)).
    pose proof (Zdigits2_pos a ltac:(lia)). pose proof (Zdigits2_pos b ltac:(lia)).
    unfold F32.ltb, SFltb, SFcompare.
    destruct (Z.compare_spec (Zdigits2 a - 24) (Zdigits2 b - 24)) as [E|E|E].
    + rewrite Pos.compare_cont_spec. cbn [Pos.switch_Eq].
      intros Hc. destruct (Pos.compare_spec (Z.to_pos (a * 2 ^ (24 - Zdigits2 a)))
                                            (Z.to_pos (b * 2 ^ (24 - Zdigits2 b)))) as [|Hlt|]; try discriminate.
      apply Pos2Z.pos_lt_pos in Hlt.
      rewrite !Z_pos_to_pos in Hlt by (apply scaled_pos; lia).
      replace (Zdigits2 b) with (Zdigits2 a) in Hlt by lia.
      pose proof (Z.pow_pos_nonneg 2 (24 - Zdigits2 a)). nia.
    + intros _.
      assert (2 ^ Zdigits2 a <= 2 ^ (Zdigits2 b - 1)) by (apply Z.pow_le_mono_r; lia).
      lia.
    + discriminate.
Qed.

Lemma ltb_irrefl x : F32.ltb x x = false.
Proof.
  unfold F32.ltb, SFltb, SFcompare.
  destruct x as [[]|[]| |[] m e]; try reflexivity;
    rewrite Z.compare_refl, Pos.compare_cont_refl; reflexivity.
Qed.

End Binary32.

(** ** Display normalisation (lines 207-213) *)

Section Normalisation.

Lemma fold_left_pick {A} (f : A -> A -> A) :
  (forall a b, f a b = a \/ f a b = b) ->
  forall l x, In (fold_left f l x) (x :: l).
Proof.
  intros Hf l. induction l as [|y l IH]; intros x; simpl.
  - now left.
  - destruct (IH (f x y)) as [E|E]; [|now auto].
    destruct (Hf x y) as [E'|E']; [left | right; left]; congruence.
Qed.

Lemma amin_In a m : amin a = Some m -> In m a.
Proof.
  destruct a as [|x t]; [discriminate|]. intros [= <-].
  apply fold_left_pick. intros u v. unfold F32.minimum.
  destruct (_ || _); auto.
Qed.

Lemma amax_In a m : amax a = Some m -> In m a.
Proof.
  destruct a as [|x t]; [discriminate|]. intros [= <-].
  apply fold_left_pick. intros u v. unfold F32.maximum.
  destruct (_ || _); auto.
Qed.

Lemma to_uint8_range x : 0 <= F32.to_uint8 x <= 255.
Proof.
  unfold F32.to_uint8. destruct x; try lia.
  pose proof (Z.mod_pos_bound (F32.trunc (S754_finite s m e)) 256). lia.
Qed.

Lemma sub_self x : F32.sub x x = S754_zero false \/ F32.sub x x = S754_nan.
Proof.
  destruct x as [[]|[]| |s m e]; cbn; auto.
  left. unfold F32.sub, SFsub. rewrite Z.sub_diag. reflexivity.
Qed.

Lemma scale_min mn mx : scale mn mx mn = 0.
Proof.
  unfold scale.
  destruct (sub_self mn) as [-> | ->]; destruct (F32.sub mx mn) as [[]|[]| |[] m e]; reflexivity.
Qed.

Lemma c255_of_Z : F32.c255 = F32.of_Z 255.
Proof. reflexivity. Qed.

Lemma scale_max_integers a b :
  0 <= a < 65536 -> 0 <= b < 65536 ->
  F32.ltb (F32.of_Z a) (F32.of_Z b) = true ->
  scale (F32.of_Z a) (F32.of_Z b) (F32.of_Z b) = 255.
Proof.
  intros Ha Hb Hlt.
  assert (a < b) by (apply ltb_of_Z; [lia | lia | exact Hlt]).
  unfold scale. rewrite sub_of_Z by lia.
  rewrite c255_of_Z, mul_of_Z by lia.
  rewrite (Z.mul_comm (b - a) 255), div_of_Z by lia.
  reflexivity.
Qed.


Lemma size_astype img : length (astype_float32 (buffer img)) = size img.
Proof. unfold size, astype_float32. destruct (buffer img); apply length_map. Qed.

Lemma eqb_not_ltb x y : F32.eqb x y = true -> F32.ltb x y = false.
Proof.
  unfold F32.eqb, F32.ltb, SFeqb, SFltb.
  destruct (SFcompare x y) as [[]|]; congruence.
Qed.

Lemma In_astype_U16 l x :
  Forall (fun n => (n < 65536)%N) l ->
  In x (astype_float32 (U16 l)) ->
  exists a, 0 <= a < 65536 /\ x = F32.of_Z a.
Proof.
  intros Hl Hin. cbn in Hin. apply in_map_iff in Hin as (n & <- & Hn).
  rewrite Forall_forall in Hl. exists (Z.of_N n). split; [|reflexivity].
  apply list_elem_of_In in Hn. specialize (Hl n Hn). lia.
Qed.

(** C1 (as amended).  For every frame whose maximum sample strictly
    exceeds its minimum, the normalisation maps each sample [v] to
    [(v - min) * 255 / (max - min)] computed in binary32 and converted to
    an 8-bit value; every output sample lies in [0, 255]; the minimum
    sample maps to 0 exactly; and for a frame of unsigned 16-bit samples
    the maximum sample maps to 255 exactly. *)
Theorem normalize_minmax_scaling (img : ndarray) (img_min img_max : spec_float) :
  amin (astype_float32 (buffer img)) = Some img_min ->
  amax (astype_float32 (buffer img)) = Some img_max ->
  F32.ltb img_min img_max = true ->
  exists out,
    normalize img = inr out
    /\ im_shape out = shape img
    /\ im_pixels out = map (scale img_min img_max) (astype_float32 (buffer img))
    /\ Forall (fun p => 0 <= p <= 255) (im_pixels out)
    /\ In img_min (astype_float32 (buffer img))
    /\ In img_max (astype_float32 (buffer img))
    /\ scale img_min img_max img_min = 0
    /\ (forall l, buffer img = U16 l -> Forall (fun n => (n < 65536)%N) l ->
        scale img_min img_max img_max = 255).
Proof.
  intros Hmin Hmax Hlt.
  eexists. unfold normalize. rewrite Hmin, Hmax, Hlt.
  split; [reflexivity|]. cbn [im_shape im_pixels].
  split; [reflexivity|]. split; [reflexivity|].
  split.
  { apply Forall_forall. intros p Hp. apply list_elem_of_In, in_map_iff in Hp as (v & <- & _).
    apply to_uint8_range. }
  split; [now apply amin_In|]. split; [now apply amax_In|].
  split; [apply scale_min|].
  intros l Hl Hrange. rewrite Hl in Hmin, Hmax.
  apply amin_In, (In_astype_U16 l _ Hrange) in Hmin as (a & Ha & ->).
  apply amax_In, (In_astype_U16 l _ Hrange) in Hmax as (b & Hb & ->).
  now apply scale_max_integers.
Qed.

Lemma normalize_minmax_scaling_witness :
  let img := {| shape := [2; 2]%nat; buffer := U16 [100; 200; 300; 65535]%N |} in
  amin (astype_float32 (buffer img)) = Some (F32.of_Z 100)
  /\ amax (astype_float32 (buffer img)) = Some (F32.of_Z 65535)
  /\ F32.ltb (F32.of_Z 100) (F32.of_Z 65535) = true
  /\ exists out,
      normalize img = inr out
      /\ im_shape out = shape img
      /\ im_pixels out
         = map (scale (F32.of_Z 100) (F32.of_Z 65535)) (astype_float32 (buffer img))
      /\ Forall (fun p => 0 <= p <= 255) (im_pixels out)
      /\ In (F32.of_Z 100) (astype_float32 (buffer img))
      /\ In (F32.of_Z 65535) (astype_float32 (buffer img))
      /\ scale (F32.of_Z 100) (F32.of_Z 65535) (F32.of_Z 100) = 0
      /\ (forall l, buffer img = U16 l -> Forall (fun n => (n < 65536)%N) l ->
          scale (F32.of_Z 100) (F32.of_Z 65535) (F32.of_Z 65535) = 255).
Proof.
  intros img.
  split; [reflexivity|]. split; [reflexivity|]. split; [reflexivity|].
  apply (normalize_minmax_scaling img); reflexivity.
Defined.

(** C1, counterexample.  A frame of two binary32 temperatures, 20.0 and
    30.1, has its maximum strictly above its minimum, yet its maximum
    sample is mapped to 254: [(30.1 - 20.0) * 255] is rounded to binary32
    before the division, the quotient is just below 255, and the
    conversion to [uint8] truncates. *)
Lemma normalize_float_frame_max_254 :
  let t20_0 := S754_finite false 10485760 (-19) in
  let t30_1 := S754_finite false 15781069 (-19) in
  let img := {| shape := [1; 2]%nat; buffer := Floats [t20_0; t30_1] |} in
  amin (astype_float32 (buffer img)) = Some t20_0
  /\ amax (astype_float32 (buffer img)) = Some t30_1
  /\ F32.ltb t20_0 t30_1 = true
  /\ normalize img = inr {| im_shape := [1; 2]%nat; im_pixels := [0; 254] |}
  /\ scale t20_0 t30_1 t30_1 <> 255.
Proof.
  cbv zeta. repeat split; try reflexivity.
  vm_compute. discriminate.
Qed.

(** C2.  For every frame whose maximum sample equals its minimum sample,
    the normalised 8-bit image has the shape of the input frame and all
    its pixels are zero. *)
Theorem normalize_flat_frame (img : ndarray) (img_min img_max : spec_float) :
  amin (astype_float32 (buffer img)) = Some img_min ->
  amax (astype_float32 (buffer img)) = Some img_max ->
  F32.eqb img_min img_max = true ->
  normalize img
  = inr {| im_shape := shape img; im_pixels := repeat 0 (size img) |}.
Proof.
  intros Hmin Hmax Heq. unfold normalize.
  rewrite Hmin, Hmax, (eqb_not_ltb _ _ Heq), size_astype. reflexivity.
Qed.

Lemma normalize_flat_frame_witness :
  let img := {| shape := [2; 2]%nat; buffer := U16 [3000; 3000; 3000; 3000]%N |} in
  amin (astype_float32 (buffer img)) = Some (F32.of_Z 3000)
  /\ amax (astype_float32 (buffer img)) = Some (F32.of_Z 3000)
  /\ F32.eqb (F32.of_Z 3000) (F32.of_Z 3000) = true
  /\ normalize img = inr {| im_shape := [2; 2]%nat; im_pixels := [0; 0; 0; 0] |}.
Proof.
  intros img.
  split; [reflexivity|]. split; [reflexivity|]. split; [reflexivity|].
  apply (normalize_flat_frame img (F32.of_Z 3000) (F32.of_Z 3000)); reflexivity.
Defined.

End Normalisation.

(** ** The text of a recorded frame (lines 75-82) *)

Section Serialisation.

Lemma app_cons_string c (s t : string) : String c s +:+ t = String c (s +:+ t).
Proof. reflexivity. Qed.

Lemma app_nil_l_string (t : string) : "" +:+ t = t.
Proof. reflexivity. Qed.

Lemma app_nil_r_string (s : string) : s +:+ "" = s.
Proof.
  induction s as [|c s IH]; [reflexivity|].
  now rewrite app_cons_string, IH.
Qed.

Lemma app_assoc_string (a b c : string) : (a +:+ b) +:+ c = a +:+ (b +:+ c).
Proof.
  induction a as [|x a IH]; [reflexivity|].
  now rewrite !app_cons_string, IH.
Qed.

Lemma concat_cons (x : string) (xs : list string) :
  String.concat "" (x :: xs) = x +:+ String.concat "" xs.
Proof.
  destruct xs; cbn [String.concat];
    [now rewrite app_nil_r_string | now rewrite app_nil_l_string].
Qed.

Lemma count_char_app c (a b : string) :
  count_char c (a +:+ b) = (count_char c a + count_char c b)%nat.
Proof.
  induction a as [|x a IH]; [reflexivity|].
  rewrite app_cons_string. cbn [count_char]. lia.
Qed.

Lemma is_digit_not_ws c : is_digit c = true -> is_ws c = false.
Proof.
  destruct c as [[] [] [] [] [] [] [] []]; try discriminate; reflexivity.
Qed.

Lemma all_digits_no_ws s : all_digits s = true -> no_ws s = true.
Proof.
  induction s as [|c s IH]; simpl; [reflexivity|].
  intros [Hc Hs]%andb_true_iff. now rewrite (is_digit_not_ws c Hc), IH.
Qed.

Lemma no_ws_app a b : no_ws (a +:+ b) = no_ws a && no_ws b.
Proof.
  induction a as [|x a IH]; [reflexivity|].
  rewrite app_cons_string. cbn [no_ws]. rewrite IH. now rewrite andb_assoc.
Qed.

Lemma no_ws_count_newline s : no_ws s = true -> count_char "010" s = 0%nat.
Proof.
  induction s as [|c s IH]; cbn [no_ws count_char]; [reflexivity|].
  intros [Hc Hs]%andb_true_iff. rewrite (IH Hs).
  unfold is_ws in Hc. apply negb_true_iff, orb_false_iff in Hc as [_ Hn].
  rewrite Ascii.eqb_sym, Hn. reflexivity.
Qed.

(** decimal numerals *)
Lemma all_digits_uint u : all_digits (NilEmpty.string_of_uint u) = true.
Proof. induction u; simpl; auto. Qed.

Lemma all_digits_numeral u : all_digits (NilZero.string_of_uint u) = true.
Proof. destruct u; try reflexivity; apply (all_digits_uint (_ u)). Qed.

Lemma numeral_nonempty u : NilZero.string_of_uint u <> EmptyString.
Proof. destruct u; discriminate. Qed.

Lemma format_n_integer n : is_integer_text (format_n n) = true.
Proof.
  unfold is_integer_text, format_n.
  pose proof (numeral_nonempty (N.to_uint n)).
  pose proof (all_digits_numeral (N.to_uint n)).
  destruct (NilZero.string_of_uint (N.to_uint n)); congruence.
Qed.

Lemma is_digit_digit d : 0 <= d <= 9 -> is_digit (digit d) = true.
Proof.
  intros Hd. assert (d = 0 \/ d = 1 \/ d = 2 \/ d = 3 \/ d = 4 \/ d = 5 \/ d = 6
                     \/ d = 7 \/ d = 8 \/ d = 9) as Hc by lia.
  repeat destruct Hc as [-> | Hc]; try reflexivity. subst. reflexivity.
Qed.

Lemma fixed2_unsigned_digit b c s :
  is_digit c = true ->
  is_fixed2_unsigned b (String c s) = is_fixed2_unsigned true s.
Proof.
  destruct c as [[] [] [] [] [] [] [] []]; try discriminate; reflexivity.
Qed.

Lemma fixed2_text_digit c s :
  is_digit c = true ->
  is_fixed2_text (String c s) = is_fixed2_unsigned false (String c s).
Proof.
  destruct c as [[] [] [] [] [] [] [] []]; try discriminate; reflexivity.
Qed.

Lemma fixed2_unsigned_tail ds d1 d2 b :
  all_digits ds = true -> (b = true \/ ds <> EmptyString) ->
  is_digit d1 = true -> is_digit d2 = true ->
  is_fixed2_unsigned b (ds +:+ String "." (String d1 (String d2 EmptyString))) = true.
Proof.
  intros Hds Hb H1 H2. revert b Hb. induction ds as [|c ds IH]; intros b Hb.
  - destruct Hb as [-> | Hb]; [|congruence]. simpl. now rewrite H1, H2.
  - simpl in Hds. apply andb_true_iff in Hds as [Hc Hds].
    rewrite app_cons_string, fixed2_unsigned_digit by exact Hc.
    apply IH; auto.
Qed.

Lemma tens_digit h : is_digit (digit (h mod 100 / 10)) = true.
Proof.
  apply is_digit_digit. pose proof (Z.mod_pos_bound h 100 ltac:(lia)).
  split; [apply Z.div_pos; lia | apply Z.lt_succ_r, Z.div_lt_upper_bound; lia].
Qed.

Lemma units_digit h : is_digit (digit (h mod 10)) = true.
Proof. apply is_digit_digit. pose proof (Z.mod_pos_bound h 10 ltac:(lia)). lia. Qed.

Lemma fixed2_is_fixed2 neg h : 0 <= h -> is_fixed2_text (fixed2 neg h) = true.
Proof.
  intros Hh. unfold fixed2.
  set (ds := NilZero.string_of_uint (N.to_uint (Z.to_N (h / 100)))).
  assert (Hds : all_digits ds = true) by apply all_digits_numeral.
  assert (Hne : ds <> EmptyString) by apply numeral_nonempty.
  pose proof (tens_digit h) as H1. pose proof (units_digit h) as H2.
  destruct neg.
  - rewrite app_cons_string, app_nil_l_string. cbn [is_fixed2_text].
    now apply fixed2_unsigned_tail; auto.
  - rewrite app_nil_l_string.
    destruct ds as [|c ds'] eqn:E; [congruence|].
    pose proof Hds as Hds0.
    simpl in Hds. apply andb_true_iff in Hds as [Hc Hds'].
    rewrite app_cons_string, fixed2_text_digit by exact Hc.
    rewrite <- app_cons_string.
    apply fixed2_unsigned_tail; auto.
Qed.

Lemma div_half_even_nonneg num den : 0 <= num -> 0 < den -> 0 <= div_half_even num den.
Proof.
  intros Hn Hd. unfold div_half_even.
  pose proof (Z.div_pos num den Hn Hd).
  destruct (_ ?= _); [destruct (Z.even _)| |]; lia.
Qed.

Lemma hundredths_nonneg m e : 0 <= hundredths m e.
Proof.
  unfold hundredths. destruct (Z.leb_spec 0 e).
  - pose proof (Z.pow_nonneg 2 e). nia.
  - apply div_half_even_nonneg; [lia | apply Z.pow_pos_nonneg; lia].
Qed.

Lemma format_2f_finite x :
  F32.is_finite x = true -> is_fixed2_text (format_2f x) = true.
Proof.
  destruct x as [s|s| |s m e]; try discriminate; intros _; simpl.
  - now apply fixed2_is_fixed2.
  - apply fixed2_is_fixed2, hundredths_nonneg.
Qed.

Lemma no_ws_fixed2 neg h : no_ws (fixed2 neg h) = true.
Proof.
  unfold fixed2. rewrite !no_ws_app.
  rewrite (all_digits_no_ws _ (all_digits_numeral _)).
  cbn [no_ws]. rewrite (is_digit_not_ws _ (tens_digit h)), (is_digit_not_ws _ (units_digit h)).
  destruct neg; reflexivity.
Qed.

Lemma no_ws_format_n n : no_ws (format_n n) = true.
Proof. apply all_digits_no_ws, all_digits_numeral. Qed.

Lemma no_ws_format_2f x : no_ws (format_2f x) = true.
Proof. destruct x as [s|[]| |s m e]; try reflexivity; apply no_ws_fixed2. Qed.

Lemma format_n_nonempty n : format_n n <> EmptyString.
Proof. apply numeral_nonempty. Qed.

Lemma fixed2_nonempty neg h : fixed2 neg h <> EmptyString.
Proof.
  unfold fixed2. destruct neg; [rewrite app_cons_string; discriminate|].
  rewrite app_nil_l_string.
  pose proof (numeral_nonempty (N.to_uint (Z.to_N (h / 100)))) as Hne.
  destruct (NilZero.string_of_uint _); [congruence|].
  rewrite app_cons_string. discriminate.
Qed.

Lemma format_2f_nonempty x : format_2f x <> EmptyString.
Proof. destruct x as [s|[]| |s m e]; try discriminate; apply fixed2_nonempty. Qed.

(** reading a line back *)
Lemma split_ws_word cur t rest :
  no_ws t = true ->
  split_ws cur (t +:+ rest) = split_ws (cur +:+ t) rest.
Proof.
  revert cur. induction t as [|c t IH]; intros cur Ht.
  - now rewrite app_nil_l_string, app_nil_r_string.
  - cbn [no_ws] in Ht. apply andb_true_iff in Ht as [Hc Ht].
    apply negb_true_iff in Hc.
    rewrite app_cons_string. cbn [split_ws]. rewrite Hc.
    rewrite IH by exact Ht. now rewrite app_assoc_string.
Qed.

Lemma split_ws_blank cur rest :
  cur <> EmptyString ->
  split_ws cur (space +:+ rest) = cur :: split_ws EmptyString rest.
Proof. intros Hne. destruct cur; [congruence|]. reflexivity. Qed.

Lemma tokens_line {A} (fmt : A -> string) (l : list A) :
  (forall v, no_ws (fmt v) = true) ->
  (forall v, fmt v <> EmptyString) ->
  tokens (String.concat "" (map (fun v => fmt v +:+ space) l) +:+ newline)
  = map fmt l.
Proof.
  intros Hws Hne. unfold tokens. induction l as [|v l IH].
  - reflexivity.
  - cbn [map]. rewrite concat_cons, !app_assoc_string.
    rewrite split_ws_word by apply Hws.
    rewrite app_nil_l_string, split_ws_blank by apply Hne.
    now rewrite IH.
Qed.

Lemma newlines_line {A} (fmt : A -> string) (l : list A) :
  (forall v, no_ws (fmt v) = true) ->
  count_char "010" (String.concat "" (map (fun v => fmt v +:+ space) l) +:+ newline) = 1%nat.
Proof.
  intros Hws. rewrite count_char_app.
  replace (count_char "010" (String.concat "" (map (fun v => fmt v +:+ space) l))) with 0%nat.
  - reflexivity.
  - induction l as [|v l IH]; [reflexivity|].
    cbn [map]. rewrite concat_cons, !count_char_app, <- IH.
    now rewrite (no_ws_count_newline _ (Hws v)).
Qed.

(** C4 (as amended).  The text of a frame ends with its only newline.
    Read back as blank-separated words it gives one word per sample, in
    order: for an unsigned 16-bit frame each word is a decimal integer
    without decimal point; for any other frame each finite sample is
    written as digits, a point and exactly two decimals (after a minus
    sign when negative). *)
Theorem outstr_text_format (arr : ndarray) :
  count_char "010" (outstr arr) = 1%nat
  /\ (exists body, outstr arr = body +:+ newline)
  /\ match buffer arr with
     | U16 l =>
         tokens (outstr arr) = map format_n l
         /\ Forall (fun v => is_integer_text (format_n v) = true) l
     | Floats l =>
         tokens (outstr arr) = map format_2f l
         /\ Forall (fun x => implb (F32.is_finite x)
                                  (is_fixed2_text (format_2f x)) = true) l
     end.
Proof.
  unfold outstr. destruct (buffer arr) as [l|l].
  - split; [apply newlines_line, no_ws_format_n|].
    split; [eexists; reflexivity|].
    split; [apply tokens_line; [apply no_ws_format_n | apply format_n_nonempty]|].
    apply Forall_forall. intros v _. apply format_n_integer.
  - split; [apply newlines_line, no_ws_format_2f|].
    split; [eexists; reflexivity|].
    split; [apply tokens_line; [apply no_ws_format_2f | apply format_2f_nonempty]|].
    apply Forall_forall. intros x _.
    destruct (F32.is_finite x) eqn:E; [|reflexivity].
    cbn [implb]. now apply format_2f_finite.
Qed.

(** C4, counterexample.  A floating-point frame holding a NaN is written
    as the word [nan], which has no decimal places. *)
Lemma outstr_nan_sample :
  let arr := {| shape := [1; 1]%nat; buffer := Floats [S754_nan] |} in
  outstr arr = "nan " +:+ newline
  /\ tokens (outstr arr) = ["nan"%string]
  /\ is_fixed2_text "nan" = false.
Proof. cbv zeta. repeat split. Qed.

End Serialisation.

(** ** Runs of the process *)

(** Unfolding of the monad and of the primitive operations. *)
Ltac run :=
  unfold stmt, tick, signal_handler, mi48_stop, mi48_start, destroyAllWindows,
    imshow, file_close, get_files, set_files, set_window, set_streaming,
    set_signal, emit, raise, pending, mbind, M_bind, mret, M_ret in *;
  cbn in *.

Section Runs.
Context `{Externals}.

Lemma bind_eq {A B} (m : M A) (f : A -> M B) w :
  (m ≫= f) w = match m w with
               | (Ok a, w') => f a w'
               | (Raise e, w') => (Raise e, w')
               | (Pending, w') => (Pending, w')
               end.
Proof. reflexivity. Qed.


Lemma orderly_refl P {A} (r : outcome A) w :
  match r with Raise (Py.SystemExit _) => w_signal w = None | _ => True end ->
  orderly P w r w.
Proof. intros Hr. repeat split; auto. Qed.

Lemma wb_ret P {A} (a : A) : well_behaved P (mret a).
Proof. intros w. now apply orderly_refl. Qed.

Lemma wb_bind P {A B} (m : M A) (f : A -> M B) :
  well_behaved P m -> (forall a, well_behaved P (f a)) -> well_behaved P (m ≫= f).
Proof.
  intros Hm Hf w. rewrite bind_eq. specialize (Hm w).
  destruct (m w) as [[a|e|] w1]; cbn [fst snd] in *; try exact Hm.
  specialize (Hf a w1). destruct (f a w1) as [r w2]. cbn [fst snd] in *.
  destruct Hm as (H1 & H2 & H3 & _), Hf as (H1' & H2' & H3' & H4').
  repeat split; try congruence; auto.
Qed.

Lemma wb_emit P ev : P ev = false -> well_behaved P (emit ev).
Proof. intros HP w. unfold orderly, count. cbn. now rewrite HP. Qed.

Lemma wb_set_streaming P b : well_behaved P (set_streaming b).
Proof. intros w. now repeat split. Qed.

Lemma wb_set_window P p : well_behaved P (set_window p).
Proof. intros w. now repeat split. Qed.

Lemma wb_get_files P : well_behaved P get_files.
Proof. intros w. now repeat split. Qed.

Lemma wb_raise P {A} e :
  (forall c, e <> Py.SystemExit c) -> well_behaved P (raise (A:=A) e).
Proof.
  intros He w. repeat split; auto. cbn. destruct e; auto. now destruct (He code).
Qed.

Lemma wb_pending P {A} : well_behaved P (pending (A:=A)).
Proof. intros w. now repeat split. Qed.

Lemma wb_value_or_raise P {A} (r : string + A) : well_behaved P (value_or_raise r).
Proof. destruct r; [apply wb_raise; discriminate | apply wb_ret]. Qed.

Lemma wb_tick P : spares_handler P -> well_behaved P tick.
Proof.
  intros (H1 & H2 & H3) w. unfold tick.
  destruct (w_signal w) as [[|n]|] eqn:E.
  - unfold orderly, count. run. rewrite H1, H2, H3. repeat split; auto; congruence.
  - unfold orderly, count. cbn. repeat split; auto; congruence.
  - now apply orderly_refl.
Qed.

Lemma wb_stmt P {A} (m : M A) :
  spares_handler P -> well_behaved P m -> well_behaved P (stmt m).
Proof. intros HP Hm. apply wb_bind; [now apply wb_tick | intros _; exact Hm]. Qed.

Lemma wb_mi48_stop P a b : P (EvStop a b) = false -> well_behaved P (mi48_stop a b).
Proof. intros HP. apply wb_bind; [now apply wb_emit | intros; apply wb_set_streaming]. Qed.

Lemma wb_destroy P : P EvDestroyAllWindows = false -> well_behaved P destroyAllWindows.
Proof. intros HP. apply wb_bind; [now apply wb_emit | intros; apply wb_set_window]. Qed.

Lemma wb_imshow P t p : P (EvShow t p) = false -> well_behaved P (imshow t p).
Proof. intros HP. apply wb_bind; [now apply wb_emit | intros; apply wb_set_window]. Qed.

Lemma wb_set_files_insert P fd f :
  well_behaved P (fs ← get_files; set_files (<[fd := f]> fs)).
Proof. intros w. unfold orderly. run. rewrite length_insert. now repeat split. Qed.

Lemma wb_with_open_file P fd k :
  (forall f, well_behaved P (k f)) -> well_behaved P (with_open_file fd k).
Proof.
  intros Hk. unfold with_open_file. apply wb_bind; [apply wb_get_files|].
  intros fs. destruct (fs !! fd) as [f|]; [|apply wb_raise; discriminate].
  destruct (f_closed f); [apply wb_raise; discriminate | apply Hk].
Qed.

Lemma wb_file_write P fd text :
  P (EvWrite fd text) = false -> well_behaved P (file_write fd text).
Proof.
  intros HP. apply wb_with_open_file. intros f.
  apply wb_bind; [now apply wb_emit | intros; apply wb_set_files_insert].
Qed.

Lemma wb_file_flush P fd :
  P (EvFlush fd) = false -> well_behaved P (file_flush fd).
Proof.
  intros HP. apply wb_with_open_file. intros f.
  apply wb_bind; [now apply wb_emit | intros; apply wb_set_files_insert].
Qed.

Lemma wb_file_close P fd :
  P (EvClose fd) = false -> well_behaved P (file_close fd).
Proof.
  intros HP. unfold file_close. apply wb_bind; [now apply wb_emit | intros _].
  intros w. unfold orderly. run. destruct (w_files w !! fd); cbn;
    rewrite ?length_insert; now repeat split.
Qed.


Lemma startup_only_false P ev :
  startup_only P -> is_open ev = false -> is_set_fps ev = false -> P ev = false.
Proof.
  intros HP H1 H2. destruct (P ev) eqn:E; [|reflexivity].
  destruct (HP ev E); congruence.
Qed.

Lemma startup_only_handler P : startup_only P -> spares_handler P.
Proof. intros HP. repeat split; now apply startup_only_false. Qed.

Section Loop.
Variable cam : sensor.
Variable P : event -> bool.
Hypothesis HP : startup_only P.

Ltac quiet := first [ now apply startup_only_handler
                    | now apply startup_only_false ].

Lemma wb_poll sts : well_behaved P (poll sts).
Proof.
  induction sts as [|s rest IH]; cbn [poll]; [apply wb_pending|].
  apply wb_bind; [apply wb_stmt; [quiet | apply wb_emit; quiet]|intros _].
  destruct (_ =? _); [|apply wb_ret].
  apply wb_bind; [apply wb_stmt; [quiet | apply wb_emit; quiet]|intros _; exact IH].
Qed.

Lemma wb_wait_for_data c : well_behaved P (wait_for_data cam c).
Proof.
  unfold wait_for_data. destruct (has_data_ready cam); [|apply wb_poll].
  apply wb_stmt; [quiet | apply wb_emit; quiet].
Qed.

Lemma wb_mi48_read c : well_behaved P (mi48_read c).
Proof.
  unfold mi48_read. apply wb_bind; [apply wb_emit; quiet | intros _].
  destruct (c_read c); [apply wb_raise; discriminate | apply wb_ret].
Qed.

Lemma wb_write_frame fd arr : well_behaved P (write_frame fd arr).
Proof.
  unfold write_frame. apply wb_bind; [|intros _].
  - apply wb_stmt; [quiet | apply wb_file_write; quiet].
  - apply wb_stmt; [quiet | apply wb_file_flush; quiet].
Qed.

Lemma wb_display img title : well_behaved P (display_thermal_image img title).
Proof. apply wb_stmt; [quiet | apply wb_imshow; quiet]. Qed.

Lemma wb_logger_debug s : well_behaved P (logger_debug cam s).
Proof.
  unfold logger_debug. destruct (debug_enabled cam); [apply wb_emit; quiet | apply wb_ret].
Qed.

Lemma wb_waitKey d c : well_behaved P (waitKey d c).
Proof. apply wb_bind; [apply wb_emit; quiet | intros; apply wb_ret]. Qed.

Lemma wb_iteration fd c : well_behaved P (iteration cam fd c).
Proof.
  unfold iteration.
  apply wb_bind; [apply wb_wait_for_data | intros _].
  apply wb_bind; [apply wb_stmt; [quiet | apply wb_mi48_read] | intros [[data|] hdr]];
    [|apply wb_ret].
  apply wb_bind; [destruct fd; [apply wb_write_frame | apply wb_ret] | intros _].
  apply wb_bind; [apply wb_stmt; [quiet | apply wb_value_or_raise] | intros img].
  apply wb_bind; [destruct hdr; [apply wb_stmt; [quiet | apply wb_logger_debug] | apply wb_ret] | intros _].
  apply wb_bind; [apply wb_stmt; [quiet | apply wb_value_or_raise] | intros img8u].
  apply wb_bind; [apply wb_display | intros _].
  apply wb_bind; [apply wb_stmt; [quiet | apply wb_waitKey] | intros key].
  destruct (_ =? _); apply wb_ret.
Qed.

Lemma wb_main_loop fd script : well_behaved P (main_loop cam fd script).
Proof.
  induction script as [|c rest IH]; cbn [main_loop]; [apply wb_pending|].
  apply wb_bind; [apply wb_iteration | intros []]; [exact IH | apply wb_ret].
Qed.

Lemma wb_cleanup fd : well_behaved P (cleanup fd).
Proof.
  unfold cleanup.
  apply wb_bind; [apply wb_stmt; [quiet | apply wb_emit; quiet] | intros _].
  apply wb_bind; [apply wb_stmt; [quiet | apply wb_mi48_stop; quiet] | intros _].
  apply wb_bind; [|intros _].
  - destruct fd; [|apply wb_ret].
    apply wb_bind; [apply wb_stmt; [quiet | apply wb_file_close; quiet] | intros _].
    apply wb_stmt; [quiet | apply wb_emit; quiet].
  - apply wb_bind; [apply wb_stmt; [quiet | apply wb_destroy; quiet] | intros _].
    apply wb_stmt; [quiet | apply wb_emit; quiet].
Qed.

Lemma wb_try_finally {A} (body : M A) (handler : M unit) :
  well_behaved P body -> well_behaved P handler ->
  well_behaved P (try_finally body handler).
Proof.
  intros Hb Hh w. unfold try_finally. specialize (Hb w).
  destruct (body w) as [r w1]. cbn [fst snd] in Hb.
  assert (Hfin : orderly P w
                   (match handler w1 with
                    | (Ok _, _) => r
                    | (Raise e, _) => Raise e
                    | (Pending, _) => Pending
                    end) (handler w1).2).
  { specialize (Hh w1). destruct (handler w1) as [[[]|e|] w2]; cbn [fst snd] in *;
      destruct Hb as (H1 & H2 & H3 & H4), Hh as (H1' & H2' & H3' & H4');
      repeat split; try congruence; auto.
    destruct r as [a|[]|]; auto. }
  destruct r as [a|e|]; [| |exact Hb];
    destruct (handler w1) as [[[]|e'|] w2]; exact Hfin.
Qed.

Lemma wb_acquire fd script : well_behaved P (acquire cam fd script).
Proof. apply wb_try_finally; [apply wb_main_loop | apply wb_cleanup]. Qed.

End Loop.

End Runs.

Section CommandLineFacts.
Context `{Externals}.

Example dest_record : map dest arguments = ["record"; "framerate"]%string.
Proof. reflexivity. Qed.

Lemma find_argument_dest tok a :
  find_argument tok = Some a -> dest a = "record"%string \/ dest a = "framerate"%string.
Proof.
  unfold find_argument. intros Hf. apply find_some in Hf as [Hin _].
  destruct Hin as [<- | [<- | []]]; [left | right]; reflexivity.
Qed.

Lemma defaults_lookup :
  defaults = <["record"%string := Py.VBool false]> (<["framerate"%string := Py.VInt DEFAULT_FPS]> ∅).
Proof. reflexivity. Qed.

(** an attribute other than [record] and [framerate] is never set *)
Lemma parse_known_other name argv :
  name <> "record"%string -> name <> "framerate"%string ->
  forall ns ns', ns !! name = None -> parse_known argv ns = inr ns' -> ns' !! name = None.
Proof.
  intros Hr Hf.
  assert (Hlen : forall n argv, (length argv <= n)%nat ->
            forall ns ns', ns !! name = None -> parse_known argv ns = inr ns' ->
                           ns' !! name = None).
  { clear argv. induction n as [|n IH]; intros argv Hn ns ns' Hns Hp.
    - destruct argv; [|cbn in Hn; lia]. cbn in Hp. congruence.
    - destruct argv as [|tok rest]; [cbn in Hp; congruence|].
      cbn [parse_known] in Hp.
      destruct (find_argument tok) as [a|] eqn:Ea; [|discriminate].
      assert (Hd : dest a <> name).
      { destruct (find_argument_dest _ _ Ea) as [-> | ->]; congruence. }
      destruct (arg_action a).
      + destruct rest as [|text rest']; [discriminate|].
        destruct (float_of_string text); [|discriminate].
        apply (IH rest') in Hp; auto; [cbn in Hn; lia|].
        now rewrite lookup_insert_ne.
      + apply (IH rest) in Hp; auto; [cbn in Hn; lia|].
        now rewrite lookup_insert_ne. }
  intros ns ns'. now apply (Hlen (length argv)).
Qed.

(** an attribute that is set stays set *)
Lemma parse_known_defined name argv :
  forall ns ns', is_Some (ns !! name) -> parse_known argv ns = inr ns' ->
                 is_Some (ns' !! name).
Proof.
  assert (Hlen : forall n argv, (length argv <= n)%nat ->
            forall ns ns', is_Some (ns !! name) -> parse_known argv ns = inr ns' ->
                           is_Some (ns' !! name)).
  { clear argv. induction n as [|n IH]; intros argv Hn ns ns' Hns Hp.
    - destruct argv; [|cbn in Hn; lia]. cbn in Hp. congruence.
    - destruct argv as [|tok rest]; [cbn in Hp; congruence|].
      cbn [parse_known] in Hp.
      destruct (find_argument tok) as [a|] eqn:Ea; [|discriminate].
      destruct (arg_action a).
      + destruct rest as [|text rest']; [discriminate|].
        destruct (float_of_string text); [|discriminate].
        apply (IH rest') in Hp; auto; [cbn in Hn; lia|].
        rewrite lookup_insert_is_Some. destruct (decide (dest a = name)); auto.
      + apply (IH rest) in Hp; auto; [cbn in Hn; lia|].
        rewrite lookup_insert_is_Some. destruct (decide (dest a = name)); auto. }
  intros ns ns'. now apply (Hlen (length argv)).
Qed.

Lemma parse_args_framerate argv args :
  parse_args argv = inr args -> is_Some (args !! "framerate"%string).
Proof.
  unfold parse_args. apply parse_known_defined.
  rewrite defaults_lookup. eexists. reflexivity.
Qed.

Lemma parse_args_no_fps argv args :
  parse_args argv = inr args -> args !! "fps"%string = None.
Proof.
  unfold parse_args. apply parse_known_other; try discriminate.
  rewrite defaults_lookup. reflexivity.
Qed.

End CommandLineFacts.

Section StartUp.
Context `{Externals}.
Variable cam : sensor.

Lemma stmt_no_signal {A} (m : M A) w : w_signal w = None -> stmt m w = m w.
Proof. intros Hs. unfold stmt, tick. rewrite bind_eq, Hs. reflexivity. Qed.

Lemma wb_bind_raises P {A B} (m : M A) (f : A -> M B) :
  well_behaved P m -> (forall w a, (m w).1 <> Ok a) -> well_behaved P (m ≫= f).
Proof.
  intros Hm Hno w. rewrite bind_eq. specialize (Hm w). specialize (Hno w).
  destruct (m w) as [[a|e|] w1]; cbn [fst snd] in *; auto.
  now destruct (Hno a).
Qed.

Lemma getattr_missing args name :
  args !! name = None -> getattr args name = inl (Py.AttributeError name).
Proof. intros Hn. unfold getattr. now rewrite Hn. Qed.

Lemma stmt_raise_not_ok {A} e w (a : A) : (stmt (raise e) w).1 <> Ok a.
Proof.
  unfold stmt, tick. rewrite bind_eq.
  destruct (w_signal w) as [[|n]|]; discriminate.
Qed.

Ltac quiet := first [ now apply startup_only_handler
                    | now apply startup_only_false ].

Lemma wb_bind_value P {A B} (a : A) (f : A -> M B) :
  well_behaved P (f a) -> well_behaved P (mret a ≫= f).
Proof. intros Hf w. exact (Hf w). Qed.

Lemma wb_main_body args script :
  args !! "fps"%string = None ->
  well_behaved is_set_fps (main_body cam args script).
Proof.
  intros Hfps.
  assert (HP : startup_only is_set_fps) by (intros ev Hev; now right).
  unfold main_body.
  do 5 (apply wb_bind; [apply wb_emit; reflexivity | intros _]).
  do 14 (apply wb_bind; [apply wb_stmt; [quiet | apply wb_emit; reflexivity] | intros _]).
  rewrite (getattr_missing args "fps") by exact Hfps.
  cbn [lift]. apply wb_bind_raises.
  - apply wb_stmt; [quiet | apply wb_raise; discriminate].
  - intros w a. apply stmt_raise_not_ok.
Qed.

Lemma main_parsed argv args script w :
  parse_args argv = inr args -> main cam argv script w = main_body cam args script w.
Proof. intros Hargs. unfold main. now rewrite Hargs. Qed.

Lemma main_rejected argv e script w :
  parse_args argv = inl e -> main cam argv script w = (Raise e, w).
Proof. intros Hargs. unfold main. now rewrite Hargs. Qed.

(** C3.  Whatever the command line, the sensor answers and the moment of
    a signal, the program never calls [mi48.set_fps]: line 157 reads
    [args.fps], but [argparse] stores the value of [-fps/--framerate]
    under the name [framerate], so the access raises [AttributeError]
    (unless the command line was rejected or a signal ended the program
    even earlier). *)
Theorem main_never_sets_fps argv script w :
  count is_set_fps (main cam argv script w).2 = count is_set_fps w
  /\ (w_signal w = None ->
      forall args, parse_args argv = inr args ->
        is_Some (args !! "framerate"%string)
        /\ args !! "fps"%string = None
        /\ (main cam argv script w).1 = Raise (Py.AttributeError "fps")).
Proof.
  split.
  - destruct (parse_args argv) as [e|args] eqn:Eargs.
    + now rewrite (main_rejected _ _ _ _ Eargs).
    + rewrite (main_parsed _ _ _ _ Eargs).
      apply (wb_main_body args script), (parse_args_no_fps _ _ Eargs).
  - intros Hs args Hargs.
    split; [now apply parse_args_framerate with (argv := argv)|].
    pose proof (parse_args_no_fps _ _ Hargs) as Hfps. split; [exact Hfps|].
    rewrite (main_parsed _ _ _ _ Hargs).
    destruct w as [evs st fs win sig]. cbn in Hs. subst sig.
    unfold main_body. rewrite (getattr_missing args "fps") by exact Hfps.
    reflexivity.
Qed.

End StartUp.

(** C3 at a concrete run: [--framerate 10] on the bench camera. *)
Example main_framerate_10 :
  (main bench_camera ["--framerate"; "10"]%string [] (boot None)).1
  = Raise (Py.AttributeError "fps")
  /\ count is_set_fps (main bench_camera ["--framerate"; "10"]%string [] (boot None)).2 = 0%nat.
Proof. split; vm_compute; reflexivity. Qed.

Section NoSignal.
Context `{Externals}.
Variable cam : sensor.

#[export] Instance senses_only_refl : Reflexive senses_only.
Proof. intros w. repeat split. now exists []. Qed.

#[export] Instance senses_only_trans : Transitive senses_only.
Proof.
  intros w1 w2 w3 (R1 & S1 & n1 & E1 & F1) (R2 & S2 & n2 & E2 & F2).
  repeat split; try congruence.
  exists (n2 ++ n1). rewrite E2, E1, app_assoc, forallb_app, F2, F1. now split.
Qed.

Lemma senses_only_emit ev w :
  is_sensing ev = true -> senses_only w (emit ev w).2.
Proof. intros Hev. repeat split. exists [ev]. cbn. now rewrite Hev. Qed.

Lemma poll_no_signal sts w :
  w_signal w = None ->
  senses_only w (poll sts w).2
  /\ ((poll sts w).1 = Ok () \/ (poll sts w).1 = Pending)
  /\ (existsb is_ready sts = true -> (poll sts w).1 = Ok ()).
Proof.
  revert w. induction sts as [|s rest IH]; intros w Hw.
  - cbn. split; [reflexivity|]. split; [now right | discriminate].
  - cbn [poll existsb]. rewrite bind_eq, stmt_no_signal by exact Hw.
    cbn [emit]. unfold is_ready at 1.
    destruct (Z.land s DATA_READY =? 0) eqn:E; cbn [negb orb].
    + rewrite bind_eq, stmt_no_signal by exact Hw. cbn [emit].
      match goal with |- context [poll rest ?w1] => destruct (IH w1 Hw) as (IH1 & IH2 & IH3) end.
      split; [|split; assumption].
      etrans; [|exact IH1].
      etrans; [apply (senses_only_emit (EvGetStatus s)); reflexivity|].
      apply (senses_only_emit (EvSleep 10)); reflexivity.
    + split; [apply (senses_only_emit (EvGetStatus s)); reflexivity|].
      split; [now left | reflexivity].
Qed.

Lemma wait_no_signal c w :
  w_signal w = None ->
  senses_only w (wait_for_data cam c w).2
  /\ ((wait_for_data cam c w).1 = Ok () \/ (wait_for_data cam c w).1 = Pending)
  /\ (wait_ends cam c = true -> (wait_for_data cam c w).1 = Ok ()).
Proof.
  intros Hw. unfold wait_for_data, wait_ends.
  destruct (has_data_ready cam); cbn [orb]; [|now apply poll_no_signal].
  rewrite stmt_no_signal by exact Hw.
  split; [apply (senses_only_emit EvWaitActive); reflexivity|].
  split; [now left | reflexivity].
Qed.

End NoSignal.

Section EmptyReads.
Context `{Externals}.
Variable cam : sensor.

Lemma senses_only_signal w w' : senses_only w w' -> w_signal w = None -> w_signal w' = None.
Proof. intros (_ & S & _) Hw. congruence. Qed.

Lemma iteration_empty fd c w :
  w_signal w = None -> empty_read cam c ->
  (iteration cam fd c w).1 = Ok Continue /\ senses_only w (iteration cam fd c w).2.
Proof.
  intros Hw (Hwait & hdr & Hread). unfold iteration.
  destruct (wait_no_signal cam c w Hw) as (Hs & _ & Hok).
  specialize (Hok Hwait). rewrite bind_eq.
  destruct (wait_for_data cam c w) as [r w1]. cbn [fst snd] in *. subst r.
  pose proof (senses_only_signal _ _ Hs Hw) as Hw1.
  rewrite bind_eq, stmt_no_signal by exact Hw1.
  unfold mi48_read. rewrite Hread. cbn.
  split; [reflexivity|].
  etrans; [exact Hs|]. apply (senses_only_emit EvRead). reflexivity.
Qed.

(** C6.  While no signal arrives, any number of consecutive passes in
    which [mi48.read()] returns no frame are skipped: the loop goes on
    with the next pass, nothing is raised, and between the first and the
    last of them the files, the window and the sensor state are unchanged
    and only the wait and the read appear among the events. *)
Theorem empty_reads_are_skipped fd (empties rest : list cycle) w :
  w_signal w = None ->
  Forall (empty_read cam) empties ->
  exists w',
    main_loop cam fd (empties ++ rest) w = main_loop cam fd rest w'
    /\ senses_only w w'
    /\ main_loop cam fd empties w = (Pending, w').
Proof.
  intros Hw Hall. revert w Hw. induction Hall as [|c empties Hc Hall IH]; intros w Hw.
  - exists w. split; [reflexivity|]. split; [apply senses_only_refl | reflexivity].
  - destruct (iteration_empty fd c w Hw Hc) as (Hr & Hs).
    cbn [app main_loop]. rewrite !bind_eq.
    destruct (iteration cam fd c w) as [r w1]. cbn [fst snd] in *. subst r.
    destruct (IH w1 (senses_only_signal _ _ Hs Hw)) as (w' & E1 & S1 & E2).
    exists w'. split; [exact E1|]. split; [etrans; [exact Hs | exact S1] | exact E2].
Qed.

End EmptyReads.

Section Frames.
Context `{Externals}.
Variable cam : sensor.

Lemma write_frame_no_signal fd arr w f :
  w_signal w = None -> w_files w !! fd = Some f -> f_closed f = false ->
  write_frame fd arr w
  = (Ok (), {| w_events := EvFlush fd :: EvWrite fd (outstr arr) :: w_events w;
               w_streaming := w_streaming w;
               w_files := <[fd := flushed f (outstr arr)]> (w_files w);
               w_window := w_window w;
               w_signal := None |}).
Proof.
  intros Hw Hf Hc. destruct w as [evs st fs win sig]. cbn in *. subst sig.
  pose proof (lookup_lt_Some _ _ _ Hf) as Hlt.
  unfold write_frame, file_write, file_flush, with_open_file.
  run. rewrite Hf, Hc. cbn.
  rewrite list_lookup_insert_eq by exact Hlt. cbn.
  rewrite list_insert_insert_eq. reflexivity.
Qed.

Lemma read_no_signal c w r :
  w_signal w = None -> c_read c = inr r ->
  stmt (mi48_read c) w
  = (Ok r, {| w_events := EvRead :: w_events w;
              w_streaming := w_streaming w;
              w_files := w_files w;
              w_window := w_window w;
              w_signal := None |}).
Proof.
  intros Hw Hread. rewrite stmt_no_signal by exact Hw.
  unfold mi48_read. rewrite Hread. destruct w; cbn in *; subst. reflexivity.
Qed.

Lemma bind_stmt_value {A B} (a : A) (f : A -> M B) w :
  w_signal w = None -> (stmt (value_or_raise (inr a)) ≫= f) w = f a w.
Proof. intros Hw. rewrite bind_eq, stmt_no_signal by exact Hw. reflexivity. Qed.

Lemma iteration_frame fd_data c w w1 data hdr img img8u :
  wait_for_data cam c w = (Ok (), w1) ->
  w_signal w1 = None ->
  c_read c = inr (Some data, hdr) ->
  sink_ready fd_data w1 ->
  data_to_frame data (fpa_shape cam) = inr img ->
  normalize img = inr img8u ->
  iteration cam fd_data c w
  = (Ok (if c_key c =? Py.ord_q then Break else Continue),
     {| w_events := pass_events cam fd_data c data hdr img8u ++ w_events w1;
        w_streaming := w_streaming w1;
        w_files := recorded fd_data data (w_files w1);
        w_window := Some (shown img8u);
        w_signal := None |}).
Proof.
  intros Hwait Hw1 Hread Hsink Hframe Hnorm.
  unfold iteration. rewrite bind_eq, Hwait.
  rewrite bind_eq, (read_no_signal c w1 _ Hw1 Hread).
  unfold recorded, pass_events.
  destruct fd_data as [fd|].
  - destruct Hsink as (f & Hf & Hc). rewrite Hf.
    rewrite bind_eq.
    erewrite write_frame_no_signal; [|reflexivity|exact Hf|exact Hc].
    rewrite Hframe, bind_stmt_value by reflexivity.
    unfold display_thermal_image, waitKey, logger_debug, shown.
    destruct hdr as [h|]; [destruct (debug_enabled cam)|]; run;
      rewrite Hnorm; cbn; destruct (c_key c =? Py.ord_q); reflexivity.
  - rewrite bind_eq. cbn [mret M_ret].
    rewrite Hframe, bind_stmt_value by reflexivity.
    unfold display_thermal_image, waitKey, logger_debug, shown.
    destruct w1 as [evs st fs win sig]. cbn in Hw1. subst sig.
    destruct hdr as [h|]; [destruct (debug_enabled cam)|]; run;
      rewrite Hnorm; cbn; destruct (c_key c =? Py.ord_q); reflexivity.
Qed.

Lemma iteration_bad_shape fd_data c w w1 data hdr msg :
  wait_for_data cam c w = (Ok (), w1) ->
  w_signal w1 = None ->
  c_read c = inr (Some data, hdr) ->
  sink_ready fd_data w1 ->
  data_to_frame data (fpa_shape cam) = inl msg ->
  (iteration cam fd_data c w).1 = Raise (Py.ValueError msg).
Proof.
  intros Hwait Hw1 Hread Hsink Hframe.
  unfold iteration. rewrite bind_eq, Hwait.
  rewrite bind_eq, (read_no_signal c w1 _ Hw1 Hread).
  destruct fd_data as [fd|].
  - destruct Hsink as (f & Hf & Hc).
    rewrite bind_eq.
    erewrite write_frame_no_signal; [|reflexivity|exact Hf|exact Hc].
    rewrite Hframe, bind_eq, stmt_no_signal by reflexivity. reflexivity.
  - rewrite bind_eq. cbn [mret M_ret].
    rewrite Hframe, bind_eq, stmt_no_signal by reflexivity. reflexivity.
Qed.

Lemma iteration_bad_image fd_data c w w1 data hdr img msg :
  wait_for_data cam c w = (Ok (), w1) ->
  w_signal w1 = None ->
  c_read c = inr (Some data, hdr) ->
  sink_ready fd_data w1 ->
  data_to_frame data (fpa_shape cam) = inr img ->
  normalize img = inl msg ->
  (iteration cam fd_data c w).1 = Raise (Py.ValueError msg).
Proof.
  intros Hwait Hw1 Hread Hsink Hframe Hnorm.
  unfold iteration. rewrite bind_eq, Hwait.
  rewrite bind_eq, (read_no_signal c w1 _ Hw1 Hread).
  destruct fd_data as [fd|].
  - destruct Hsink as (f & Hf & Hc).
    rewrite bind_eq.
    erewrite write_frame_no_signal; [|reflexivity|exact Hf|exact Hc].
    rewrite Hframe, bind_stmt_value by reflexivity.
    unfold logger_debug.
    destruct hdr as [h|]; [destruct (debug_enabled cam)|]; run;
      rewrite Hnorm; reflexivity.
  - rewrite bind_eq. cbn [mret M_ret].
    rewrite Hframe, bind_stmt_value by reflexivity.
    unfold logger_debug.
    destruct w1 as [evs st fs win sig]. cbn in Hw1. subst sig.
    destruct hdr as [h|]; [destruct (debug_enabled cam)|]; run;
      rewrite Hnorm; reflexivity.
Qed.

End Frames.

Section CleanUp.
Context `{Externals}.
Variable cam : sensor.

Lemma cleanup_no_signal fd_data w :
  w_signal w = None -> cleanup fd_data w = (Ok (), cleaned fd_data w).
Proof.
  intros Hw. destruct w as [evs st fs win sig]. cbn in Hw. subst sig.
  unfold cleanup, cleaned, closed_files, cleanup_events.
  destruct fd_data as [fd|]; run; [|reflexivity].
  destruct (fs !! fd); reflexivity.
Qed.






End CleanUp.

Section Sink.
Context `{Externals}.
Variable cam : sensor.

Lemma open_only : startup_only is_open.
Proof. intros ev Hev. now left. Qed.

Ltac quiet := first [ exact (startup_only_handler _ open_only)
                    | now apply (startup_only_false _ _ open_only) ].

Lemma adds_none {A} (m : M A) : well_behaved is_open m -> adds_at_most 0 m.
Proof.
  intros Hm w. destruct (Hm w) as (Hc & Hl & _). unfold opens, count in *. lia.
Qed.

Lemma adds_weaken {A} (m : M A) k : adds_at_most 0 m -> adds_at_most k m.
Proof. intros Hm w. destruct (Hm w). lia. Qed.

Lemma adds_bind {A B} j k (m : M A) (f : A -> M B) :
  adds_at_most j m -> (forall a, adds_at_most k (f a)) ->
  adds_at_most (j + k) (m ≫= f).
Proof.
  intros Hm Hf w. rewrite bind_eq. specialize (Hm w).
  destruct (m w) as [[a|e|] w1]; cbn [fst snd] in *; try lia.
  specialize (Hf a w1). lia.
Qed.

Lemma adds_file_open name : adds_at_most 1 (file_open name).
Proof.
  intros w. unfold file_open, opens. run. rewrite length_app. cbn. lia.
Qed.

Lemma adds_stmt {A} k (m : M A) : adds_at_most k m -> adds_at_most k (stmt m).
Proof.
  intros Hm. apply (adds_bind 0 k); [|intros _; exact Hm].
  apply adds_none, wb_tick. quiet.
Qed.

Lemma wb_getattr P args name : well_behaved P (lift (getattr args name)).
Proof.
  unfold getattr. destruct (args !! name); [apply wb_ret | apply wb_raise; discriminate].
Qed.

Lemma adds_stream args script : adds_at_most 1 (stream cam args script).
Proof.
  unfold stream.
  apply (adds_bind 0 1).
  { apply adds_none. destruct (2 <=? fw_major cam); [|apply wb_ret].
    do 2 (apply wb_bind; [apply wb_stmt; [quiet | apply wb_emit; reflexivity] | intros _]).
    apply wb_stmt; [quiet | apply wb_emit; reflexivity]. }
  intros _. apply (adds_bind 0 1).
  { apply adds_none, wb_stmt; [quiet | apply wb_getattr]. }
  intros record. apply (adds_bind 1 0).
  { destruct (Py.truthy record); [|apply adds_weaken, adds_none, wb_ret].
    apply (adds_bind 1 0); [apply adds_stmt, adds_file_open | intros fd].
    apply adds_none.
    apply wb_bind; [apply wb_stmt; [quiet | apply wb_emit; reflexivity] | intros _].
    apply wb_ret. }
  intros fd. apply adds_none.
  do 2 (apply wb_bind; [apply wb_stmt; [quiet | apply wb_emit; reflexivity] | intros _]).
  apply wb_bind; [apply wb_stmt; [quiet|] | intros _].
  { apply wb_bind; [apply wb_emit; reflexivity | intros _; apply wb_set_streaming]. }
  apply wb_acquire, open_only.
Qed.

Lemma wb_bind_stmt_value P {A B} (v : A) (f : A -> M B) :
  spares_handler P -> well_behaved P (f v) ->
  well_behaved P (stmt (mret v) ≫= f).
Proof.
  intros HP Hf w.
  assert (E : (stmt (mret v) ≫= f) w = (tick ≫= (fun _ => f v)) w).
  { unfold stmt. rewrite !bind_eq. destruct (tick w) as [[[]|e|] w1]; reflexivity. }
  rewrite E. apply wb_bind; [now apply wb_tick | intros _; exact Hf].
Qed.

Lemma wb_stream_tail fd_data script :
  well_behaved is_open
    (stmt (emit (EvPrint (newline +:+ "Starting thermal camera stream...")));;
     stmt (emit (EvPrint ("Press 'q' to quit" +:+ newline)));;
     stmt (mi48_start true true);;
     acquire cam fd_data script).
Proof.
  do 2 (apply wb_bind; [apply wb_stmt; [quiet | apply wb_emit; reflexivity] | intros _]).
  apply wb_bind; [apply wb_stmt; [quiet|] | intros _].
  { apply wb_bind; [apply wb_emit; reflexivity | intros _; apply wb_set_streaming]. }
  apply wb_acquire, open_only.
Qed.

Lemma wb_filter_setup :
  well_behaved is_open
    (if 2 <=? fw_major cam
     then stmt (emit (EvEnableFilter true true false));;
          stmt (emit (EvSetOffsetCorr (S754_zero false)));;
          stmt (emit (EvPrint "Filtering enabled"))
     else mret ()).
Proof.
  destruct (2 <=? fw_major cam); [|apply wb_ret].
  do 2 (apply wb_bind; [apply wb_stmt; [quiet | apply wb_emit; reflexivity] | intros _]).
  apply wb_stmt; [quiet | apply wb_emit; reflexivity].
Qed.

Lemma stream_without_record args script v w :
  args !! "record"%string = Some v -> Py.truthy v = false ->
  opens (stream cam args script w).2 = opens w.
Proof.
  intros Hv Ht.
  assert (Hwb : well_behaved is_open (stream cam args script)).
  { unfold stream, getattr. rewrite Hv. cbn [lift].
    apply wb_bind; [apply wb_filter_setup | intros _].
    apply wb_bind_stmt_value; [quiet|]. rewrite Ht.
    apply wb_bind_value. apply wb_stream_tail. }
  apply Hwb.
Qed.

Lemma stream_with_record args script v w :
  w_signal w = None ->
  args !! "record"%string = Some v -> Py.truthy v = true ->
  stream cam args script w
  = acquire cam (Some (length (w_files w))) script (recording_started cam w).
Proof.
  intros Hw Hv Ht. destruct w as [evs st fs win sig]. cbn in Hw. subst sig.
  unfold stream, getattr, recording_started, setup_events. rewrite Hv. cbn [lift].
  unfold file_open.
  destruct (2 <=? fw_major cam); run; rewrite Ht; reflexivity.
Qed.

Lemma opens_recording_started w :
  opens (recording_started cam w) = S (opens w).
Proof.
  unfold opens, recording_started, setup_events. cbn [w_events].
  destruct (2 <=? fw_major cam); reflexivity.
Qed.

Lemma adds_main_body args script : adds_at_most 1 (main_body cam args script).
Proof.
  unfold main_body.
  do 5 (apply (adds_bind 0 1); [apply adds_none, wb_emit; reflexivity | intros _]).
  do 14 (apply (adds_bind 0 1);
         [apply adds_none, wb_stmt; [quiet | apply wb_emit; reflexivity] | intros _]).
  apply (adds_bind 0 1); [apply adds_none, wb_stmt; [quiet | apply wb_getattr] | intros fps].
  apply (adds_bind 0 1); [apply adds_none, wb_emit; reflexivity | intros _].
  apply (adds_bind 0 1); [apply adds_none, wb_stmt; [quiet | apply wb_getattr] | intros fps'].
  apply (adds_bind 0 1); [apply adds_none, wb_emit; reflexivity | intros _].
  apply adds_stream.
Qed.

Lemma adds_main argv script : adds_at_most 1 (main cam argv script).
Proof.
  unfold main. destruct (parse_args argv) as [e|args]; cbn [lift].
  - intros w. rewrite bind_eq. cbn. lia.
  - intros w. apply (adds_main_body args script w).
Qed.

Lemma open_now_le w : (open_now w <= length (w_files w))%nat.
Proof. unfold open_now. apply filter_length_le. Qed.

(** C8.  The loop and the clean-up never call [open] and never add a
    file; the code after line 158 calls [open] at most once, never without
    the [record] attribute being true, and exactly once before the loop
    starts when it is true and no signal interrupts the set-up; a whole run
    of the program makes at most one call of [open] and has at most one
    file open. *)
Theorem at_most_one_sink args argv script fd_data w signal :
  (opens (acquire cam fd_data script w).2 = opens w
   /\ length (w_files (acquire cam fd_data script w).2) = length (w_files w))
  /\ (opens (stream cam args script w).2 <= opens w + 1)%nat
  /\ (forall v, args !! "record"%string = Some v -> Py.truthy v = false ->
        opens (stream cam args script w).2 = opens w)
  /\ (w_signal w = None ->
      forall v, args !! "record"%string = Some v -> Py.truthy v = true ->
        stream cam args script w
        = acquire cam (Some (length (w_files w))) script (recording_started cam w)
        /\ opens (recording_started cam w) = S (opens w)
        /\ opens (stream cam args script w).2 = S (opens w))
  /\ (opens (main cam argv script (boot signal)).2 <= 1)%nat
  /\ (open_now (main cam argv script (boot signal)).2 <= 1)%nat.
Proof.
  split.
  { destruct (wb_acquire cam is_open open_only fd_data script w) as (Hc & Hl & _).
    split; [exact Hc | exact Hl]. }
  split; [apply (adds_stream args script w)|].
  split; [intros v; apply stream_without_record|].
  split.
  { intros Hw v Hv Ht. rewrite (stream_with_record args script v w Hw Hv Ht).
    split; [reflexivity|]. split; [apply opens_recording_started|].
    destruct (wb_acquire cam is_open open_only (Some (length (w_files w))) script
                (recording_started cam w)) as (Hc & _).
    unfold opens, count in *. rewrite Hc. apply opens_recording_started. }
  destruct (adds_main argv script (boot signal)) as (Ho & Hl).
  split; [exact Ho|].
  etrans; [apply open_now_le | exact Hl].
Qed.

End Sink.

Section Recording.
Context `{Externals}.
Variable cam : sensor.

Lemma flushed_fresh f text :
  f_pending f = EmptyString ->
  f_written (flushed f text) = f_written f +:+ text
  /\ f_pending (flushed f text) = EmptyString
  /\ f_closed (flushed f text) = false.
Proof. intros Hp. unfold flushed. cbn. now rewrite Hp. Qed.

Lemma main_loop_frames fd script frames :
  Forall2 (frame_pass cam) script frames ->
  forall w f,
    w_signal w = None -> w_files w !! fd = Some f ->
    f_closed f = false -> f_pending f = EmptyString ->
    exists w' f',
      main_loop cam (Some fd) script w = (Pending, w')
      /\ w_signal w' = None
      /\ w_files w' !! fd = Some f'
      /\ f_closed f' = false
      /\ f_pending f' = EmptyString
      /\ f_written f' = f_written f +:+ String.concat "" (map outstr frames).
Proof.
  induction 1 as [|c data script frames Hc Hrest IH]; intros w f Hw Hf Hclosed Hpend.
  - exists w, f. repeat (split; [auto; fail|]).
    cbn [map String.concat]. now rewrite app_nil_r_string.
  - destruct Hc as (Hwait & [hdr Hread] & (img & img8u & Hframe & Hnorm) & Hkey).
    destruct (wait_no_signal cam c w Hw) as (Hs & _ & Hok). specialize (Hok Hwait).
    destruct (wait_for_data cam c w) as [r w1] eqn:Ew. cbn [fst snd] in *. subst r.
    pose proof (senses_only_signal _ _ Hs Hw) as Hw1.
    assert (Hfiles : w_files w1 = w_files w).
    { destruct Hs as (Hres & _). unfold resources in Hres. congruence. }
    assert (Hsink : sink_ready (Some fd) w1).
    { exists f. now rewrite Hfiles. }
    pose proof (iteration_frame cam (Some fd) c w w1 data hdr img img8u
                  Ew Hw1 Hread Hsink Hframe Hnorm) as Hit.
    apply Z.eqb_neq in Hkey. rewrite Hkey in Hit.
    cbn [main_loop]. rewrite bind_eq, Hit.
    destruct (flushed_fresh f (outstr data) Hpend) as (Hwr & Hpe & Hcl).
    match goal with |- context [main_loop _ _ script ?w2] =>
      destruct (IH w2 (flushed f (outstr data))) as (w' & f' & E & S & L & C & P & W)
    end; auto.
    { cbn. rewrite Hfiles, Hf. apply list_lookup_insert_eq. now apply lookup_lt_Some in Hf. }
    exists w', f'. repeat (split; [assumption|]).
    rewrite W, Hwr. cbn [map]. now rewrite concat_cons, app_assoc_string.
Qed.

Lemma tokens_outstr arr : tokens (outstr arr) = sample_words arr.
Proof.
  unfold outstr, sample_words. destruct (buffer arr).
  - apply tokens_line; [apply no_ws_format_n | apply format_n_nonempty].
  - apply tokens_line; [apply no_ws_format_2f | apply format_2f_nonempty].
Qed.

Lemma length_sample_words arr : length (sample_words arr) = size arr.
Proof. unfold sample_words, size. destruct (buffer arr); apply length_map. Qed.

Lemma newlines_outstr arr : count_char "010" (outstr arr) = 1%nat.
Proof.
  unfold outstr. destruct (buffer arr);
    [apply newlines_line, no_ws_format_n | apply newlines_line, no_ws_format_2f].
Qed.

Lemma newlines_concat frames :
  count_char "010" (String.concat "" (map outstr frames)) = length frames.
Proof.
  induction frames as [|d frames IH]; [reflexivity|].
  cbn [map length]. now rewrite concat_cons, count_char_app, newlines_outstr, IH.
Qed.

Lemma concat_snoc {A} (g : A -> string) l x :
  String.concat "" (map g (l ++ [x])) = String.concat "" (map g l) +:+ g x.
Proof.
  induction l as [|y l IH]; cbn [app map].
  - now rewrite concat_cons, app_nil_r_string.
  - now rewrite !concat_cons, IH, app_assoc_string.
Qed.

(** a nonempty frame ends in a blank and the newline *)
Lemma outstr_trailing_blank arr :
  (0 < size arr)%nat -> exists body, outstr arr = body +:+ space +:+ newline.
Proof.
  unfold size, outstr. intros Hn.
  destruct (buffer arr) as [l|l];
    (destruct (exists_last (l := l)) as (l' & x & ->); [intros ->; cbn in Hn; lia|]);
    rewrite concat_snoc; eexists; rewrite <- !app_assoc_string; reflexivity.
Qed.

(** C5.  When recording is on and no signal arrives, passes that read the
    frames [frames] one after the other and process them without error
    append exactly one line per frame to the recording file, flushed; each
    line, read back as blank-separated words, gives the samples of its
    frame in C order, width x height of them, and ends in a blank and
    the newline. *)
Theorem one_line_per_frame fd f script frames w :
  w_signal w = None ->
  w_files w !! fd = Some f -> f_closed f = false -> f_pending f = EmptyString ->
  Forall2 (frame_pass cam) script frames ->
  Forall (fun data => size data = (fst (fpa_shape cam) * snd (fpa_shape cam))%nat) frames ->
  exists w' f',
    main_loop cam (Some fd) script w = (Pending, w')
    /\ w_files w' !! fd = Some f'
    /\ f_pending f' = EmptyString
    /\ f_written f' = f_written f +:+ String.concat "" (map outstr frames)
    /\ count_char "010" (String.concat "" (map outstr frames)) = length script
    /\ Forall (fun data =>
                 count_char "010" (outstr data) = 1%nat
                 /\ tokens (outstr data) = sample_words data
                 /\ length (tokens (outstr data))
                    = (fst (fpa_shape cam) * snd (fpa_shape cam))%nat
                 /\ ((0 < size data)%nat ->
                     exists body, outstr data = body +:+ space +:+ newline)) frames.
Proof.
  intros Hw Hf Hc Hp Hpass Hsize.
  destruct (main_loop_frames fd script frames Hpass w f Hw Hf Hc Hp)
    as (w' & f' & E & _ & L & _ & P & W).
  exists w', f'. repeat (split; [assumption|]).
  split; [rewrite newlines_concat; symmetry; eapply Forall2_length; eassumption|].
  rewrite Forall_forall in Hsize. apply Forall_forall. intros data Hin.
  split; [apply newlines_outstr|]. split; [apply tokens_outstr|].
  split; [|apply outstr_trailing_blank].
  rewrite tokens_outstr, length_sample_words. now apply Hsize.
Qed.

End Recording.

Section DebugLog.
Context `{Externals}.
Variable cam : sensor.

Lemma without_debug_fields w1 w2 :
  without_debug w1 = without_debug w2 ->
  List.filter (fun ev => negb (is_debug ev)) (w_events w1)
  = List.filter (fun ev => negb (is_debug ev)) (w_events w2)
  /\ w_streaming w1 = w_streaming w2
  /\ w_files w1 = w_files w2
  /\ w_window w1 = w_window w2
  /\ w_signal w1 = w_signal w2.
Proof. unfold without_debug. intros [= ? ? ? ? ?]. auto. Qed.

(** a primitive is handled by unpacking both states *)
Ltac blind :=
  let w1 := fresh "w" in let w2 := fresh "w" in let Hw := fresh "Hw" in
  intros w1 w2 Hw;
  apply without_debug_fields in Hw as (? & ? & ? & ? & ?);
  destruct w1, w2; unfold same_but_debug, without_debug; run; subst;
  repeat match goal with
         | |- context [match ?x with _ => _ end] => destruct x eqn:?; run
         end;
  try (split; [reflexivity | f_equal; congruence]).

Lemma db_ret {A} (a : A) : debug_blind (mret a) (mret a).
Proof. blind. Qed.

Lemma db_bind {A B} (m1 m2 : M A) (f1 f2 : A -> M B) :
  debug_blind m1 m2 -> (forall a, debug_blind (f1 a) (f2 a)) ->
  debug_blind (m1 ≫= f1) (m2 ≫= f2).
Proof.
  intros Hm Hf w1 w2 Hw. rewrite !bind_eq. destruct (Hm w1 w2 Hw) as (Hr & Hw').
  destruct (m1 w1) as [r1 w1'], (m2 w2) as [r2 w2']. cbn [fst snd] in *. subst r2.
  destruct r1 as [a|e|]; [now apply Hf | now split | now split].
Qed.

Lemma db_emit ev : debug_blind (emit ev) (emit ev).
Proof. blind. Qed.

Lemma db_emit_debug s1 s2 : debug_blind (emit (EvLogDebug s1)) (emit (EvLogDebug s2)).
Proof. blind. Qed.

Lemma db_raise {A} e : debug_blind (raise (A:=A) e) (raise e).
Proof. blind. Qed.

Lemma db_pending {A} : debug_blind (pending (A:=A)) pending.
Proof. blind. Qed.

Lemma db_tick : debug_blind tick tick.
Proof. blind. Qed.

Lemma db_stmt {A} (m1 m2 : M A) : debug_blind m1 m2 -> debug_blind (stmt m1) (stmt m2).
Proof. intros Hm. apply db_bind; [apply db_tick | intros _; exact Hm]. Qed.

Lemma db_value_or_raise {A} (r : string + A) :
  debug_blind (value_or_raise r) (value_or_raise r).
Proof. destruct r; [apply db_raise | apply db_ret]. Qed.

Lemma db_imshow t p : debug_blind (imshow t p) (imshow t p).
Proof. blind. Qed.

Lemma db_file_write fd text : debug_blind (file_write fd text) (file_write fd text).
Proof. unfold file_write, with_open_file. blind. Qed.

Lemma db_file_flush fd : debug_blind (file_flush fd) (file_flush fd).
Proof. unfold file_flush, with_open_file. blind. Qed.

Lemma db_poll sts : debug_blind (poll sts) (poll sts).
Proof.
  induction sts as [|s rest IH]; cbn [poll]; [apply db_pending|].
  apply db_bind; [apply db_stmt, db_emit | intros _].
  destruct (_ =? _); [|apply db_ret].
  apply db_bind; [apply db_stmt, db_emit | intros _; exact IH].
Qed.

Lemma db_write_frame fd arr : debug_blind (write_frame fd arr) (write_frame fd arr).
Proof.
  apply db_bind; [apply db_stmt, db_file_write | intros _; apply db_stmt, db_file_flush].
Qed.

Lemma db_wait c1 c2 :
  c_status c1 = c_status c2 ->
  debug_blind (wait_for_data cam c1) (wait_for_data cam c2).
Proof.
  intros Hs. unfold wait_for_data. rewrite Hs.
  destruct (has_data_ready cam); [apply db_stmt, db_emit | apply db_poll].
Qed.

Lemma db_logger_debug s1 s2 : debug_blind (logger_debug cam s1) (logger_debug cam s2).
Proof.
  unfold logger_debug. destruct (debug_enabled cam); [apply db_emit_debug | apply db_ret].
Qed.

Lemma db_read_then {B} c r (k : option ndarray * option header -> M B) k' :
  c_read c = inr r ->
  debug_blind (stmt (emit EvRead) ≫= (fun _ => k r)) k' ->
  debug_blind (stmt (mi48_read c) ≫= k) k'.
Proof.
  intros Hread Hk w1 w2 Hw. specialize (Hk w1 w2 Hw).
  replace ((stmt (mi48_read c) ≫= k) w1)
    with ((stmt (emit EvRead) ≫= (fun _ => k r)) w1); [exact Hk|].
  unfold stmt, mi48_read. rewrite Hread, !bind_eq.
  destruct (tick w1) as [[[]|e|] w']; reflexivity.
Qed.

Lemma db_sym {A} (m1 m2 : M A) : debug_blind m1 m2 -> debug_blind m2 m1.
Proof.
  intros Hm w1 w2 Hw. destruct (Hm w2 w1 (eq_sym Hw)) as (Hr & Hw'). now split.
Qed.

(** C9.  Two passes that read the same frame with two different headers
    end the same way and leave states that differ at most in the debug
    log: the files (hence the bytes recorded) and the image in the window
    are the same. *)
Theorem header_reaches_debug_log_only fd_data c1 c2 data h1 h2 w :
  c_status c1 = c_status c2 -> c_key c1 = c_key c2 ->
  c_read c1 = inr (Some data, Some h1) ->
  c_read c2 = inr (Some data, Some h2) ->
  (iteration cam fd_data c1 w).1 = (iteration cam fd_data c2 w).1
  /\ without_debug (iteration cam fd_data c1 w).2
     = without_debug (iteration cam fd_data c2 w).2
  /\ w_files (iteration cam fd_data c1 w).2 = w_files (iteration cam fd_data c2 w).2
  /\ w_window (iteration cam fd_data c1 w).2 = w_window (iteration cam fd_data c2 w).2.
Proof.
  intros Hs Hk Hr1 Hr2.
  assert (Hdb : debug_blind (iteration cam fd_data c1) (iteration cam fd_data c2)).
  { unfold iteration.
    apply db_bind; [now apply db_wait | intros _].
    apply (db_read_then c1 _ _ _ Hr1), db_sym, (db_read_then c2 _ _ _ Hr2), db_sym.
    apply db_bind; [apply db_stmt, db_emit | intros _].
    apply db_bind; [destruct fd_data; [apply db_write_frame | apply db_ret] | intros _].
    apply db_bind; [apply db_stmt, db_value_or_raise | intros img].
    apply db_bind; [apply db_stmt, db_logger_debug | intros _].
    apply db_bind; [apply db_stmt, db_value_or_raise | intros img8u].
    apply db_bind; [apply db_stmt, db_imshow | intros _].
    unfold waitKey. rewrite Hk.
    apply db_bind; [apply db_stmt, db_bind; [apply db_emit | intros; apply db_ret] | intros key].
    destruct (_ =? _); apply db_ret. }
  destruct (Hdb w w eq_refl) as (Hres & Hw).
  split; [exact Hres|]. split; [exact Hw|].
  apply without_debug_fields in Hw as (_ & _ & Hf & Hwin & _). now split.
Qed.

End DebugLog.

Section Quit.
Context `{Externals}.
Variable cam : sensor.

Ltac calm :=
  let w := fresh "w" in let a := fresh "a" in let w' := fresh "w" in
  let E := fresh "E" in
  intros w a w' E; destruct w; unfold unsignalled; run;
  repeat match goal with
         | H : context [match ?x with _ => _ end] |- _ => destruct x eqn:?; run
         end;
  try discriminate;
  try (injection E as <- <-; reflexivity).

Lemma ui_ret {A} (a : A) : uninterrupted (mret a).
Proof. calm. Qed.

Lemma ui_bind {A B} (m : M A) (f : A -> M B) :
  uninterrupted m -> (forall a, uninterrupted (f a)) -> uninterrupted (m ≫= f).
Proof.
  intros Hm Hf w b w' E. rewrite bind_eq in *.
  destruct (m w) as [[a|e|] w1] eqn:Em; try discriminate.
  now rewrite (Hm _ _ _ Em), (Hf a _ _ _ E).
Qed.

Lemma ui_emit ev : uninterrupted (emit ev).
Proof. calm. Qed.

Lemma ui_raise {A} e : uninterrupted (raise (A:=A) e).
Proof. calm. Qed.

Lemma ui_pending {A} : uninterrupted (pending (A:=A)).
Proof. calm. Qed.

Lemma ui_tick : uninterrupted tick.
Proof. calm. Qed.

Lemma ui_stmt {A} (m : M A) : uninterrupted m -> uninterrupted (stmt m).
Proof. intros Hm. apply ui_bind; [apply ui_tick | intros _; exact Hm]. Qed.

Lemma ui_value_or_raise {A} (r : string + A) : uninterrupted (value_or_raise r).
Proof. destruct r; [apply ui_raise | apply ui_ret]. Qed.

Lemma ui_imshow t p : uninterrupted (imshow t p).
Proof. calm. Qed.

Lemma ui_file_write fd text : uninterrupted (file_write fd text).
Proof. unfold file_write, with_open_file. calm. Qed.

Lemma ui_file_flush fd : uninterrupted (file_flush fd).
Proof. unfold file_flush, with_open_file. calm. Qed.

Lemma ui_poll sts : uninterrupted (poll sts).
Proof.
  induction sts as [|s rest IH]; cbn [poll]; [apply ui_pending|].
  apply ui_bind; [apply ui_stmt, ui_emit | intros _].
  destruct (_ =? _); [|apply ui_ret].
  apply ui_bind; [apply ui_stmt, ui_emit | intros _; exact IH].
Qed.

Lemma ui_iteration fd_data c : uninterrupted (iteration cam fd_data c).
Proof.
  unfold iteration.
  apply ui_bind.
  { unfold wait_for_data. destruct (has_data_ready cam); [apply ui_stmt, ui_emit | apply ui_poll]. }
  intros _. apply ui_bind.
  { apply ui_stmt. unfold mi48_read. apply ui_bind; [apply ui_emit | intros _].
    destruct (c_read c); [apply ui_raise | apply ui_ret]. }
  intros [[data|] hdr]; [|apply ui_ret].
  apply ui_bind.
  { destruct fd_data; [|apply ui_ret].
    apply ui_bind; [apply ui_stmt, ui_file_write | intros _; apply ui_stmt, ui_file_flush]. }
  intros _. apply ui_bind; [apply ui_stmt, ui_value_or_raise | intros img].
  apply ui_bind.
  { destruct hdr; [|apply ui_ret]. apply ui_stmt. unfold logger_debug.
    destruct (debug_enabled cam); [apply ui_emit | apply ui_ret]. }
  intros _. apply ui_bind; [apply ui_stmt, ui_value_or_raise | intros img8u].
  apply ui_bind; [apply ui_stmt, ui_imshow | intros _].
  apply ui_bind.
  { apply ui_stmt, ui_bind; [apply ui_emit | intros; apply ui_ret]. }
  intros key. destruct (_ =? _); apply ui_ret.
Qed.

Lemma write_frame_not_ready fd arr w :
  w_signal w = None -> ~ sink_ready (Some fd) w ->
  (write_frame fd arr w).1 = Raise closed_file_error.
Proof.
  intros Hw Hno. destruct w as [evs st fs win sig]. cbn in Hw. subst sig.
  unfold write_frame, file_write, with_open_file. run.
  destruct (fs !! fd) as [f|] eqn:Ef; [|reflexivity].
  destruct (f_closed f) eqn:Ec; [reflexivity|].
  destruct Hno. exists f. now split.
Qed.

Lemma sink_ready_dec fd_data w : sink_ready fd_data w \/ ~ sink_ready fd_data w.
Proof.
  destruct fd_data as [fd|]; [|now left]. cbn.
  destruct (w_files w !! fd) as [f|] eqn:Ef.
  - destruct (f_closed f) eqn:Ec; [right | left; eauto].
    intros (f' & [= <-] & Hc). congruence.
  - right. intros (f' & [=] & _).
Qed.

(** without a signal, a pass that ends in [break] went through every step *)
Lemma iteration_break_no_signal fd_data c w w' :
  w_signal w = None ->
  iteration cam fd_data c w = (Ok Break, w') ->
  exists w1 data hdr img img8u,
    wait_for_data cam c w = (Ok (), w1)
    /\ senses_only w w1
    /\ c_read c = inr (Some data, hdr)
    /\ sink_ready fd_data w1
    /\ data_to_frame data (fpa_shape cam) = inr img
    /\ normalize img = inr img8u
    /\ c_key c = Py.ord_q
    /\ w' = {| w_events := pass_events cam fd_data c data hdr img8u ++ w_events w1;
               w_streaming := w_streaming w1;
               w_files := recorded fd_data data (w_files w1);
               w_window := Some (shown img8u);
               w_signal := None |}.
Proof.
  intros Hw Hit.
  destruct (wait_no_signal cam c w Hw) as (Hs & Hcase & _).
  destruct (wait_for_data cam c w) as [r w1] eqn:Ew. cbn [fst snd] in *.
  pose proof (senses_only_signal _ _ Hs Hw) as Hw1.
  destruct Hcase as [-> | ->];
    [|unfold iteration in Hit; rewrite bind_eq, Ew in Hit; discriminate].
  destruct (c_read c) as [msg|[[data|] hdr]] eqn:Hread.
  { unfold iteration, mi48_read in Hit.
    rewrite bind_eq, Ew, bind_eq, stmt_no_signal in Hit by exact Hw1.
    rewrite Hread in Hit. discriminate. }
  2:{ unfold iteration in Hit.
      rewrite bind_eq, Ew, bind_eq, (read_no_signal c w1 _ Hw1 Hread) in Hit.
      discriminate. }
  destruct (sink_ready_dec fd_data w1) as [Hsink | Hno].
  2:{ destruct fd_data as [fd|]; [|now destruct Hno].
      unfold iteration in Hit.
      rewrite bind_eq, Ew, bind_eq, (read_no_signal c w1 _ Hw1 Hread) in Hit.
      cbn iota beta in Hit. rewrite bind_eq in Hit.
      match type of Hit with context [write_frame fd data ?w2] =>
        pose proof (write_frame_not_ready fd data w2 eq_refl) as Hfail;
        destruct (write_frame fd data w2) as [r2 w3]
      end.
      cbn [fst] in Hfail. rewrite Hfail in Hit; [discriminate|exact Hno]. }
  destruct (data_to_frame data (fpa_shape cam)) as [msg|img] eqn:Hframe.
  { pose proof (iteration_bad_shape cam fd_data c w w1 data hdr msg
                  Ew Hw1 Hread Hsink Hframe) as Hbad.
    rewrite Hit in Hbad. discriminate. }
  destruct (normalize img) as [msg|img8u] eqn:Hnorm.
  { pose proof (iteration_bad_image cam fd_data c w w1 data hdr img msg
                  Ew Hw1 Hread Hsink Hframe Hnorm) as Hbad.
    rewrite Hit in Hbad. discriminate. }
  rewrite (iteration_frame cam fd_data c w w1 data hdr img img8u
             Ew Hw1 Hread Hsink Hframe Hnorm) in Hit.
  destruct (Z.eqb_spec (c_key c) Py.ord_q) as [Hk|Hk]; [|discriminate].
  injection Hit as <-.
  exists w1, data, hdr, img, img8u.
  split; [reflexivity|]. split; [exact Hs|]. split; [reflexivity|].
  split; [exact Hsink|]. split; [exact Hframe|]. split; [exact Hnorm|].
  split; [exact Hk | reflexivity].
Qed.

(** C10.  A pass can only end in [break] after the key check of line
    223-224, which is its last step: a frame was read, its text was
    written and flushed to the recording file when there is one, the
    frame was converted, normalised and shown, and only then the key [q]
    was seen. *)
Theorem quit_check_comes_last fd_data c w w' :
  iteration cam fd_data c w = (Ok Break, w') ->
  exists w1 data hdr img img8u,
    senses_only (unsignalled w) w1
    /\ c_read c = inr (Some data, hdr)
    /\ c_key c = Py.ord_q
    /\ data_to_frame data (fpa_shape cam) = inr img
    /\ normalize img = inr img8u
    /\ w_events w' = pass_events cam fd_data c data hdr img8u ++ w_events w1
    /\ w_window w' = Some (shown img8u)
    /\ (forall fd, fd_data = Some fd ->
          exists f, w_files w !! fd = Some f /\ f_closed f = false
                    /\ w_files w' !! fd = Some (flushed f (outstr data))).
Proof.
  intros Hit. apply ui_iteration in Hit.
  apply iteration_break_no_signal in Hit as
    (w1 & data & hdr & img & img8u & Ew & Hs & Hread & Hsink & Hframe & Hnorm & Hk & Hw');
    [|reflexivity].
  exists w1, data, hdr, img, img8u.
  assert (Hfiles : w_files w1 = w_files w).
  { destruct Hs as (Hres & _). unfold resources in Hres. cbn in Hres. congruence. }
  split; [exact Hs|]. split; [exact Hread|]. split; [exact Hk|].
  split; [exact Hframe|]. split; [exact Hnorm|].
  split; [change (w_events w') with (w_events (unsignalled w')); now rewrite Hw'|].
  split; [change (w_window w') with (w_window (unsignalled w')); now rewrite Hw'|].
  intros fd ->. destruct Hsink as (f & Hf & Hc). exists f.
  rewrite <- Hfiles. split; [exact Hf|]. split; [exact Hc|].
  change (w_files w') with (w_files (unsignalled w')). rewrite Hw'. cbn. rewrite Hf.
  apply list_lookup_insert_eq. now apply lookup_lt_Some in Hf.
Qed.

End Quit.

(** ** The theorems on concrete runs *)

Section Bench.

Lemma main_never_sets_fps_witness :
  count is_set_fps (main bench_camera ["--framerate"; "10"]%string [] (boot None)).2
  = count is_set_fps (boot None)
  /\ (w_signal (boot None) = None ->
      forall args, parse_args ["--framerate"; "10"]%string = inr args ->
        is_Some (args !! "framerate"%string)
        /\ args !! "fps"%string = None
        /\ (main bench_camera ["--framerate"; "10"]%string [] (boot None)).1
           = Raise (Py.AttributeError "fps")).
Proof. apply (main_never_sets_fps bench_camera). Defined.

Lemma bench_pass_ok hdr key :
  key <> Py.ord_q -> frame_pass bench_camera (bench_pass hdr key) bench_frame.
Proof.
  intros Hk. split; [reflexivity|]. split; [now exists hdr|].
  split; [|exact Hk]. eexists _, _. split; reflexivity.
Qed.

Lemma one_line_per_frame_witness :
  exists w' f',
    main_loop bench_camera (Some 0%nat) [bench_pass (Some 1) (-1); bench_pass None (-1)]
      bench_recording = (Pending, w')
    /\ w_files w' !! 0%nat = Some f'
    /\ f_pending f' = EmptyString
    /\ f_written f'
       = "" +:+ String.concat "" (map outstr [bench_frame; bench_frame])
    /\ count_char "010" (String.concat "" (map outstr [bench_frame; bench_frame]))
       = 2%nat
    /\ Forall (fun data =>
                 count_char "010" (outstr data) = 1%nat
                 /\ tokens (outstr data) = sample_words data
                 /\ length (tokens (outstr data)) = 4%nat
                 /\ ((0 < size data)%nat ->
                     exists body, outstr data = body +:+ space +:+ newline))
              [bench_frame; bench_frame].
Proof.
  apply (one_line_per_frame bench_camera 0%nat
           {| f_name := "A1B2--20260101-120000.dat"; f_closed := false;
              f_written := ""; f_pending := "" |}
           [bench_pass (Some 1) (-1); bench_pass None (-1)]
           [bench_frame; bench_frame] bench_recording);
    try reflexivity.
  - do 2 (constructor; [apply bench_pass_ok; discriminate|]). constructor.
  - do 2 (constructor; [reflexivity|]). constructor.
Defined.

Lemma empty_reads_are_skipped_witness :
  exists w',
    main_loop bench_camera None ([bench_empty; bench_empty] ++ [bench_pass None 113])
      (boot None)
    = main_loop bench_camera None [bench_pass None 113] w'
    /\ senses_only (boot None) w'
    /\ main_loop bench_camera None [bench_empty; bench_empty] (boot None) = (Pending, w').
Proof.
  apply (empty_reads_are_skipped bench_camera None [bench_empty; bench_empty]);
    [reflexivity|].
  do 2 (constructor; [split; [reflexivity | now exists None]|]). constructor.
Defined.


Lemma at_most_one_sink_witness :
  let args : gmap string Py.value := <["record"%string := Py.VBool true]> defaults in
  (w_signal (boot None) = None ->
   forall v, args !! "record"%string = Some v -> Py.truthy v = true ->
     stream bench_camera args [] (boot None)
     = acquire bench_camera (Some 0%nat) [] (recording_started bench_camera (boot None))
     /\ opens (recording_started bench_camera (boot None)) = 1%nat
     /\ opens (stream bench_camera args [] (boot None)).2 = 1%nat)
  /\ (opens (main bench_camera ["--record"]%string [] (boot (Some 30%nat))).2 <= 1)%nat.
Proof.
  intros args.
  destruct (at_most_one_sink bench_camera args ["--record"]%string [] None
              (boot None) (Some 30%nat)) as (_ & _ & _ & Hrec & Hmain & _).
  split; [exact Hrec | exact Hmain].
Defined.

Lemma header_reaches_debug_log_only_witness :
  let c1 := bench_pass (Some 1) 113 in
  let c2 := bench_pass (Some 2) 113 in
  c_status c1 = c_status c2 /\ c_key c1 = c_key c2
  /\ c_read c1 = inr (Some bench_frame, Some 1)
  /\ c_read c2 = inr (Some bench_frame, Some 2)
  /\ (iteration bench_camera (Some 0%nat) c1 bench_recording).1
     = (iteration bench_camera (Some 0%nat) c2 bench_recording).1
  /\ without_debug (iteration bench_camera (Some 0%nat) c1 bench_recording).2
     = without_debug (iteration bench_camera (Some 0%nat) c2 bench_recording).2
  /\ w_files (iteration bench_camera (Some 0%nat) c1 bench_recording).2
     = w_files (iteration bench_camera (Some 0%nat) c2 bench_recording).2
  /\ w_window (iteration bench_camera (Some 0%nat) c1 bench_recording).2
     = w_window (iteration bench_camera (Some 0%nat) c2 bench_recording).2.
Proof.
  intros c1 c2. do 4 (split; [reflexivity|]).
  apply (header_reaches_debug_log_only bench_camera (Some 0%nat) c1 c2 bench_frame 1 2);
    reflexivity.
Defined.

(** The header does reach the debug log: the two passes above log
    different lines. *)
Example header_in_debug_log :
  debug_lines (iteration bench_camera (Some 0%nat) (bench_pass (Some 1) 113) bench_recording).2
  = ["1  4"]%string
  /\ debug_lines (iteration bench_camera (Some 0%nat) (bench_pass (Some 2) 113) bench_recording).2
     = ["2  4"]%string.
Proof. split; vm_compute; reflexivity. Qed.

Lemma quit_check_comes_last_witness :
  let c := bench_pass (Some 1) 113 in
  let run := iteration bench_camera (Some 0%nat) c bench_recording in
  run = (Ok Break, run.2)
  /\ exists w1 data hdr img img8u,
      senses_only (unsignalled bench_recording) w1
      /\ c_read c = inr (Some data, hdr)
      /\ c_key c = Py.ord_q
      /\ data_to_frame data (fpa_shape bench_camera) = inr img
      /\ normalize img = inr img8u
      /\ w_events run.2 = pass_events bench_camera (Some 0%nat) c data hdr img8u ++ w_events w1
      /\ w_window run.2 = Some (shown img8u)
      /\ (forall fd, Some 0%nat = Some fd ->
            exists f, w_files bench_recording !! fd = Some f /\ f_closed f = false
                      /\ w_files run.2 !! fd = Some (flushed f (outstr data))).
Proof.
  intros c run.
  assert (Hr : run.1 = Ok Break) by (vm_compute; reflexivity).
  assert (Hrun : run = (Ok Break, run.2)) by (rewrite <- Hr; apply surjective_pairing).
  split; [exact Hrun|].
  apply (quit_check_comes_last bench_camera (Some 0%nat) c bench_recording run.2 Hrun).
Defined.

End Bench.

(** ** Further properties of the command line and of the file names *)

Section CommandLineValues.
Context `{Externals}.







End CommandLineValues.

Section FileNames.

Lemma append_length s t : String.length (s +:+ t) = (String.length s + String.length t)%nat.
Proof.
  induction s as [|c s IH]; [reflexivity|].
  rewrite app_cons_string. cbn [String.length plus]. now rewrite IH.
Qed.

Lemma append_inv_head s t1 t2 : s +:+ t1 = s +:+ t2 -> t1 = t2.
Proof.
  induction s as [|c s IH]; intros E; [exact E|].
  rewrite !app_cons_string in E. injection E as E. now apply IH.
Qed.

Lemma append_inv_tail t s1 : forall s2, s1 +:+ t = s2 +:+ t -> s1 = s2.
Proof.
  induction s1 as [|c s1 IH]; intros [|c2 s2] E.
  - reflexivity.
  - apply (f_equal String.length) in E. rewrite app_nil_l_string, app_cons_string in E.
    cbn in E. rewrite append_length in E. lia.
  - apply (f_equal String.length) in E. rewrite app_nil_l_string, app_cons_string in E.
    cbn in E. rewrite append_length in E. lia.
  - rewrite !app_cons_string in E. injection E as -> E. f_equal. now apply IH.
Qed.

(** X2.  For one camera, two recordings get the same file name only when
    they were started at the same timestamp: the name determines the
    timestamp. *)
Theorem get_filename_timestamp tag ts1 ts2 :
  get_filename ts1 tag = get_filename ts2 tag -> ts1 = ts2.
Proof.
  unfold get_filename. intros E.
  apply append_inv_head in E. apply append_inv_head in E.
  now apply append_inv_tail in E.
Qed.

End FileNames.

(** ** Further properties of the recorded lines *)

Section ReadingBack.

Lemma to_uint_not_nil n : N.to_uint n <> Decimal.Nil.
Proof.
  destruct n as [|p]; [discriminate|]. cbn.
  intros E. pose proof (DecimalPos.Unsigned.to_uint_nonnil p). congruence.
Qed.

Lemma int_of_word_format_n n : int_of_word (format_n n) = Some n.
Proof.
  unfold int_of_word, format_n.
  rewrite NilZero.usu by apply to_uint_not_nil.
  cbn. now rewrite DecimalN.Unsigned.of_to.
Qed.

(** X3.  The line that [write_frame] builds for a frame of unsigned
    16-bit samples loses nothing: split at the blanks and read as decimal
    integers, its words are exactly the samples, in order. *)
Theorem raw_line_reads_back sh (l : list N) :
  map int_of_word (tokens (outstr {| shape := sh; buffer := U16 l |})) = map Some l.
Proof.
  rewrite tokens_outstr. unfold sample_words. cbn [buffer].
  rewrite map_map. apply map_ext. intros n. apply int_of_word_format_n.
Qed.

End ReadingBack.

(** ** Further properties of the normalisation *)

Section DisplayRange.

Lemma minimum_nan_l b : F32.minimum S754_nan b = S754_nan.
Proof. reflexivity. Qed.

Lemma minimum_nan_r a : F32.minimum a S754_nan = S754_nan.
Proof. destruct a as [[]|[]| |[] m e]; reflexivity. Qed.

Lemma maximum_nan_l b : F32.maximum S754_nan b = S754_nan.
Proof. destruct b as [[]|[]| |[] m e]; reflexivity. Qed.

Lemma maximum_nan_r a : F32.maximum a S754_nan = S754_nan.
Proof. destruct a as [[]|[]| |[] m e]; reflexivity. Qed.

Lemma fold_left_absorbs (f : spec_float -> spec_float -> spec_float) :
  (forall b, f S754_nan b = S754_nan) -> (forall a, f a S754_nan = S754_nan) ->
  forall l x, In S754_nan (x :: l) -> fold_left f l x = S754_nan.
Proof.
  intros Hl Hr l. induction l as [|y l IH]; intros x Hin.
  - destruct Hin as [-> | []]. reflexivity.
  - cbn [fold_left]. apply IH.
    destruct Hin as [-> | [-> | Hin]]; [left; apply Hl | left; apply Hr | now right].
Qed.


(** X5.  A frame that holds a NaN anywhere is displayed as an all-zero
    image: the minimum and the maximum are both NaN, the test
    [img_max > img_min] is false, and the [else] branch of line 212 is
    taken. *)
Theorem normalize_nan_frame img :
  In S754_nan (astype_float32 (buffer img)) ->
  normalize img = inr {| im_shape := shape img; im_pixels := repeat 0 (size img) |}.
Proof.
  intros Hin. unfold normalize. rewrite <- size_astype.
  destruct (astype_float32 (buffer img)) as [|x t]; [destruct Hin|].
  cbn [amin amax].
  rewrite (fold_left_absorbs F32.minimum minimum_nan_l minimum_nan_r t x Hin).
  rewrite (fold_left_absorbs F32.maximum maximum_nan_l maximum_nan_r t x Hin).
  reflexivity.
Qed.

End DisplayRange.

Section Quotients.

Lemma Zdigits2_exact z k : 0 <= k -> 2 ^ k <= z < 2 ^ (k + 1) -> Zdigits2 z = k + 1.
Proof.
  intros Hk Hz. assert (0 < z) by (pose proof (Z.pow_pos_nonneg 2 k); lia).
  rewrite Zdigits2_log2 by lia. f_equal. apply Z.log2_unique; lia.
Qed.

Lemma loc_of_record_of_loc m l : loc_of_shr_record (shr_record_of_loc m l) = l.
Proof. destruct l as [|[]]; reflexivity. Qed.

Lemma shr_m_record_of_loc m l : shr_m (shr_record_of_loc m l) = m.
Proof. destruct l as [|[]]; reflexivity. Qed.

(** a mantissa of 24 bits is not shifted *)
Lemma shr_fexp_24 q e l :
  2 ^ 23 <= q < 2 ^ 24 -> -149 <= e ->
  shr_fexp F32.prec F32.emax q e l = (shr_record_of_loc q l, e).
Proof.
  intros Hq He. unfold shr_fexp.
  rewrite (Zdigits2_exact q 23) by lia.
  rewrite fexp_small by lia.
  replace (23 + 1 + e - 24 - e) with 0 by lia. reflexivity.
Qed.

(** a mantissa of 25 bits is shifted by one bit *)
Lemma shr_fexp_25 q e l :
  2 ^ 24 <= q < 2 ^ 25 -> -149 <= e ->
  shr_fexp F32.prec F32.emax q e l = (shr_1 (shr_record_of_loc q l), e + 1).
Proof.
  intros Hq He. unfold shr_fexp.
  rewrite (Zdigits2_exact q 24) by lia.
  rewrite fexp_small by lia.
  replace (24 + 1 + e - 24 - e) with 1 by lia. reflexivity.
Qed.

Lemma round_nearest_even_bounds m l :
  round_nearest_even m l = m \/ round_nearest_even m l = m + 1.
Proof. destruct l as [|[]]; cbn; auto. destruct (Z.even m); auto. Qed.

(** rounding after the one-bit shift: the doubled result is [q] itself,
    or a neighbour of an odd [q] *)
Lemma round_shifted q l :
  0 < q ->
  let mrs := shr_1 (shr_record_of_loc q l) in
  let m := round_nearest_even (shr_m mrs) (loc_of_shr_record mrs) in
  2 * m = q \/ 2 * m = q + 1 \/ (2 * m = q - 1 /\ Z.odd q = true).
Proof.
  intros Hq. destruct q as [|p|p]; try lia.
  destruct p as [p|p|]; destruct l as [|[]];
    cbn [shr_1 shr_record_of_loc shr_m loc_of_shr_record round_nearest_even orb];
    try (destruct (Z.even _));
    first [ left; lia | right; left; lia | right; right; split; [lia | reflexivity] ].
Qed.

(** the last step of the rounding, for a mantissa that needs no further
    shift or one carry *)
Lemma finish_round m e :
  2 ^ 23 <= m <= 2 ^ 24 -> -149 <= e <= 100 ->
  exists M E,
    (let '(mrs, e') := shr_fexp F32.prec F32.emax m e loc_Exact in
     match shr_m mrs with
     | 0 => S754_zero false
     | Z.pos p => if e' <=? F32.emax - F32.prec then S754_finite false p e' else S754_infinity false
     | Z.neg _ => S754_nan
     end) = S754_finite false M E
    /\ e <= E /\ Z.pos M * 2 ^ (E - e) = m.
Proof.
  intros Hm He. destruct (Z.eq_dec m (2 ^ 24)) as [->|Hne].
  - rewrite shr_fexp_25 by lia. exists (Z.to_pos (2 ^ 23)), (e + 1).
    cbn [shr_record_of_loc].
    change (shr_m (shr_1 {| shr_m := 2 ^ 24; shr_r := false; shr_s := false |}))
      with (Z.pos (Z.to_pos (2 ^ 23))).
    cbv iota.
    destruct (Z.leb_spec (e + 1) (F32.emax - F32.prec)) as [_|Hgt];
      [|unfold F32.emax, F32.prec in Hgt; lia].
    split; [reflexivity|]. split; [lia|].
    replace (e + 1 - e) with 1 by lia. reflexivity.
  - rewrite shr_fexp_24 by lia. cbn [shr_record_of_loc shr_m].
    destruct m as [|p|p]; try lia. exists p, e.
    destruct (Z.leb_spec e (F32.emax - F32.prec)) as [_|Hgt];
      [|unfold F32.emax, F32.prec in Hgt; lia].
    split; [reflexivity|]. split; [lia|].
    rewrite Z.sub_diag. lia.
Qed.

(** Rounding a quotient of 24 or 25 bits: the result, brought back to the
    exponent of the quotient, is the quotient or a neighbour; the lower
    neighbour only for an odd quotient. *)
Lemma round_quotient q e l :
  2 ^ 23 <= q < 2 ^ 25 -> -149 <= e <= 90 ->
  exists M E,
    binary_round_aux F32.prec F32.emax false q e l = S754_finite false M E
    /\ e <= E
    /\ (Z.pos M * 2 ^ (E - e) = q
        \/ Z.pos M * 2 ^ (E - e) = q + 1
        \/ (Z.pos M * 2 ^ (E - e) = q - 1 /\ Z.odd q = true)).
Proof.
  intros Hq He. unfold binary_round_aux.
  destruct (Z_lt_ge_dec q (2 ^ 24)) as [Hlt|Hge].
  - rewrite shr_fexp_24 by lia.
    rewrite loc_of_record_of_loc, shr_m_record_of_loc.
    destruct (finish_round (round_nearest_even q l) e) as (M & E & Hres & HE & Hval).
    { destruct (round_nearest_even_bounds q l) as [-> | ->]; lia. }
    { lia. }
    exists M, E. split; [exact Hres|]. split; [exact HE|].
    rewrite Hval. destruct (round_nearest_even_bounds q l) as [-> | ->]; auto.
  - rewrite shr_fexp_25 by lia.
    pose proof (round_shifted q l ltac:(lia)) as Hr. cbv zeta in Hr.
    set (m := round_nearest_even _ _) in *.
    destruct (finish_round m (e + 1)) as (M & E & Hres & HE & Hval).
    { lia. }
    { lia. }
    exists M, E. split; [exact Hres|]. split; [lia|].
    replace (E - e) with (1 + (E - (e + 1))) by lia.
    rewrite Z.pow_add_r by lia.
    replace (Z.pos M * (2 ^ 1 * 2 ^ (E - (e + 1)))) with (2 * (Z.pos M * 2 ^ (E - (e + 1))))
      by ring.
    rewrite Hval. exact Hr.
Qed.

Lemma shiftl_scaled M E G :
  0 <= M -> 0 <= G -> 0 <= E + G -> Z.shiftl M E = (M * 2 ^ (E + G)) / 2 ^ G.
Proof.
  intros HM HG HEG.
  assert (0 < 2 ^ G) by (apply Z.pow_pos_nonneg; lia).
  destruct (Z_le_gt_dec 0 E) as [HE|HE].
  - rewrite Z.shiftl_mul_pow2 by lia.
    rewrite Z.pow_add_r, Z.mul_assoc by lia. now rewrite Z.div_mul by lia.
  - rewrite Z.shiftl_div_pow2 by lia.
    replace (2 ^ G) with (2 ^ (- E) * 2 ^ (E + G))
      by (rewrite <- Z.pow_add_r by lia; f_equal; lia).
    rewrite Z.div_mul_cancel_r; [reflexivity | |];
      apply Z.pow_nonzero; lia.
Qed.

(** The binary32 quotient of two positive integers below [2^24],
    truncated, is their integer quotient: the rounding of the division
    never reaches the next integer. *)
Lemma div_of_Z_trunc a d :
  0 < a < 2 ^ 24 -> 0 < d < 2 ^ 24 ->
  exists M E,
    F32.div (F32.of_Z a) (F32.of_Z d) = S754_finite false M E
    /\ F32.trunc (S754_finite false M E) = a / d.
Proof.
  intros Ha Hd.
  rewrite (of_Z_pos a), (of_Z_pos d) by lia.
  pose proof (Zdigits2_pos a ltac:(lia)) as Hda0.
  pose proof (Zdigits2_pos d ltac:(lia)) as Hdd0.
  pose proof (Zdigits2_le_24 a ltac:(lia)) as Hda.
  pose proof (Zdigits2_le_24 d ltac:(lia)) as Hdd.
  pose proof (Zdigits2_bounds a ltac:(lia)) as [Hal Hah].
  pose proof (Zdigits2_bounds d ltac:(lia)) as [Hdl Hdh].
  set (da := Zdigits2 a) in *. set (dd := Zdigits2 d) in *.
  set (G := 24 + dd - da).
  unfold F32.div, SFdiv, SFdiv_core_binary. cbn [xorb].
  rewrite !Z_pos_to_pos by (apply scaled_pos; lia).
  rewrite !Zdigits2_mul_pow2 by lia. fold da dd.
  replace (da + (24 - da) + (da - 24) - (dd + (24 - dd) + (dd - 24))) with (da - dd) by lia.
  rewrite fexp_small by lia.
  rewrite Z.min_l by lia.
  replace (da - 24 - (dd - 24) - (da - dd - 24)) with 24 by lia.
  cbv iota beta.
  rewrite Z.shiftl_mul_pow2 by lia.
  assert (H2G : 0 < 2 ^ G) by (apply Z.pow_pos_nonneg; lia).
  assert (H2d : 0 < 2 ^ (24 - dd)) by (apply Z.pow_pos_nonneg; lia).
  assert (HdG : d < 2 ^ G).
  { assert (2 ^ dd <= 2 ^ G) by (apply Z.pow_le_mono_r; lia). lia. }
  assert (Hnum : a * 2 ^ (24 - da) * 2 ^ 24 = (a * 2 ^ G) * 2 ^ (24 - dd)).
  { rewrite <- !Z.mul_assoc, <- !Z.pow_add_r by lia. do 2 f_equal. lia. }
  rewrite Hnum.
  set (n := a / d).
  set (q := (a * 2 ^ G) / d).
  assert (Hq : Z.div_eucl (a * 2 ^ G * 2 ^ (24 - dd)) (d * 2 ^ (24 - dd))
               = (q, (a * 2 ^ G * 2 ^ (24 - dd)) mod (d * 2 ^ (24 - dd)))).
  { unfold Z.modulo, q. rewrite <- (Z.div_mul_cancel_r (a * 2 ^ G) d (2 ^ (24 - dd))) by lia.
    unfold Z.div. destruct (Z.div_eucl _ _). reflexivity. }
  rewrite Hq.
  assert (Hn : n * d <= a < (n + 1) * d).
  { unfold n. pose proof (Z.mul_div_le a d ltac:(lia)).
    pose proof (Z.mul_succ_div_gt a d ltac:(lia)). lia. }
  assert (Hn0 : 0 <= n) by (apply Z.div_pos; lia).
  assert (Hqlo : n * 2 ^ G <= q).
  { apply Z.div_le_lower_bound; [lia|]. nia. }
  assert (Hqhi : q + 1 < (n + 1) * 2 ^ G).
  { assert (q < (n + 1) * 2 ^ G - 1); [|lia].
    apply Z.div_lt_upper_bound; [lia|]. nia. }
  assert (Hq23 : 2 ^ 23 <= q < 2 ^ 25).
  { split.
    - apply Z.div_le_lower_bound; [lia|].
      assert (d * 2 ^ 23 < 2 ^ dd * 2 ^ 23) by nia.
      assert (2 ^ (da - 1) * 2 ^ G <= a * 2 ^ G) by nia.
      rewrite <- !Z.pow_add_r in * by lia.
      replace (dd + 23) with (da - 1 + G) in * by lia. lia.
    - apply Z.div_lt_upper_bound; [lia|].
      assert (a * 2 ^ G < 2 ^ da * 2 ^ G) by nia.
      assert (2 ^ (dd - 1) * 2 ^ 25 <= d * 2 ^ 25) by nia.
      rewrite <- !Z.pow_add_r in * by lia.
      replace (dd - 1 + 25) with (da + G) in * by lia. lia. }
  destruct (round_quotient q (da - dd - 24)
              (new_location (d * 2 ^ (24 - dd))
                 ((a * 2 ^ G * 2 ^ (24 - dd)) mod (d * 2 ^ (24 - dd)))))
    as (M & E & Hres & HE & Hval); [exact Hq23 | lia |].
  exists M, E. split; [exact Hres|].
  unfold F32.trunc. cbn [cond_Zopp].
  rewrite (shiftl_scaled (Z.pos M) E G) by lia.
  replace (E + G) with (E - (da - dd - 24)) by lia.
  set (Q := Z.pos M * 2 ^ (E - (da - dd - 24))) in *.
  assert (HQ : n * 2 ^ G <= Q < (n + 1) * 2 ^ G).
  { destruct Hval as [-> | [-> | [-> Hodd]]]; [lia | lia |].
    assert (n * 2 ^ G <> q); [|lia].
    intros Heq. rewrite <- Heq in Hodd.
    replace G with (1 + (G - 1)) in Hodd by lia.
    rewrite Z.pow_add_r, Z.mul_assoc, Z.odd_mul in Hodd by lia.
    rewrite (Z.odd_mul n) in Hodd. cbn in Hodd.
    rewrite andb_false_r in Hodd. discriminate. }
  symmetry. apply (Z.div_unique_pos Q (2 ^ G) n (Q - n * 2 ^ G)); lia.
Qed.

End Quotients.

Section RawFrames.

(** the float order agrees with the integer order, both ways *)
Lemma compare_of_Z a b :
  0 <= a < 2 ^ 24 -> 0 <= b < 2 ^ 24 ->
  SFcompare (F32.of_Z a) (F32.of_Z b) = Some (a ?= b).
Proof.
  intros Ha Hb.
  destruct (Z.eq_dec a 0) as [->|Hna]; destruct (Z.eq_dec b 0) as [->|Hnb].
  - reflexivity.
  - rewrite (of_Z_pos b) by lia. destruct b; try lia. reflexivity.
  - rewrite (of_Z_pos a) by lia. destruct a; try lia. reflexivity.
  - rewrite (of_Z_pos a), (of_Z_pos b) by lia.
    pose proof (Zdigits2_bounds a ltac:(lia)) as [Hal Hah].
    pose proof (Zdigits2_bounds b ltac:(lia)) as [Hbl Hbh].
    pose proof (Zdigits2_le_24 a ltac:(lia)). pose proof (Zdigits2_le_24 b ltac:(lia)).
    pose proof (Zdigits2_pos a ltac:(lia)). pose proof (Zdigits2_pos b ltac:(lia)).
    unfold SFcompare. f_equal.
    destruct (Z.compare_spec (Zdigits2 a - 24) (Zdigits2 b - 24)) as [E|E|E].
    + set (pa := Z.to_pos _). set (pb := Z.to_pos _).
      assert (Hc : (pa ?= pb)%positive = (a ?= b)).
      { rewrite Pos2Z.inj_compare. subst pa pb.
        rewrite !Z_pos_to_pos by (apply scaled_pos; lia).
        replace (Zdigits2 b) with (Zdigits2 a) by lia.
        pose proof (Z.pow_pos_nonneg 2 (24 - Zdigits2 a)) as Hp.
        destruct (Z.compare_spec a b) as [->|Hl|Hg];
          [apply Z.compare_refl | apply Z.compare_lt_iff; nia | apply Z.compare_gt_iff; nia]. }
      rewrite Pos.compare_cont_spec, Hc. destruct (a ?= b); reflexivity.
    + symmetry. apply Z.compare_lt_iff.
      assert (2 ^ Zdigits2 a <= 2 ^ (Zdigits2 b - 1)) by (apply Z.pow_le_mono_r; lia).
      lia.
    + symmetry. apply Z.compare_gt_iff.
      assert (2 ^ Zdigits2 b <= 2 ^ (Zdigits2 a - 1)) by (apply Z.pow_le_mono_r; lia).
      lia.
Qed.

Lemma is_nan_of_Z a : 0 <= a < 2 ^ 24 -> F32.is_nan (F32.of_Z a) = false.
Proof.
  intros Ha. destruct (Z.eq_dec a 0) as [->|Hna]; [reflexivity|].
  now rewrite of_Z_pos by lia.
Qed.

Lemma minimum_of_Z a b :
  0 <= a < 2 ^ 24 -> 0 <= b < 2 ^ 24 ->
  F32.minimum (F32.of_Z a) (F32.of_Z b) = F32.of_Z (Z.min a b).
Proof.
  intros Ha Hb. unfold F32.minimum, F32.ltb, SFltb.
  rewrite compare_of_Z, is_nan_of_Z, orb_false_r by assumption.
  unfold Z.min. destruct (Z.compare_spec a b) as [->|_|_]; reflexivity.
Qed.

Lemma maximum_of_Z a b :
  0 <= a < 2 ^ 24 -> 0 <= b < 2 ^ 24 ->
  F32.maximum (F32.of_Z a) (F32.of_Z b) = F32.of_Z (Z.max a b).
Proof.
  intros Ha Hb. unfold F32.maximum, F32.leb, SFleb.
  rewrite compare_of_Z, is_nan_of_Z, orb_false_r by assumption.
  unfold Z.max. rewrite (Z.compare_antisym a b).
  destruct (a ?= b); reflexivity.
Qed.

Lemma fold_minimum_of_Z t :
  Forall (fun v => 0 <= v < 2 ^ 24) t ->
  forall x, 0 <= x < 2 ^ 24 ->
    fold_left F32.minimum (map F32.of_Z t) (F32.of_Z x) = F32.of_Z (fold_left Z.min t x)
    /\ 0 <= fold_left Z.min t x < 2 ^ 24.
Proof.
  induction 1 as [|v t Hv Ht IH]; intros x Hx; [now split|].
  cbn [map fold_left]. rewrite minimum_of_Z by assumption. apply IH. lia.
Qed.

Lemma fold_maximum_of_Z t :
  Forall (fun v => 0 <= v < 2 ^ 24) t ->
  forall x, 0 <= x < 2 ^ 24 ->
    fold_left F32.maximum (map F32.of_Z t) (F32.of_Z x) = F32.of_Z (fold_left Z.max t x)
    /\ 0 <= fold_left Z.max t x < 2 ^ 24.
Proof.
  induction 1 as [|v t Hv Ht IH]; intros x Hx; [now split|].
  cbn [map fold_left]. rewrite maximum_of_Z by assumption. apply IH. lia.
Qed.

Lemma fold_min_least t : forall x lo,
  In lo (x :: t) -> Forall (fun v => lo <= v) (x :: t) -> fold_left Z.min t x = lo.
Proof.
  induction t as [|v t IH]; intros x lo Hin Hall.
  - destruct Hin as [-> | []]. reflexivity.
  - cbn [fold_left]. apply IH.
    + apply Forall_cons in Hall as [Hx Hall]. apply Forall_cons in Hall as [Hv Hall].
      destruct Hin as [<- | [<- | Hin]]; [left; lia | left; lia | now right].
    + apply Forall_cons in Hall as [Hx Hall]. apply Forall_cons in Hall as [Hv Hall].
      constructor; [lia | exact Hall].
Qed.

Lemma fold_max_greatest t : forall x hi,
  In hi (x :: t) -> Forall (fun v => v <= hi) (x :: t) -> fold_left Z.max t x = hi.
Proof.
  induction t as [|v t IH]; intros x hi Hin Hall.
  - destruct Hin as [-> | []]. reflexivity.
  - cbn [fold_left]. apply IH.
    + apply Forall_cons in Hall as [Hx Hall]. apply Forall_cons in Hall as [Hv Hall].
      destruct Hin as [<- | [<- | Hin]]; [left; lia | left; lia | now right].
    + apply Forall_cons in Hall as [Hx Hall]. apply Forall_cons in Hall as [Hv Hall].
      constructor; [lia | exact Hall].
Qed.

(** one pixel of a raw frame *)
Lemma scale_of_Z lo hi v :
  0 <= lo -> lo <= v <= hi -> lo < hi -> hi < 65536 ->
  scale (F32.of_Z lo) (F32.of_Z hi) (F32.of_Z v) = 255 * (v - lo) / (hi - lo).
Proof.
  intros Hlo Hv Hlt Hhi.
  destruct (Z.eq_dec v lo) as [->|Hne].
  { rewrite scale_min, Z.sub_diag, Z.mul_0_r. reflexivity. }
  unfold scale. rewrite !sub_of_Z by lia.
  rewrite c255_of_Z, mul_of_Z by lia.
  destruct (div_of_Z_trunc ((v - lo) * 255) (hi - lo)) as (M & E & -> & Ht); [lia | lia |].
  unfold F32.to_uint8. rewrite Ht, (Z.mul_comm (v - lo) 255).
  apply Z.mod_small. split.
  - apply Z.div_pos; lia.
  - apply Z.div_lt_upper_bound; lia.
Qed.

(** X6.  On a frame of unsigned 16-bit samples whose largest sample [hi]
    exceeds its smallest sample [lo], the binary32 computation of lines
    208-211 agrees with exact integer arithmetic: every sample [v] becomes
    the pixel [255 * (v - lo) / (hi - lo)], rounded down.  No rounding of
    the three float operations shows in the result. *)
Theorem normalize_raw_frame sh (l : list N) (lo hi : N) :
  Forall (fun n => (n < 65536)%N) l ->
  In lo l -> In hi l ->
  Forall (fun v => (lo <= v <= hi)%N) l ->
  (lo < hi)%N ->
  normalize {| shape := sh; buffer := U16 l |}
  = inr {| im_shape := sh;
           im_pixels := map (fun v => 255 * (Z.of_N v - Z.of_N lo)
                                      / (Z.of_N hi - Z.of_N lo)) l |}.
Proof.
  intros Hrange Hlo Hhi Hall Hlt.
  rewrite Forall_forall in Hrange, Hall.
  assert (Hz : Forall (fun v => 0 <= v < 2 ^ 24) (map Z.of_N l)).
  { apply Forall_forall. intros z Hz.
    apply list_elem_of_In, in_map_iff in Hz as (n & <- & Hn).
    apply list_elem_of_In in Hn. specialize (Hrange n Hn). lia. }
  assert (Hmin : amin (map F32.of_Z (map Z.of_N l)) = Some (F32.of_Z (Z.of_N lo))).
  { destruct l as [|x t]; [destruct Hlo|]. cbn [map amin] in *.
    apply Forall_cons in Hz as [Hx Ht].
    destruct (fold_minimum_of_Z _ Ht _ Hx) as [-> _]. do 2 f_equal.
    apply fold_min_least.
    - apply (in_map Z.of_N) in Hlo. exact Hlo.
    - change (Z.of_N x :: map Z.of_N t) with (map Z.of_N (x :: t)).
      apply Forall_forall. intros z Hin.
      apply list_elem_of_In, in_map_iff in Hin as (n & <- & Hn).
      apply list_elem_of_In in Hn. specialize (Hall n Hn). lia. }
  assert (Hmax : amax (map F32.of_Z (map Z.of_N l)) = Some (F32.of_Z (Z.of_N hi))).
  { destruct l as [|x t]; [destruct Hlo|]. cbn [map amax] in *.
    apply Forall_cons in Hz as [Hx Ht].
    destruct (fold_maximum_of_Z _ Ht _ Hx) as [-> _]. do 2 f_equal.
    apply fold_max_greatest.
    - apply (in_map Z.of_N) in Hhi. exact Hhi.
    - change (Z.of_N x :: map Z.of_N t) with (map Z.of_N (x :: t)).
      apply Forall_forall. intros z Hin.
      apply list_elem_of_In, in_map_iff in Hin as (n & <- & Hn).
      apply list_elem_of_In in Hn. specialize (Hall n Hn). lia. }
  apply list_elem_of_In in Hhi. pose proof (Hrange hi Hhi) as Hhi'.
  unfold normalize. cbn [buffer shape astype_float32].
  rewrite <- (map_map Z.of_N F32.of_Z), Hmin, Hmax.
  unfold F32.ltb, SFltb. rewrite compare_of_Z by lia.
  replace (Z.of_N lo ?= Z.of_N hi) with Lt by (symmetry; apply Z.compare_lt_iff; lia).
  do 2 f_equal. rewrite !map_map. apply map_ext_in. intros v Hv.
  apply list_elem_of_In in Hv. specialize (Hall v Hv).
  apply scale_of_Z; lia.
Qed.

End RawFrames.

(** ** Further properties of the loop *)

Section Polling.
Context `{Externals}.
Variable cam : sensor.

Lemma poll_until_ready pre s post :
  Forall (fun p => is_ready p = false) pre -> is_ready s = true ->
  forall w, w_signal w = None ->
    poll (pre ++ s :: post) w
    = (Ok (), {| w_events := EvGetStatus s
                             :: flat_map (fun p => [EvSleep 10; EvGetStatus p]) (rev pre)
                             ++ w_events w;
                 w_streaming := w_streaming w;
                 w_files := w_files w;
                 w_window := w_window w;
                 w_signal := None |}).
Proof.
  intros Hpre Hs. induction Hpre as [|p pre Hp Hpre IH]; intros w Hw.
  - cbn [app poll rev flat_map]. rewrite bind_eq, stmt_no_signal by exact Hw.
    unfold is_ready in Hs. apply negb_true_iff in Hs. rewrite Hs.
    destruct w; cbn in *; subst; reflexivity.
  - destruct w as [evs st fs win sig]. cbn in Hw. subst sig.
    cbn [app poll]. rewrite bind_eq, stmt_no_signal by reflexivity. cbn [emit].
    unfold is_ready in Hp. apply negb_false_iff in Hp. rewrite Hp.
    rewrite bind_eq, stmt_no_signal by reflexivity. cbn [emit].
    rewrite IH by reflexivity. cbn [w_events w_streaming w_files w_window].
    cbn [rev]. rewrite flat_map_app. cbn [flat_map]. rewrite <- !app_assoc.
    reflexivity.
Qed.

Lemma poll_never_ready sts :
  Forall (fun p => is_ready p = false) sts ->
  forall w, w_signal w = None -> (poll sts w).1 = Pending.
Proof.
  induction 1 as [|p sts Hp Hsts IH]; intros w Hw; [reflexivity|].
  destruct w as [evs st fs win sig]. cbn in Hw. subst sig.
  cbn [poll]. rewrite bind_eq, stmt_no_signal by reflexivity. cbn [emit].
  unfold is_ready in Hp. apply negb_false_iff in Hp. rewrite Hp.
  rewrite bind_eq, stmt_no_signal by reflexivity. cbn [emit].
  now apply IH.
Qed.

(** X7.  Without a data-ready line and while no signal arrives, the wait
    of lines 185-186 reads the status until the first one that has the
    [DATA_READY] bit, sleeping 10 ms after each status that lacks it, and
    touches nothing else; the statuses after that one are not consumed.
    Had the ready status not come, the wait would not have ended. *)
Theorem polling_wait c w pre s post :
  has_data_ready cam = false -> w_signal w = None ->
  c_status c = pre ++ s :: post ->
  Forall (fun p => is_ready p = false) pre -> is_ready s = true ->
  wait_for_data cam c w
  = (Ok (), {| w_events := EvGetStatus s
                           :: flat_map (fun p => [EvSleep 10; EvGetStatus p]) (rev pre)
                           ++ w_events w;
               w_streaming := w_streaming w;
               w_files := w_files w;
               w_window := w_window w;
               w_signal := None |})
  /\ (wait_for_data cam {| c_status := pre; c_read := c_read c; c_key := c_key c |} w).1
     = Pending.
Proof.
  intros Hmode Hw Hst Hpre Hs. unfold wait_for_data. rewrite Hmode, Hst. split.
  - now apply poll_until_ready.
  - now apply poll_never_ready.
Qed.

End Polling.

Section Failures.
Context `{Externals}.
Variable cam : sensor.

Lemma wait_returns c w :
  w_signal w = None -> wait_ends cam c = true ->
  exists w1, wait_for_data cam c w = (Ok (), w1) /\ senses_only w w1 /\ w_signal w1 = None.
Proof.
  intros Hw Hwait. destruct (wait_no_signal cam c w Hw) as (Hs & _ & Hok).
  specialize (Hok Hwait).
  destruct (wait_for_data cam c w) as [r w1]. cbn [fst snd] in *. subst r.
  exists w1. split; [reflexivity|]. split; [exact Hs|].
  now apply (senses_only_signal _ _ Hs).
Qed.

Lemma acquire_raises fd script w e w1 :
  main_loop cam fd script w = (Raise e, w1) -> w_signal w1 = None ->
  acquire cam fd script w = (Raise e, cleaned fd w1).
Proof.
  intros Hloop Hw1. unfold acquire, try_finally.
  now rewrite Hloop, (cleanup_no_signal fd w1 Hw1).
Qed.

(** X8.  While no signal arrives, a driver error in [mi48.read()] ends
    the loop at once: nothing is written or displayed in that pass, the
    answers that would have followed are not consumed, the [finally] block
    runs to its end, and the error is what the program is left with. *)
Theorem driver_error_ends_loop fd c rest w msg :
  w_signal w = None -> wait_ends cam c = true -> c_read c = inl msg ->
  exists w1,
    main_loop cam fd (c :: rest) w = (Raise (Py.DriverError msg), w1)
    /\ senses_only w w1
    /\ acquire cam fd (c :: rest) w = (Raise (Py.DriverError msg), cleaned fd w1).
Proof.
  intros Hw Hwait Hread.
  destruct (wait_returns c w Hw Hwait) as (w1 & Ewait & Hs & Hw1).
  assert (Hloop : main_loop cam fd (c :: rest) w
                  = (Raise (Py.DriverError msg), (emit EvRead w1).2)).
  { cbn [main_loop]. rewrite bind_eq. unfold iteration.
    rewrite bind_eq, Ewait, bind_eq, stmt_no_signal by exact Hw1.
    unfold mi48_read. rewrite Hread. reflexivity. }
  exists (emit EvRead w1).2. split; [exact Hloop|]. split.
  - etrans; [exact Hs|]. apply senses_only_emit. reflexivity.
  - apply acquire_raises; [exact Hloop | exact Hw1].
Qed.

(** X9.  The frame is recorded before it is checked.  While no signal
    arrives and recording is on, a frame that [data_to_frame] rejects, or
    whose image the normalisation rejects, ends the loop with
    [ValueError]; by then its line is in the recording file, flushed,
    nothing of it was displayed, and the [finally] block closes the file
    with that line in it. *)
Theorem frame_is_recorded_before_it_is_checked fd f c rest w data hdr msg :
  w_signal w = None -> wait_ends cam c = true ->
  c_read c = inr (Some data, hdr) ->
  w_files w !! fd = Some f -> f_closed f = false ->
  (data_to_frame data (fpa_shape cam) = inl msg
   \/ exists img, data_to_frame data (fpa_shape cam) = inr img /\ normalize img = inl msg) ->
  exists w1,
    main_loop cam (Some fd) (c :: rest) w = (Raise (Py.ValueError msg), w1)
    /\ w_files w1 !! fd = Some (flushed f (outstr data))
    /\ w_window w1 = w_window w
    /\ acquire cam (Some fd) (c :: rest) w
       = (Raise (Py.ValueError msg), cleaned (Some fd) w1)
    /\ w_files (cleaned (Some fd) w1) !! fd = Some (closed (flushed f (outstr data))).
Proof.
  intros Hw Hwait Hread Hf Hc Hbad.
  destruct (wait_returns c w Hw Hwait) as (w1 & Ewait & Hs & Hw1).
  assert (Hres : w_files w1 = w_files w /\ w_window w1 = w_window w).
  { destruct Hs as (Hres & _). unfold resources in Hres. split; congruence. }
  destruct Hres as (Hfiles & Hwin).
  assert (Hf1 : w_files w1 !! fd = Some f) by now rewrite Hfiles.
  pose proof (lookup_lt_Some _ _ _ Hf1) as Hlt.
  assert (Hit : exists w2,
             iteration cam (Some fd) c w = (Raise (Py.ValueError msg), w2)
             /\ w_files w2 = <[fd := flushed f (outstr data)]> (w_files w1)
             /\ w_window w2 = w_window w1 /\ w_signal w2 = None).
  { unfold iteration. rewrite bind_eq, Ewait.
    rewrite bind_eq, (read_no_signal c w1 _ Hw1 Hread).
    rewrite bind_eq.
    erewrite write_frame_no_signal; [|reflexivity|exact Hf1|exact Hc].
    destruct Hbad as [Hframe | (img & Hframe & Hnorm)].
    - rewrite Hframe, bind_eq, stmt_no_signal by reflexivity.
      eexists. split; [reflexivity|]. cbn. auto.
    - rewrite Hframe, bind_stmt_value by reflexivity.
      unfold logger_debug.
      destruct hdr as [h|]; [destruct (debug_enabled cam)|]; run;
        rewrite Hnorm; eexists; (split; [reflexivity|]); cbn; auto. }
  destruct Hit as (w2 & Hit & Hfiles2 & Hwin2 & Hw2).
  assert (Hloop : main_loop cam (Some fd) (c :: rest) w = (Raise (Py.ValueError msg), w2)).
  { cbn [main_loop]. now rewrite bind_eq, Hit. }
  assert (Hf2 : w_files w2 !! fd = Some (flushed f (outstr data))).
  { rewrite Hfiles2. now apply list_lookup_insert_eq. }
  exists w2. split; [exact Hloop|]. split; [exact Hf2|].
  split; [congruence|]. split; [now apply acquire_raises|].
  cbn. rewrite Hf2. apply list_lookup_insert_eq. now apply lookup_lt_Some in Hf2.
Qed.

End Failures.

Section Sessions.
Context `{Externals}.
Variable cam : sensor.

Lemma main_loop_frames_then fd script frames tail :
  Forall2 (frame_pass cam) script frames ->
  forall w f,
    w_signal w = None -> w_files w !! fd = Some f ->
    f_closed f = false -> f_pending f = EmptyString ->
    exists w' f',
      main_loop cam (Some fd) (script ++ tail) w = main_loop cam (Some fd) tail w'
      /\ w_signal w' = None
      /\ w_files w' !! fd = Some f'
      /\ f_name f' = f_name f
      /\ f_closed f' = false
      /\ f_pending f' = EmptyString
      /\ f_written f' = f_written f +:+ String.concat "" (map outstr frames).
Proof.
  induction 1 as [|c data script frames Hc Hrest IH]; intros w f Hw Hf Hclosed Hpend.
  - exists w, f. repeat (split; [auto; fail|]).
    cbn [map String.concat]. now rewrite app_nil_r_string.
  - destruct Hc as (Hwait & [hdr Hread] & (img & img8u & Hframe & Hnorm) & Hkey).
    destruct (wait_no_signal cam c w Hw) as (Hs & _ & Hok). specialize (Hok Hwait).
    destruct (wait_for_data cam c w) as [r w1] eqn:Ew. cbn [fst snd] in *. subst r.
    pose proof (senses_only_signal _ _ Hs Hw) as Hw1.
    assert (Hfiles : w_files w1 = w_files w).
    { destruct Hs as (Hres & _). unfold resources in Hres. congruence. }
    assert (Hsink : sink_ready (Some fd) w1).
    { exists f. now rewrite Hfiles. }
    pose proof (iteration_frame cam (Some fd) c w w1 data hdr img img8u
                  Ew Hw1 Hread Hsink Hframe Hnorm) as Hit.
    apply Z.eqb_neq in Hkey. rewrite Hkey in Hit.
    cbn [app main_loop]. rewrite bind_eq, Hit.
    destruct (flushed_fresh f (outstr data) Hpend) as (Hwr & Hpe & Hcl).
    match goal with |- context [main_loop _ _ (script ++ tail) ?w2] =>
      destruct (IH w2 (flushed f (outstr data))) as (w' & f' & E & S & L & N & C & P & W)
    end; auto.
    { cbn. rewrite Hfiles, Hf. apply list_lookup_insert_eq. now apply lookup_lt_Some in Hf. }
    exists w', f'. repeat (split; [assumption|]).
    rewrite W, Hwr. cbn [map]. now rewrite concat_cons, app_assoc_string.
Qed.

(** passes that record their frames, then a pass that sees the key [q] *)
Lemma acquire_until_quit fd f script frames last data rest w :
  w_signal w = None ->
  w_files w !! fd = Some f -> f_closed f = false -> f_pending f = EmptyString ->
  Forall2 (frame_pass cam) script frames ->
  wait_ends cam last = true ->
  (exists hdr, c_read last = inr (Some data, hdr)) ->
  (exists img img8u, data_to_frame data (fpa_shape cam) = inr img
                     /\ normalize img = inr img8u) ->
  c_key last = Py.ord_q ->
  exists w',
    acquire cam (Some fd) (script ++ last :: rest) w = (Ok (), w')
    /\ w_files w' !! fd
       = Some {| f_name := f_name f; f_closed := true;
                 f_written := f_written f
                              +:+ String.concat "" (map outstr (frames ++ [data]));
                 f_pending := "" |}
    /\ w_streaming w' = false
    /\ w_window w' = None.
Proof.
  intros Hw Hf Hclosed Hpend Hpass Hwait [hdr Hread] (img & img8u & Hframe & Hnorm) Hkey.
  destruct (main_loop_frames_then fd script frames (last :: rest) Hpass w f Hw Hf Hclosed Hpend)
    as (w1 & f1 & E & Hw1 & Hf1 & Hn1 & Hc1 & Hp1 & Hwr1).
  destruct (wait_no_signal cam last w1 Hw1) as (Hs & _ & Hok). specialize (Hok Hwait).
  destruct (wait_for_data cam last w1) as [r w2] eqn:Ew. cbn [fst snd] in *. subst r.
  pose proof (senses_only_signal _ _ Hs Hw1) as Hw2.
  assert (Hfiles : w_files w2 = w_files w1).
  { destruct Hs as (Hres & _). unfold resources in Hres. congruence. }
  assert (Hsink : sink_ready (Some fd) w2).
  { exists f1. now rewrite Hfiles. }
  pose proof (iteration_frame cam (Some fd) last w1 w2 data hdr img img8u
                Ew Hw2 Hread Hsink Hframe Hnorm) as Hit.
  rewrite Hkey, Z.eqb_refl in Hit.
  assert (Hloop : main_loop cam (Some fd) (script ++ last :: rest) w
                  = (Ok (), (iteration cam (Some fd) last w1).2)).
  { rewrite E. cbn [main_loop]. rewrite bind_eq, Hit. reflexivity. }
  eexists. split.
  { unfold acquire, try_finally. rewrite Hloop, Hit. cbn [snd].
    rewrite cleanup_no_signal by reflexivity. reflexivity. }
  pose proof (lookup_lt_Some _ _ _ Hf1) as Hlt.
  split; [|split; reflexivity].
  cbn. rewrite Hfiles, Hf1.
  rewrite list_lookup_insert_eq by exact Hlt.
  rewrite list_lookup_insert_eq by (now rewrite length_insert).
  unfold closed, flushed. cbn. rewrite Hp1, Hn1, Hwr1, concat_snoc.
  now rewrite app_nil_l_string, app_nil_r_string, app_assoc_string.
Qed.

(** X10.  A recording session from line 160 to the end.  When [record]
    is set and no signal arrives, passes that read the frames [frames] and
    then a pass that reads [data] and sees the key [q] leave exactly one
    new file, named [<camera id>--<timestamp>.dat], closed, with nothing in
    its buffer, holding the lines of [frames] and of [data] in the order
    they were read - as many lines as passes; the sensor is stopped and no
    window is left; the answers after the [q] are not consumed. *)
Theorem recording_session args v script frames last data rest w :
  w_signal w = None ->
  args !! "record"%string = Some v -> Py.truthy v = true ->
  Forall2 (frame_pass cam) script frames ->
  wait_ends cam last = true ->
  (exists hdr, c_read last = inr (Some data, hdr)) ->
  (exists img img8u, data_to_frame data (fpa_shape cam) = inr img
                     /\ normalize img = inr img8u) ->
  c_key last = Py.ord_q ->
  exists w',
    stream cam args (script ++ last :: rest) w = (Ok (), w')
    /\ w_files w' !! length (w_files w)
       = Some {| f_name := get_filename (clock cam) (camera_id_hex cam);
                 f_closed := true;
                 f_written := String.concat "" (map outstr (frames ++ [data]));
                 f_pending := "" |}
    /\ length (w_files w') = S (length (w_files w))
    /\ count_char "010" (String.concat "" (map outstr (frames ++ [data])))
       = S (length script)
    /\ w_streaming w' = false
    /\ w_window w' = None.
Proof.
  intros Hw Hv Ht Hpass Hwait Hread Hok Hkey.
  rewrite (stream_with_record cam args _ v w Hw Hv Ht).
  destruct (acquire_until_quit (length (w_files w))
              {| f_name := get_filename (clock cam) (camera_id_hex cam);
                 f_closed := false; f_written := ""; f_pending := "" |}
              script frames last data rest (recording_started cam w))
    as (w' & Hrun & Hfile & Hst & Hwin); auto.
  { cbn [recording_started w_files]. apply list_lookup_middle. reflexivity. }
  exists w'. split; [exact Hrun|].
  split; [rewrite Hfile; cbn; now rewrite app_nil_l_string|].
  split.
  { destruct (wb_acquire cam is_open open_only (Some (length (w_files w)))
                (script ++ last :: rest) (recording_started cam w)) as (_ & Hlen & _).
    rewrite Hrun in Hlen. cbn [snd] in Hlen. rewrite Hlen.
    cbn [recording_started w_files]. rewrite length_app. cbn. lia. }
  split; [|split; assumption].
  rewrite newlines_concat, length_app. cbn.
  apply Forall2_length in Hpass. lia.
Qed.

End Sessions.

(** ** Signals, and what becomes of the recording *)

Section LateSignal.
Context `{Externals}.
Variable cam : sensor.

(** X11.  A signal that arrives when the loop has ended and the [finally]
    block has not yet reached [fd_data.close()] cuts the block short: the
    handler stops the sensor and destroys the windows, [SystemExit(0)]
    replaces whatever the loop ended with, and the recording file is left
    as it was - the program never closes it. *)
Theorem signal_cuts_the_cleanup_short fd script w r w1 k :
  main_loop cam (Some fd) script w = (r, w1) -> r <> Pending ->
  w_signal w1 = Some k -> (k <= 2)%nat ->
  exists w',
    acquire cam (Some fd) script w = (Raise (Py.SystemExit 0), w')
    /\ w_files w' = w_files w1
    /\ w_streaming w' = false
    /\ w_window w' = None.
Proof.
  intros Hloop Hr Hsig Hk. unfold acquire, try_finally. rewrite Hloop.
  destruct w1 as [evs st fs win sig]. cbn in Hsig. subst sig.
  assert (Hc : exists w',
             cleanup (Some fd) {| w_events := evs; w_streaming := st; w_files := fs;
                                  w_window := win; w_signal := Some k |}
             = (Raise (Py.SystemExit 0), w')
             /\ w_files w' = fs /\ w_streaming w' = false /\ w_window w' = None).
  { destruct k as [|[|[|k]]]; [| | |lia]; unfold cleanup; run;
      eexists; (split; [reflexivity|]); cbn; auto. }
  destruct Hc as (w' & Hc & Hfs & Hst & Hwin). rewrite Hc.
  exists w'. split; [|auto]. destruct r; [reflexivity | reflexivity | congruence].
Qed.

End LateSignal.

Section Interrupts.
Context `{Externals}.
Variable cam : sensor.



















End Interrupts.

Section Records.
Context `{Externals}.
Variable cam : sensor.

Lemma kf_ret {A} (a : A) : keeps_files (mret a).
Proof. intros w. reflexivity. Qed.

Lemma kf_bind {A B} (m : M A) (f : A -> M B) :
  keeps_files m -> (forall a, keeps_files (f a)) -> keeps_files (m ≫= f).
Proof.
  intros Hm Hf w. rewrite bind_eq. specialize (Hm w).
  destruct (m w) as [[a|e|] w1]; cbn [fst snd] in *; try exact Hm.
  now rewrite (Hf a w1).
Qed.

Lemma kf_emit ev : keeps_files (emit ev).
Proof. intros w. reflexivity. Qed.

Lemma kf_raise {A} e : keeps_files (raise (A:=A) e).
Proof. intros w. reflexivity. Qed.

Lemma kf_pending {A} : keeps_files (pending (A:=A)).
Proof. intros w. reflexivity. Qed.

Lemma kf_value_or_raise {A} (r : string + A) : keeps_files (value_or_raise r).
Proof. destruct r; [apply kf_raise | apply kf_ret]. Qed.


Lemma kf_tick : keeps_files tick.
Proof. intros w. unfold tick. destruct (w_signal w) as [[|n]|]; reflexivity. Qed.

Lemma kf_stmt {A} (m : M A) : keeps_files m -> keeps_files (stmt m).
Proof. intros Hm. apply kf_bind; [apply kf_tick | intros _; exact Hm]. Qed.

Lemma kf_mi48_stop a b : keeps_files (mi48_stop a b).
Proof. intros w. reflexivity. Qed.

Lemma kf_mi48_start a b : keeps_files (mi48_start a b).
Proof. intros w. reflexivity. Qed.

Lemma kf_destroy : keeps_files destroyAllWindows.
Proof. intros w. reflexivity. Qed.

Lemma kf_imshow t p : keeps_files (imshow t p).
Proof. intros w. reflexivity. Qed.

Lemma kf_poll sts : keeps_files (poll sts).
Proof.
  induction sts as [|s rest IH]; cbn [poll]; [apply kf_pending|].
  apply kf_bind; [apply kf_stmt, kf_emit | intros _].
  destruct (_ =? _); [|apply kf_ret].
  apply kf_bind; [apply kf_stmt, kf_emit | intros _; exact IH].
Qed.

Lemma kf_wait c : keeps_files (wait_for_data cam c).
Proof.
  unfold wait_for_data. destruct (has_data_ready cam); [apply kf_stmt, kf_emit | apply kf_poll].
Qed.

Lemma kf_read c : keeps_files (mi48_read c).
Proof.
  unfold mi48_read. apply kf_bind; [apply kf_emit | intros _].
  destruct (c_read c); [apply kf_raise | apply kf_ret].
Qed.

Lemma kf_logger_debug s : keeps_files (logger_debug cam s).
Proof. unfold logger_debug. destruct (debug_enabled cam); [apply kf_emit | apply kf_ret]. Qed.

Lemma kf_display img t : keeps_files (display_thermal_image img t).
Proof. apply kf_stmt, kf_imshow. Qed.

Lemma kf_waitKey d c : keeps_files (waitKey d c).
Proof. intros w. reflexivity. Qed.

(** the part of a pass after the frame was recorded *)
Lemma kf_pass_tail (data : ndarray) (hdr : option header) c :
  keeps_files
    (img ← stmt (value_or_raise (data_to_frame data (fpa_shape cam)));
     match hdr with
     | Some h => stmt (logger_debug cam (format_header h +:+ "  " +:+ format_framestats data))
     | None => mret ()
     end;;
     img8u ← stmt (value_or_raise (normalize img));
     display_thermal_image (cv_filter img8u 3 false true false) default_title;;
     key ← stmt (waitKey 1 c);
     if key =? Py.ord_q then mret Break else mret Continue).
Proof.
  apply kf_bind; [apply kf_stmt, kf_value_or_raise | intros img].
  apply kf_bind; [destruct hdr; [apply kf_stmt, kf_logger_debug | apply kf_ret] | intros _].
  apply kf_bind; [apply kf_stmt, kf_value_or_raise | intros img8u].
  apply kf_bind; [apply kf_display | intros _].
  apply kf_bind; [apply kf_stmt, kf_waitKey | intros key].
  destruct (_ =? _); apply kf_ret.
Qed.


#[local] Instance keeps_records_trans : Transitive keeps_records.
Proof.
  intros w1 w2 w3 H12 H23 fd f Hf.
  destruct (H12 fd f Hf) as (f2 & m2 & Hf2 & Hn2 & Hc2).
  destruct (H23 fd f2 Hf2) as (f3 & m3 & Hf3 & Hn3 & Hc3).
  exists f3, (m2 +:+ m3). split; [exact Hf3|]. split; [congruence|].
  now rewrite Hc3, Hc2, app_assoc_string.
Qed.














Lemma try_finally_world {A} (body : M A) (handler : M unit) w :
  (try_finally body handler w).2
  = match (body w).1 with
    | Pending => (body w).2
    | _ => (handler (body w).2).2
    end.
Proof.
  unfold try_finally. destruct (body w) as [[a|e|] w1]; cbn [fst snd];
    try reflexivity; destruct (handler w1) as [[[]|e'|] w2]; reflexivity.
Qed.




Lemma kf_bind_value {A B} (a : A) (f : A -> M B) :
  keeps_files (f a) -> keeps_files (stmt (lift (inr a)) ≫= f).
Proof.
  intros Hf w. rewrite bind_eq. unfold stmt. rewrite bind_eq.
  pose proof (kf_tick w) as Ht.
  destruct (tick w) as [[[]|e|] w1]; cbn [fst snd] in *; cbn; try exact Ht.
  rewrite (Hf w1). exact Ht.
Qed.

Lemma kf_ret_bind {A B} (a : A) (f : A -> M B) :
  keeps_files (f a) -> keeps_files (mret a ≫= f).
Proof. intros Hf w. exact (Hf w). Qed.

Lemma kf_acquire_none script : keeps_files (acquire cam None script).
Proof.
  assert (Hit : forall c, keeps_files (iteration cam None c)).
  { intros c. unfold iteration.
    apply kf_bind; [apply kf_wait | intros _].
    apply kf_bind; [apply kf_stmt, kf_read | intros [[data|] hdr]]; [|apply kf_ret].
    apply kf_bind; [apply kf_ret | intros _]. apply kf_pass_tail. }
  assert (Hloop : keeps_files (main_loop cam None script)).
  { induction script as [|c rest IH]; cbn [main_loop]; [apply kf_pending|].
    apply kf_bind; [apply Hit | intros []]; [exact IH | apply kf_ret]. }
  assert (Hclean : keeps_files (cleanup None)).
  { unfold cleanup.
    apply kf_bind; [apply kf_stmt, kf_emit | intros _].
    apply kf_bind; [apply kf_stmt, kf_mi48_stop | intros _].
    apply kf_bind; [apply kf_ret | intros _].
    apply kf_bind; [apply kf_stmt, kf_destroy | intros _].
    apply kf_stmt, kf_emit. }
  intros w. unfold acquire. rewrite try_finally_world.
  specialize (Hloop w).
  destruct (main_loop cam None script w) as [[a|e|] w1]; cbn [fst snd] in *;
    try exact Hloop; now rewrite Hclean.
Qed.

(** X14.  Without [--record] the program leaves every file alone: from
    line 160 on, whatever the sensor answers and whenever a signal arrives,
    nothing is opened, written, flushed or closed - the files are exactly
    what they were. *)
Theorem run_without_recording_keeps_files args v script w :
  args !! "record"%string = Some v -> Py.truthy v = false ->
  w_files (stream cam args script w).2 = w_files w.
Proof.
  intros Hv Ht. revert w.
  change (keeps_files (stream cam args script)).
  unfold stream, getattr. rewrite Hv.
  apply kf_bind; [|intros _].
  { destruct (2 <=? fw_major cam); [|apply kf_ret].
    do 2 (apply kf_bind; [apply kf_stmt, kf_emit | intros _]).
    apply kf_stmt, kf_emit. }
  apply kf_bind_value. rewrite Ht. apply kf_ret_bind.
  do 2 (apply kf_bind; [apply kf_stmt, kf_emit | intros _]).
  apply kf_bind; [apply kf_stmt, kf_mi48_start | intros _].
  apply kf_acquire_none.
Qed.

End Records.

Section Buffers.
Context `{Externals}.
Variable cam : sensor.











End Buffers.

(** ** The program as a whole *)

Section DeadLoop.
Context `{Externals}.
Variable cam : sensor.

(** the start-up code up to the failing access, for one kind of event
    that it does not emit *)
Lemma wb_startup P args script :
  spares_handler P ->
  (forall s, P (EvPrint s) = false) -> (forall n, P (EvSignal n) = false) ->
  P (EvGpioFactory 4) = false -> P (EvI2C I2C_CHANNEL I2C_ADDRESS) = false ->
  P (EvSpi SPI_BUS SPI_DEVICE 160) = false ->
  P (EvSpiConfig SPI_MODE SPI_MAX_SPEED_HZ 8 false) = false ->
  (forall s, P (EvGpioInput s) = false) -> (forall s, P (EvGpioOutput s) = false) ->
  P EvSensorInit = false -> P EvGetCameraInfo = false ->
  args !! "fps"%string = None ->
  well_behaved P (main_body cam args script).
Proof.
  intros Hh Hprint Hsig H1 H2 H3 H4 Hin Hout H5 H6 Hfps.
  unfold main_body.
  do 5 (apply wb_bind; [apply wb_emit; auto | intros _]).
  do 14 (apply wb_bind; [apply wb_stmt; [exact Hh | apply wb_emit; auto] | intros _]).
  rewrite (getattr_missing args "fps") by exact Hfps.
  cbn [lift]. apply wb_bind_raises.
  - apply wb_stmt; [exact Hh | apply wb_raise; discriminate].
  - intros w a. apply stmt_raise_not_ok.
Qed.

Lemma raises_bind_emit {B} ev (f : unit -> M B) :
  always_raises (f ()) -> always_raises (emit ev ≫= f).
Proof. intros Hf w. rewrite bind_eq. cbn [emit]. apply Hf. Qed.

Lemma raises_bind_stmt_emit {B} ev (f : unit -> M B) :
  always_raises (f ()) -> always_raises (stmt (emit ev) ≫= f).
Proof.
  intros Hf w. rewrite bind_eq. unfold stmt, tick. rewrite bind_eq.
  destruct (w_signal w) as [[|n]|].
  - eexists. run. reflexivity.
  - cbn [set_signal emit]. apply Hf.
  - cbn [emit]. apply Hf.
Qed.

Lemma raises_stmt_raise {A B} e (f : A -> M B) : always_raises (stmt (raise e) ≫= f).
Proof.
  intros w. rewrite bind_eq. unfold stmt, tick. rewrite bind_eq.
  destruct (w_signal w) as [[|n]|]; eexists; run; reflexivity.
Qed.

Lemma raises_main_body args script :
  args !! "fps"%string = None -> always_raises (main_body cam args script).
Proof.
  intros Hfps. unfold main_body.
  do 5 apply raises_bind_emit.
  do 14 apply raises_bind_stmt_emit.
  rewrite (getattr_missing args "fps") by exact Hfps.
  cbn [lift]. apply raises_stmt_raise.
Qed.

(** X16.  With the code as it is, no run gets as far as line 160.  For
    every command line, every sequence of sensor answers and every moment
    of a signal, the program ends with an exception; it has opened no
    file, it has not called [mi48.start] and it has not called
    [mi48.read]: the loop and the recording are never reached. *)
Theorem program_never_streams argv script w :
  count is_open (main cam argv script w).2 = count is_open w
  /\ count is_start (main cam argv script w).2 = count is_start w
  /\ count is_read (main cam argv script w).2 = count is_read w
  /\ length (w_files (main cam argv script w).2) = length (w_files w)
  /\ exists e, (main cam argv script w).1 = Raise e.
Proof.
  destruct (parse_args argv) as [e|args] eqn:Eargs.
  - rewrite (main_rejected _ _ _ _ _ Eargs). cbn. repeat split; eauto.
  - rewrite (main_parsed _ _ _ _ _ Eargs).
    pose proof (parse_args_no_fps _ _ Eargs) as Hfps.
    assert (Hwb : forall P, spares_handler P ->
              (forall s, P (EvPrint s) = false) -> (forall n, P (EvSignal n) = false) ->
              P (EvGpioFactory 4) = false -> P (EvI2C I2C_CHANNEL I2C_ADDRESS) = false ->
              P (EvSpi SPI_BUS SPI_DEVICE 160) = false ->
              P (EvSpiConfig SPI_MODE SPI_MAX_SPEED_HZ 8 false) = false ->
              (forall s, P (EvGpioInput s) = false) -> (forall s, P (EvGpioOutput s) = false) ->
              P EvSensorInit = false -> P EvGetCameraInfo = false ->
              count P (main_body cam args script w).2 = count P w
              /\ length (w_files (main_body cam args script w).2) = length (w_files w)).
    { intros P Hh Hp Hs H1 H2 H3 H4 Hi Ho H5 H6.
      destruct (wb_startup P args script Hh Hp Hs H1 H2 H3 H4 Hi Ho H5 H6 Hfps w)
        as (Hc & Hl & _). now split. }
    split; [apply (Hwb is_open); try reflexivity; now repeat split|].
    split; [apply (Hwb is_start); try reflexivity; now repeat split|].
    split; [apply (Hwb is_read); try reflexivity; now repeat split|].
    split; [apply (Hwb is_open); try reflexivity; now repeat split|].
    apply raises_main_body, Hfps.
Qed.

End DeadLoop.

(** ** The further properties on concrete runs *)

Section MoreBench.


Lemma get_filename_timestamp_witness :
  get_filename "20260101-120000" "A1B2" = get_filename "20260101-120000" "A1B2"
  /\ "20260101-120000"%string = "20260101-120000"%string.
Proof.
  assert (He : get_filename "20260101-120000" "A1B2" = get_filename "20260101-120000" "A1B2")
    by reflexivity.
  split; [exact He|].
  apply (get_filename_timestamp "A1B2" "20260101-120000" "20260101-120000" He).
Defined.

Lemma normalize_nan_frame_witness :
  let img := {| shape := [1; 3]%nat;
                buffer := Floats [S754_finite false 10485760 (-19); S754_nan;
                                  S754_finite false 15781069 (-19)] |} in
  In S754_nan (astype_float32 (buffer img))
  /\ normalize img = inr {| im_shape := [1; 3]%nat; im_pixels := [0; 0; 0] |}.
Proof.
  intros img.
  assert (Hin : In S754_nan (astype_float32 (buffer img))) by (right; left; reflexivity).
  split; [exact Hin|].
  apply (normalize_nan_frame img Hin).
Defined.

Lemma normalize_raw_frame_witness :
  let l := [2931; 2950; 3012; 3100]%N in
  Forall (fun n => (n < 65536)%N) l
  /\ In 2931%N l /\ In 3100%N l
  /\ Forall (fun v => (2931 <= v <= 3100)%N) l
  /\ (2931 < 3100)%N
  /\ normalize {| shape := [2; 2]%nat; buffer := U16 l |}
     = inr {| im_shape := [2; 2]%nat; im_pixels := [0; 28; 122; 255] |}.
Proof.
  intros l.
  assert (H1 : Forall (fun n => (n < 65536)%N) l) by (repeat constructor).
  assert (H2 : In 2931%N l) by (left; reflexivity).
  assert (H3 : In 3100%N l) by (do 3 right; left; reflexivity).
  assert (H4 : Forall (fun v => (2931 <= v <= 3100)%N) l) by (repeat constructor; lia).
  assert (H5 : (2931 < 3100)%N) by lia.
  do 5 (split; [assumption|]).
  exact (normalize_raw_frame [2; 2]%nat l 2931%N 3100%N H1 H2 H3 H4 H5).
Defined.

Lemma polling_wait_witness :
  has_data_ready bench_polling_camera = false
  /\ w_signal (boot None) = None
  /\ c_status bench_polled = [0; 0] ++ 16 :: []
  /\ Forall (fun p => is_ready p = false) [0; 0]
  /\ is_ready 16 = true
  /\ wait_for_data bench_polling_camera bench_polled (boot None)
     = (Ok (), {| w_events := EvGetStatus 16
                              :: flat_map (fun p => [EvSleep 10; EvGetStatus p]) (rev [0; 0])
                              ++ w_events (boot None);
                  w_streaming := w_streaming (boot None);
                  w_files := w_files (boot None);
                  w_window := w_window (boot None);
                  w_signal := None |})
  /\ (wait_for_data bench_polling_camera
        {| c_status := [0; 0]; c_read := c_read bench_polled; c_key := c_key bench_polled |}
        (boot None)).1
     = Pending.
Proof.
  assert (H1 : has_data_ready bench_polling_camera = false) by reflexivity.
  assert (H2 : w_signal (boot None) = None) by reflexivity.
  assert (H3 : c_status bench_polled = [0; 0] ++ 16 :: []) by reflexivity.
  assert (H4 : Forall (fun p => is_ready p = false) [0; 0])
    by (repeat constructor).
  assert (H5 : is_ready 16 = true) by reflexivity.
  do 5 (split; [assumption|]).
  exact (polling_wait bench_polling_camera bench_polled (boot None) [0; 0] 16 [] H1 H2 H3 H4 H5).
Defined.

Lemma driver_error_ends_loop_witness :
  w_signal bench_recording = None
  /\ wait_ends bench_camera bench_failing = true
  /\ c_read bench_failing = inl "SPI transfer failed"%string
  /\ exists w1,
      main_loop bench_camera (Some 0%nat) [bench_failing; bench_pass None 113] bench_recording
      = (Raise (Py.DriverError "SPI transfer failed"), w1)
      /\ senses_only bench_recording w1
      /\ acquire bench_camera (Some 0%nat) [bench_failing; bench_pass None 113] bench_recording
         = (Raise (Py.DriverError "SPI transfer failed"), cleaned (Some 0%nat) w1).
Proof.
  assert (H1 : w_signal bench_recording = None) by reflexivity.
  assert (H2 : wait_ends bench_camera bench_failing = true) by reflexivity.
  assert (H3 : c_read bench_failing = inl "SPI transfer failed"%string) by reflexivity.
  do 3 (split; [assumption|]).
  exact (driver_error_ends_loop bench_camera (Some 0%nat) bench_failing
           [bench_pass None 113] bench_recording "SPI transfer failed" H1 H2 H3).
Defined.

Lemma frame_is_recorded_before_it_is_checked_witness :
  w_signal bench_recording = None
  /\ wait_ends bench_camera bench_short = true
  /\ c_read bench_short = inr (Some bench_short_frame, None)
  /\ w_files bench_recording !! 0%nat = Some bench_file
  /\ f_closed bench_file = false
  /\ data_to_frame bench_short_frame (fpa_shape bench_camera) = inl "cannot reshape array"%string
  /\ exists w1,
      main_loop bench_camera (Some 0%nat) [bench_short] bench_recording
      = (Raise (Py.ValueError "cannot reshape array"), w1)
      /\ w_files w1 !! 0%nat = Some (flushed bench_file (outstr bench_short_frame))
      /\ w_window w1 = w_window bench_recording
      /\ acquire bench_camera (Some 0%nat) [bench_short] bench_recording
         = (Raise (Py.ValueError "cannot reshape array"), cleaned (Some 0%nat) w1)
      /\ w_files (cleaned (Some 0%nat) w1) !! 0%nat
         = Some (closed (flushed bench_file (outstr bench_short_frame))).
Proof.
  assert (H1 : w_signal bench_recording = None) by reflexivity.
  assert (H2 : wait_ends bench_camera bench_short = true) by reflexivity.
  assert (H3 : c_read bench_short = inr (Some bench_short_frame, None)) by reflexivity.
  assert (H4 : w_files bench_recording !! 0%nat = Some bench_file) by reflexivity.
  assert (H5 : f_closed bench_file = false) by reflexivity.
  assert (H6 : data_to_frame bench_short_frame (fpa_shape bench_camera)
               = inl "cannot reshape array"%string) by reflexivity.
  do 6 (split; [assumption|]).
  exact (frame_is_recorded_before_it_is_checked bench_camera 0%nat bench_file bench_short []
           bench_recording bench_short_frame None "cannot reshape array"
           H1 H2 H3 H4 H5 (or_introl H6)).
Defined.

Lemma recording_session_witness :
  let args : gmap string Py.value := <["record"%string := Py.VBool true]> defaults in
  w_signal (boot None) = None
  /\ args !! "record"%string = Some (Py.VBool true)
  /\ Py.truthy (Py.VBool true) = true
  /\ Forall2 (frame_pass bench_camera) [bench_pass (Some 1) (-1)] [bench_frame]
  /\ wait_ends bench_camera (bench_pass None 113) = true
  /\ (exists hdr, c_read (bench_pass None 113) = inr (Some bench_frame, hdr))
  /\ (exists img img8u, data_to_frame bench_frame (fpa_shape bench_camera) = inr img
                        /\ normalize img = inr img8u)
  /\ c_key (bench_pass None 113) = Py.ord_q
  /\ exists w',
      stream bench_camera args ([bench_pass (Some 1) (-1)] ++ bench_pass None 113 :: [])
        (boot None) = (Ok (), w')
      /\ w_files w' !! length (w_files (boot None))
         = Some {| f_name := get_filename (clock bench_camera) (camera_id_hex bench_camera);
                   f_closed := true;
                   f_written := String.concat "" (map outstr ([bench_frame] ++ [bench_frame]));
                   f_pending := "" |}
      /\ length (w_files w') = S (length (w_files (boot None)))
      /\ count_char "010" (String.concat "" (map outstr ([bench_frame] ++ [bench_frame])))
         = S (length [bench_pass (Some 1) (-1)])
      /\ w_streaming w' = false
      /\ w_window w' = None.
Proof.
  intros args.
  assert (H1 : w_signal (boot None) = None) by reflexivity.
  assert (H2 : args !! "record"%string = Some (Py.VBool true)) by reflexivity.
  assert (H3 : Py.truthy (Py.VBool true) = true) by reflexivity.
  assert (H4 : Forall2 (frame_pass bench_camera) [bench_pass (Some 1) (-1)] [bench_frame]).
  { constructor; [apply bench_pass_ok; discriminate | constructor]. }
  assert (H5 : wait_ends bench_camera (bench_pass None 113) = true) by reflexivity.
  assert (H6 : exists hdr, c_read (bench_pass None 113) = inr (Some bench_frame, hdr))
    by (now exists None).
  assert (H7 : exists img img8u, data_to_frame bench_frame (fpa_shape bench_camera) = inr img
                                 /\ normalize img = inr img8u)
    by (eexists _, _; split; reflexivity).
  assert (H8 : c_key (bench_pass None 113) = Py.ord_q) by reflexivity.
  do 8 (split; [assumption|]).
  exact (recording_session bench_camera args (Py.VBool true) [bench_pass (Some 1) (-1)]
           [bench_frame] (bench_pass None 113) bench_frame [] (boot None)
           H1 H2 H3 H4 H5 H6 H7 H8).
Defined.

Lemma signal_cuts_the_cleanup_short_witness :
  let script := [bench_pass None 113] in
  let run := main_loop bench_camera (Some 0%nat) script bench_late_signal in
  run = (run.1, run.2)
  /\ run.1 <> Pending
  /\ w_signal run.2 = Some 0%nat
  /\ (0 <= 2)%nat
  /\ exists w',
      acquire bench_camera (Some 0%nat) script bench_late_signal
      = (Raise (Py.SystemExit 0), w')
      /\ w_files w' = w_files run.2
      /\ w_streaming w' = false
      /\ w_window w' = None.
Proof.
  intros script run.
  assert (Hr : run.1 = Ok ()) by (vm_compute; reflexivity).
  assert (H1 : run = (run.1, run.2)) by apply surjective_pairing.
  assert (H2 : run.1 <> Pending) by (rewrite Hr; discriminate).
  assert (H3 : w_signal run.2 = Some 0%nat) by (vm_compute; reflexivity).
  assert (H4 : (0 <= 2)%nat) by lia.
  do 4 (split; [assumption|]).
  exact (signal_cuts_the_cleanup_short bench_camera 0%nat script bench_late_signal
           run.1 run.2 0%nat H1 H2 H3 H4).
Defined.




Lemma run_without_recording_keeps_files_witness :
  defaults !! "record"%string = Some (Py.VBool false)
  /\ Py.truthy (Py.VBool false) = false
  /\ w_files (stream bench_camera defaults [bench_pass None 113] bench_interrupted).2
     = w_files bench_interrupted.
Proof.
  assert (H1 : defaults !! "record"%string = Some (Py.VBool false)) by reflexivity.
  assert (H2 : Py.truthy (Py.VBool false) = false) by reflexivity.
  do 2 (split; [assumption|]).
  exact (run_without_recording_keeps_files bench_camera defaults (Py.VBool false)
           [bench_pass None 113] bench_interrupted H1 H2).
Defined.

End MoreBench.
